(** * PythonSlowClients: the reconnecting, rate-limited pub/sub subscriber

    A shallow embedding of [slowPubSubReconnect.py]: [ConnectionStats],
    [SlowReader], [Publisher], [BufferTester] and [main].

    Conventions of the embedding.
    - Python [int] is [Z]; Python [float] is the kernel's binary64
      [PrimFloat.float]; [bytes] is [list byte]; [str] is [string].
    - What the program reads from outside (the clock, the random generator,
      the redis client, another thread calling [stop()]) is passed in as an
      explicit argument, so every definition is a total, executable function
      of the object state and of what the outside world answered.
    - A call that may raise returns a [res]; what a function logs, prints or
      sleeps is returned as a list of [event]s, oldest first. *)

From Stdlib Require Import ZArith List String Ascii Bool Lia.
From Stdlib Require Import Strings.Byte.
From Stdlib Require Import DecimalString.
From Stdlib Require Import PrimFloat.
From Stdlib Require Import QArith.
Import ListNotations.

Open Scope string_scope.
Open Scope list_scope.
Open Scope Z_scope.

(** ** Python values, exceptions and results *)

(** The exception classes the program tells apart.  The three redis classes
    are the ones imported from [redis.exceptions]; [ConnectionError] and
    [TimeoutError] are subclasses of [RedisError].  [PyException] stands for
    any other subclass of [Exception] ([ValueError], [AttributeError], ...). *)
Inductive exn : Type :=
| ConnectionError
| TimeoutError
| RedisError
| PyException.

Definition isinstance_RedisError (e : exn) : bool :=
  match e with
  | ConnectionError | TimeoutError | RedisError => true
  | PyException => false
  end.

Definition isinstance_ConnectionError_or_TimeoutError (e : exn) : bool :=
  match e with
  | ConnectionError | TimeoutError => true
  | RedisError | PyException => false
  end.

Inductive res (A : Type) : Type :=
| Ok (a : A)
| Raise (e : exn).
Arguments Ok {A} a.
Arguments Raise {A} e.

(** The values that can sit under the ['data'] key of a pub/sub message. *)
Inductive pyval : Type :=
| PyBytes (b : list byte)
| PyStr (s : string)
| PyInt (n : Z)
| PyNone.

(** *** [str()] and [len()] *)

Definition hex_digit (n : N) : ascii :=
  match n with
  | 0%N => "0" | 1%N => "1" | 2%N => "2" | 3%N => "3" | 4%N => "4"
  | 5%N => "5" | 6%N => "6" | 7%N => "7" | 8%N => "8" | 9%N => "9"
  | 10%N => "a" | 11%N => "b" | 12%N => "c" | 13%N => "d" | 14%N => "e"
  | _ => "f"
  end%char.

Definition byte_eqb (a b : byte) : bool := N.eqb (Byte.to_N a) (Byte.to_N b).

Definition single_quote : byte := Byte.x27.
Definition double_quote : byte := Byte.x22.
Definition backslash : byte := Byte.x5c.

(** The quote [repr] of a bytes object picks: a double quote when the bytes
    hold a single quote and no double quote, a single quote otherwise. *)
Definition bytes_repr_quote (b : list byte) : byte :=
  if existsb (byte_eqb single_quote) b && negb (existsb (byte_eqb double_quote) b)
  then double_quote else single_quote.

(** One byte of a bytes literal as [repr] writes it. *)
Definition bytes_repr_char (quote c : byte) : string :=
  let n := Byte.to_N c in
  let bs := ascii_of_byte backslash in
  if byte_eqb c quote || byte_eqb c backslash
  then String bs (String (ascii_of_byte c) EmptyString)
  else if N.eqb n 9 then String bs "t"
  else if N.eqb n 10 then String bs "n"
  else if N.eqb n 13 then String bs "r"
  else if N.ltb n 32 || N.leb 127 n
  then String bs (String "x"%char
         (String (hex_digit (N.div n 16)) (String (hex_digit (N.modulo n 16)) EmptyString)))
  else String (ascii_of_byte c) EmptyString.

(** [repr(b)] for a bytes object: [b'...']. *)
Definition bytes_repr (b : list byte) : string :=
  let q := bytes_repr_quote b in
  String "b"%char
    (String (ascii_of_byte q)
       (fold_right (fun c acc => String.append (bytes_repr_char q c) acc)
          (String (ascii_of_byte q) EmptyString) b)).

(** [str(v)].  On [bytes] Python 3 has no decoding [str()]: it returns the
    [repr]. *)
Definition py_str (v : pyval) : string :=
  match v with
  | PyBytes b => bytes_repr b
  | PyStr s => s
  | PyInt n => NilZero.string_of_int (Z.to_int n)
  | PyNone => "None"
  end.

Definition py_len (s : string) : Z := Z.of_nat (String.length s).

(** [len(b)] of a bytes object: its number of bytes. *)
Definition bytes_len (b : list byte) : Z := Z.of_nat (List.length b).

(** [random.randint(a, b)]: [ValueError] on an empty range, else a value of
    [a..b] picked by the generator's draw [r]. *)
Definition randint (a b r : Z) : res Z :=
  if a <=? b then Ok (a + r mod (b - a + 1)) else Raise PyException.

(** [random.uniform(a, b)] is [a + (b - a) * random()]; [u] is the draw. *)
Definition uniform (a b u : float) : float := (a + (b - a) * u)%float.

(** ** What a thread does to the outside: logging, sleeping *)

Inductive level : Type := DEBUG | INFO | WARNING | ERROR.

Inductive log_msg : Type :=
| MsgSubscribed (channel : string)
| MsgFailedToConnect (e : exn)
| MsgAttemptingReconnect (attempt : Z)
| MsgReconnectionFailed (e : exn)
| MsgWaiting (delay : Z)
| MsgNewByteLimit (limit : Z)
| MsgReceived (data_size : Z)
| MsgSleeping (sleep_time : float)
| MsgConnectionLost (e : exn)
| MsgFailedToReconnect
| MsgUnexpected (e : exn)
| MsgPublisherStarted
| MsgPublisherError (e : exn)
| MsgPublisherStopped
| MsgStartingTest
| MsgAllStarted
| MsgStoppingTest
| MsgAllStopped.

Inductive event : Type :=
| Log (l : level) (m : log_msg)
| Sleep (seconds : Z)            (* time.sleep of an int *)
| SleepF (seconds : float).      (* time.sleep of a float *)

(** The integer sleeps of a trace, in order. *)
Fixpoint sleeps (tr : list event) : list Z :=
  match tr with
  | [] => []
  | Sleep d :: tr' => d :: sleeps tr'
  | _ :: tr' => sleeps tr'
  end.

(** [time.sleep(t)] of a float: [ValueError] on a negative length or NaN,
    [OverflowError] on a length whose nanoseconds do not fit the 64-bit clock
    (from 2^63 ns on, infinity included). *)
Definition sleep_float (t : float) : res (list event) :=
  if ((0 <=? t) && (t * 1e9 <? 0x1p63))%float
  then Ok [SleepF t] else Raise PyException.

(** [time.sleep(n)] of an int: [ValueError] below 0, [OverflowError] above
    9223372036 seconds, the last whole second of the 64-bit nanosecond clock. *)
Definition sleep_int_ok (n : Z) : bool := (0 <=? n) && (n <=? 9223372036).

(** ** The redis client, at its interface *)

(** A pub/sub handle of the client library, by identity. *)
Definition handle : Type := nat.

(** What [SlowReader.connect] meets: either [redis.Redis(...)], [.pubsub()]
    and [.subscribe(channel)] all return and [h] is the subscribed handle, or
    one of them raises [e]; [assigned] is then the handle already stored in
    [self.pubsub] when the exception left the [try] ([None] when the
    attribute was not assigned yet). *)
Inductive connect_outcome : Type :=
| Subscribed (h : handle)
| ConnectRaised (assigned : option handle) (e : exn).

(** What [pubsub.get_message(timeout=1.0)] answers. *)
Record message : Type := mkMessage { mtype : string; mdata : pyval }.

Inductive recv : Type :=
| RecvNone                      (* timeout: None *)
| RecvMsg (m : message)
| RecvRaise (e : exn).

(** What the three calls under [try:] in [SlowReader.stop] do:
    [self.pubsub.unsubscribe()], [self.pubsub.close()],
    [self.redis_client.close()]; [Some e] is a raise. *)
Record stop_env : Type := mkStopEnv {
  unsubscribe_raises : option exn;
  pubsub_close_raises : option exn;
  client_close_raises : option exn
}.

(** A call that a [stop()] makes on the client library. *)
Inductive client_call : Type :=
| Unsubscribe (h : handle)      (* pubsub.unsubscribe() *)
| PubsubClose (h : handle)      (* pubsub.close() *)
| ClientClose (h : handle).     (* redis_client.close() *)

(** ** ConnectionStats *)

Module ConnectionStats.

Record t : Type := mk {
  bytes_read : Z;
  messages_received : Z;
  reconnection_attempts : Z
}.

(** The dataclass defaults. *)
Definition init : t := mk 0 0 0.

End ConnectionStats.

(** ** SlowReader *)

Module SlowReader.

Record t : Type := mk {
  host : string;
  port : Z;
  channel : string;
  min_bytes_recv : Z;
  max_bytes_recv : Z;
  min_recv_sleep_time : float;
  max_recv_sleep_time : float;
  stats : ConnectionStats.t;
  running : bool;
  reconnect_delay : Z;
  max_reconnect_delay : Z;
  (* self.redis_client and self.pubsub, assigned together by connect();
     None while the attributes do not exist *)
  pubsub : option handle
}.

Definition set_stats (st : ConnectionStats.t) (self : t) : t :=
  mk (host self) (port self) (channel self) (min_bytes_recv self) (max_bytes_recv self)
     (min_recv_sleep_time self) (max_recv_sleep_time self)
     st (running self) (reconnect_delay self) (max_reconnect_delay self) (pubsub self).

Definition set_running (b : bool) (self : t) : t :=
  mk (host self) (port self) (channel self) (min_bytes_recv self) (max_bytes_recv self)
     (min_recv_sleep_time self) (max_recv_sleep_time self)
     (stats self) b (reconnect_delay self) (max_reconnect_delay self) (pubsub self).

Definition set_reconnect_delay (d : Z) (self : t) : t :=
  mk (host self) (port self) (channel self) (min_bytes_recv self) (max_bytes_recv self)
     (min_recv_sleep_time self) (max_recv_sleep_time self)
     (stats self) (running self) d (max_reconnect_delay self) (pubsub self).

Definition set_pubsub (h : option handle) (self : t) : t :=
  mk (host self) (port self) (channel self) (min_bytes_recv self) (max_bytes_recv self)
     (min_recv_sleep_time self) (max_recv_sleep_time self)
     (stats self) (running self) (reconnect_delay self) (max_reconnect_delay self) h.

(** [connect(self)]: [True] after a subscribe, [False] after a [RedisError]
    (logged); any other exception is not caught and leaves the method. *)
Definition connect (o : connect_outcome) (self : t) : res bool * t * list event :=
  match o with
  | Subscribed h =>
      (Ok true,
       set_reconnect_delay 1 (set_pubsub (Some h) self),
       [Log INFO (MsgSubscribed (channel self))])
  | ConnectRaised assigned e =>
      let self' := match assigned with
                   | Some h => set_pubsub (Some h) self
                   | None => self
                   end in
      if isinstance_RedisError e
      then (Ok false, self', [Log ERROR (MsgFailedToConnect e)])
      else (Raise e, self', [])
  end.

(** [__init__]: the fields, then [self.connect()] with its result dropped.
    An exception that leaves [connect] leaves the constructor too. *)
Definition init (host : string) (port : Z) (channel : string)
    (min_bytes_recv max_bytes_recv : Z)
    (min_recv_sleep_time max_recv_sleep_time : float)
    (o : connect_outcome) : res t * list event :=
  let self := mk host port channel min_bytes_recv max_bytes_recv
                 min_recv_sleep_time max_recv_sleep_time
                 ConnectionStats.init true 1 30 None in
  match connect o self with
  | (Ok _, self', tr) => (Ok self', tr)
  | (Raise e, _, tr) => (Raise e, tr)
  end.

(** [stop(self)]: the flag, then unsubscribe and the two closes under a bare
    [except: pass].  None of the three calls assigns a field of [self], so
    whichever of them raises, the object is left as the flag assignment made
    it; the method itself never raises. *)
Definition stop (env : stop_env) (self : t) : t :=
  let self := set_running false self in
  match pubsub self with
  | None => self                          (* AttributeError, swallowed *)
  | Some _ =>
      match unsubscribe_raises env with
      | Some _ => self
      | None =>
          match pubsub_close_raises env with
          | Some _ => self
          | None =>
              match client_close_raises env with
              | Some _ => self
              | None => self
              end
          end
      end
  end.

(** The calls [stop(self)] makes on the client library, in order: those
    under its [try:], up to and including the first that raises.  Without a
    [self.pubsub] the first line of the [try:] raises [AttributeError]
    before any call is made. *)
Definition stop_calls (env : stop_env) (self : t) : list client_call :=
  match pubsub self with
  | None => []
  | Some h =>
      Unsubscribe h ::
        match unsubscribe_raises env with
        | Some _ => []
        | None =>
            PubsubClose h ::
              match pubsub_close_raises env with
              | Some _ => []
              | None => [ClientClose h]
              end
        end
  end.

(** What one turn of the [while self.running] loop of [reconnect] meets:
    either another thread has called [stop()] since the last test of the
    flag, or the turn runs: the stale handle is closed (any error
    swallowed) and [connect] meets [o]. *)
Inductive round : Type :=
| StopCalled (env : stop_env)
| Attempt (o : connect_outcome).

(** How far [reconnect] got on the rounds it was given. *)
Inductive reconnect_result : Type :=
| Returned (b : bool)       (* the method returned b *)
| Retrying.                 (* still inside the while loop, flag set *)

(** The [while self.running] loop of [reconnect]. *)
Fixpoint reconnect_loop (rounds : list round) (self : t)
  : reconnect_result * t * list event :=
  if negb (running self) then (Returned false, self, []) else
  match rounds with
  | [] => (Retrying, self, [])
  | StopCalled env :: rest => reconnect_loop rest (stop env self)
  | Attempt o :: rest =>
      let '(r, self1, tr1) := connect o self in
      match r with
      | Ok true => (Returned true, self1, tr1)
      | _ =>
          let tr2 := match r with
                     | Raise e => [Log ERROR (MsgReconnectionFailed e)]
                     | Ok _ => []
                     end in
          let tr3 := [Log INFO (MsgWaiting (reconnect_delay self1));
                      Sleep (reconnect_delay self1)] in
          let self2 := set_reconnect_delay
                         (Z.min (reconnect_delay self1 * 2) (max_reconnect_delay self1))
                         self1 in
          let '(rr, self3, tr4) := reconnect_loop rest self2 in
          (rr, self3, tr1 ++ tr2 ++ tr3 ++ tr4)
      end
  end.

(** The first two statements of [reconnect]: count the episode, log it. *)
Definition reconnect_enter (self : t) : t * list event :=
  let st := stats self in
  let n := ConnectionStats.reconnection_attempts st + 1 in
  (set_stats (ConnectionStats.mk (ConnectionStats.bytes_read st)
                                 (ConnectionStats.messages_received st) n) self,
   [Log WARNING (MsgAttemptingReconnect n)]).

(** [reconnect(self)]. *)
Definition reconnect (rounds : list round) (self : t)
  : reconnect_result * t * list event :=
  let '(self1, tr1) := reconnect_enter self in
  let '(r, self2, tr2) := reconnect_loop rounds self1 in
  (r, self2, tr1 ++ tr2).

(** [get_random_bytes_limit] and [get_random_sleep_time]. *)
Definition get_random_bytes_limit (r : Z) (self : t) : res Z :=
  randint (min_bytes_recv self) (max_bytes_recv self) r.

Definition get_random_sleep_time (u : float) (self : t) : float :=
  uniform (min_recv_sleep_time self) (max_recv_sleep_time self) u.

(** *** [read_loop] *)

(** The local variables of [read_loop]. *)
Record locals : Type := mkLocals {
  last_read_time : float;
  bytes_read_in_current_second : Z;
  current_byte_limit : Z
}.

(** What one pass through the body of [while self.running] meets. *)
Record iter : Type := mkIter {
  stop_before : option stop_env;  (* stop() from another thread, before the loop test *)
  now : float;                    (* time.time() *)
  rand_limit : Z;                 (* the draw of random.randint, if a window opens *)
  received : recv;                (* self.pubsub.get_message(timeout=1.0), if called *)
  rand_sleep : float;             (* the draw of random.uniform, if the loop sleeps *)
  stop_during : option stop_env;  (* stop() from another thread, while the try body ran *)
  rounds : list round             (* what reconnect() meets, if entered *)
}.

(** Where the thread running [read_loop] stands.  The locals exist only
    while the function runs. *)
Inductive pc : Type :=
| NotStarted
| AtLoopTest (v : locals)       (* about to test [while self.running] *)
| InReconnect (v : locals)      (* inside reconnect(), about to test its flag *)
| Finished                      (* read_loop returned *)
| Died (e : exn).               (* an exception left read_loop *)

(** A reader thread: the [SlowReader] object, which the orchestrator also
    holds in [slow_readers], and the control state of its [read_loop]. *)
Record thread : Type := mkThread {
  self : t;
  at_ : pc;
  trace : list event
}.

Definition maybe_stop (s : option stop_env) (self : t) : t :=
  match s with
  | Some env => stop env self
  | None => self
  end.

(** [current_time - last_read_time >= 1]. *)
Definition window_elapsed (current_time : float) (v : locals) : bool :=
  (1 <=? current_time - last_read_time v)%float.

(** The counting of one received message (the body of
    [if message and message['type'] == 'message']). *)
Definition data_size (m : message) : Z := py_len (py_str (mdata m)).

Definition count_message (m : message) (self : t) (v : locals)
  : t * locals * list event :=
  if String.eqb (mtype m) "message" then
    let d := data_size m in
    let st := stats self in
    (set_stats (ConnectionStats.mk (ConnectionStats.bytes_read st + d)
                                   (ConnectionStats.messages_received st + 1)
                                   (ConnectionStats.reconnection_attempts st)) self,
     mkLocals (last_read_time v) (bytes_read_in_current_second v + d) (current_byte_limit v),
     [Log DEBUG (MsgReceived d)])
  else (self, v, []).

(** The part of the [try] body after the window test: receive while under
    the limit, sleep otherwise. *)
Definition receive_or_sleep (i : iter) (self : t) (v : locals)
  : res unit * t * locals * list event :=
  if bytes_read_in_current_second v <? current_byte_limit v then
    match received i with
    | RecvRaise e => (Raise e, self, v, [])
    | RecvNone => (Ok tt, self, v, [])
    | RecvMsg m =>
        let '(self1, v1, tr) := count_message m self v in
        (Ok tt, self1, v1, tr)
    end
  else
    let sleep_time := get_random_sleep_time (rand_sleep i) self in
    match sleep_float sleep_time with
    | Ok tr => (Ok tt, self, v, Log DEBUG (MsgSleeping sleep_time) :: tr)
    | Raise e => (Raise e, self, v, [Log DEBUG (MsgSleeping sleep_time)])
    end.

(** The [try] body of the loop. *)
Definition try_body (i : iter) (self : t) (v : locals)
  : res unit * t * locals * list event :=
  if window_elapsed (now i) v then
    let v0 := mkLocals (now i) 0 (current_byte_limit v) in
    match get_random_bytes_limit (rand_limit i) self with
    | Raise e => (Raise e, self, v0, [])
    | Ok l =>
        let '(r, self1, v1, tr) := receive_or_sleep i self (mkLocals (now i) 0 l) in
        (r, self1, v1, Log DEBUG (MsgNewByteLimit l) :: tr)
    end
  else receive_or_sleep i self v.

(** What [read_loop] does with the result of [reconnect]. *)
Definition after_reconnect (v : locals) (r : reconnect_result) : pc * list event :=
  match r with
  | Returned true => (AtLoopTest v, [])
  | Returned false => (Finished, [Log ERROR MsgFailedToReconnect])   (* break *)
  | Retrying => (InReconnect v, [])
  end.

(** The two [except] clauses of the loop. *)
Definition handle_exception (e : exn) (i : iter) (self : t) (v : locals)
  : pc * t * list event :=
  if isinstance_ConnectionError_or_TimeoutError e then
    if running self then
      let '(r, self1, tr1) := reconnect (rounds i) self in
      let '(p, tr2) := after_reconnect v r in
      (p, self1, Log ERROR (MsgConnectionLost e) :: tr1 ++ tr2)
    else (AtLoopTest v, self, [])
  else
    (AtLoopTest v, self,
     Log ERROR (MsgUnexpected e) :: (if running self then [Sleep 1] else [])).

(** The statements of [read_loop] before the loop. *)
Definition start (t0 : float) (r : Z) (th : thread) : thread :=
  match at_ th with
  | NotStarted =>
      match get_random_bytes_limit r (self th) with
      | Ok l => mkThread (self th) (AtLoopTest (mkLocals t0 0 l)) (trace th)
      | Raise e => mkThread (self th) (Died e) (trace th)
      end
  | _ => th
  end.

(** One input's worth of progress: from the loop test through the body and
    its handlers, back to the loop test (or into, or further through, the
    loop of [reconnect]). *)
Definition step (i : iter) (th : thread) : thread :=
  match at_ th with
  | NotStarted | Finished | Died _ => th
  | InReconnect v =>
      let '(r, self1, tr1) := reconnect_loop (rounds i) (self th) in
      let '(p, tr2) := after_reconnect v r in
      mkThread self1 p (trace th ++ tr1 ++ tr2)
  | AtLoopTest v =>
      let self0 := maybe_stop (stop_before i) (self th) in
      if negb (running self0) then mkThread self0 Finished (trace th)
      else
        let '(r, self1, v1, tr1) := try_body i self0 v in
        let self2 := maybe_stop (stop_during i) self1 in
        match r with
        | Ok _ => mkThread self2 (AtLoopTest v1) (trace th ++ tr1)
        | Raise e =>
            let '(p, self3, tr2) := handle_exception e i self2 v1 in
            mkThread self3 p (trace th ++ tr1 ++ tr2)
        end
  end.

Definition run (inputs : list iter) (th : thread) : thread :=
  fold_left (fun th i => step i th) inputs th.

(** [reader.stop()] called by the orchestrator on the object the thread
    runs on: the thread's control state is where it was. *)
Definition stopped (env : stop_env) (th : thread) : thread :=
  mkThread (stop env (self th)) (at_ th) (trace th).

(** The loop tests that need no further input: with the flag cleared, the
    loop (of [read_loop] or of [reconnect]) is left. *)
Definition settle (th : thread) : thread :=
  match at_ th with
  | AtLoopTest _ =>
      if running (self th) then th else mkThread (self th) Finished (trace th)
  | InReconnect v =>
      if running (self th) then th
      else mkThread (self th) Finished (trace th ++ [Log ERROR MsgFailedToReconnect])
  | _ => th
  end.

End SlowReader.

(** ** Publisher *)

Module Publisher.

Record t : Type := mk {
  redis_client : handle;
  channel : string;
  min_message_size : Z;
  max_message_size : Z;
  running : bool;
  messages_sent : Z;
  total_bytes_sent : Z
}.

Definition init (client : handle) (channel : string)
    (min_message_size max_message_size : Z) : t :=
  mk client channel min_message_size max_message_size true 0 0.

(** ['x' * n]; empty for [n <= 0]. *)
Fixpoint replicate (n : nat) (c : ascii) : string :=
  match n with
  | O => EmptyString
  | S n' => String c (replicate n' c)
  end.

Definition generate_message (r : Z) (self : t) : res string :=
  match randint (min_message_size self) (max_message_size self) r with
  | Ok message_size => Ok (replicate (Z.to_nat message_size) "x"%char)
  | Raise e => Raise e
  end.

(** What one pass through the body of [publish_loop] meets. *)
Record iter : Type := mkIter {
  rand_size : Z;                    (* the draw of random.randint *)
  publish_raises : option exn       (* self.redis_client.publish(...) *)
}.

(** One pass through the [try]/[except] of [publish_loop]. *)
Definition publish_once (i : iter) (self : t) : t * list event :=
  let failed e := (self, [Log ERROR (MsgPublisherError e); Sleep 1]) in
  match generate_message (rand_size i) self with
  | Raise e => failed e
  | Ok message =>
      match publish_raises i with
      | Some e => failed e
      | None =>
          (mk (redis_client self) (channel self)
              (min_message_size self) (max_message_size self) (running self)
              (messages_sent self + 1)
              (total_bytes_sent self + py_len message),
           [SleepF 0x1.999999999999ap-4%float]   (* time.sleep(0.1) *))
      end
  end.

(** [stop(self)]: the flag, the close (not under a [try]), the log line. *)
Definition stop (close_raises : option exn) (self : t) : res unit * t * list event :=
  let self := mk (redis_client self) (channel self)
                 (min_message_size self) (max_message_size self) false
                 (messages_sent self) (total_bytes_sent self) in
  match close_raises with
  | Some e => (Raise e, self, [])
  | None => (Ok tt, self, [Log INFO MsgPublisherStopped])
  end.

(** The call [stop(self)] makes on the client library: the [close()],
    whatever it then does. *)
Definition stop_calls (self : t) : list client_call :=
  [ClientClose (redis_client self)].

Inductive pc : Type :=
| NotStarted
| AtLoopTest
| Finished.

(** The publisher thread: the [Publisher] object, shared with the
    orchestrator, and the control state of its [publish_loop]. *)
Record thread : Type := mkThread {
  self : t;
  at_ : pc;
  trace : list event
}.

Definition start (th : thread) : thread :=
  match at_ th with
  | NotStarted => mkThread (self th) AtLoopTest (trace th ++ [Log INFO MsgPublisherStarted])
  | _ => th
  end.

Definition step (i : iter) (th : thread) : thread :=
  match at_ th with
  | AtLoopTest =>
      if running (self th) then
        let '(self1, tr) := publish_once i (self th) in
        mkThread self1 AtLoopTest (trace th ++ tr)
      else mkThread (self th) Finished (trace th)
  | _ => th
  end.

Definition run (inputs : list iter) (th : thread) : thread :=
  fold_left (fun th i => step i th) inputs th.

Definition settle (th : thread) : thread :=
  match at_ th with
  | AtLoopTest => if running (self th) then th else mkThread (self th) Finished (trace th)
  | _ => th
  end.

End Publisher.

(** ** BufferTester and main: the orchestrator *)

(** The lines the program prints. *)
Inductive line : Type :=
| ErrMessageSize
| ErrBytesRecv
| ErrSleepTime
| ErrNoConnect (host : string) (port : Z)
| ErrDetails (e : exn)
| BannerStarting
| BannerConnections (n : Z)
| BannerRate (lo hi : Z)
| BannerSleep (lo hi : float)
| BannerSize (lo hi : Z)
| BannerDuration (d : Z)
| BannerCtrlC
| LineStopping
| StatsHeader
| StatsSent (n : Z)
| StatsBytesSent (n : Z)
| StatsAverage (avg : Q)      (* the quotient that [:.2f] then formats *)
| StatsReceived (n : Z)
| StatsBytesRead (n : Z)
| StatsReconnections (n : Z)
| PerConnectionHeader
| ConnectionHeader (i : Z)
| ConnectionMessages (n : Z)
| ConnectionBytes (n : Z)
| ConnectionReconnects (n : Z).

(** What the main thread does, in program order. *)
Inductive action : Type :=
| Print (l : line)
| LogMain (l : level) (m : log_msg)
| Ping (host : string) (port : Z)        (* the pre-flight redis_client.ping() *)
| NewSlowReader (i : nat)                (* SlowReader(...), which connects *)
| NewPublisher
| InstallSigint
| StartReader (i : nat)                  (* reader_threads[i].start() *)
| StartPublisher
| SleepDuration (d : Z)
| PublisherStop
| PublisherJoin
| ReaderStop (i : nat)
| ReaderJoin (i : nat).

Module BufferTester.

(** [slow_readers] and [reader_threads] are kept as one list: the i-th
    thread runs the [read_loop] of the i-th reader, on the same object. *)
Record t : Type := mk {
  channel : string;
  slow_readers : list SlowReader.thread;
  publisher : Publisher.thread
}.

(** What the threads meet while the orchestrator runs. *)
Record env : Type := mkEnv {
  connects : nat -> connect_outcome;         (* reader i's connect in __init__ *)
  publisher_client : handle;
  reader_start : nat -> float * Z;           (* time.time() and the first draw *)
  reader_run : nat -> list SlowReader.iter;  (* until the orchestrator stops reader i *)
  reader_stop : nat -> stop_env;             (* the client calls of reader i's stop() *)
  reader_drain : nat -> list SlowReader.iter;(* from its stop() to the end of its join *)
  publisher_run : list Publisher.iter;       (* until the orchestrator stops the publisher *)
  publisher_close : option exn;              (* redis_client.close() in Publisher.stop *)
  publisher_drain : list Publisher.iter      (* from its stop() to the end of its join *)
}.

(** The [for i in range(num_connections)] loop of [__init__]. *)
Fixpoint create_readers (mk_reader : nat -> res SlowReader.t * list event)
    (ids : list nat) : res (list SlowReader.thread) * list action :=
  match ids with
  | [] => (Ok [], [])
  | i :: rest =>
      match mk_reader i with
      | (Raise e, _) => (Raise e, [NewSlowReader i])
      | (Ok r, tr) =>
          let '(rs, acts) := create_readers mk_reader rest in
          (match rs with
           | Ok l => Ok (SlowReader.mkThread r SlowReader.NotStarted tr :: l)
           | Raise e => Raise e
           end,
           NewSlowReader i :: acts)
      end
  end.

Definition init (e : env) (host : string) (port : Z) (num_connections : Z)
    (min_bytes_recv max_bytes_recv : Z)
    (min_recv_sleep_time max_recv_sleep_time : float)
    (min_message_size max_message_size : Z) : res t * list action :=
  let channel := "test_channel" in
  let mk_reader i :=
    SlowReader.init host port channel min_bytes_recv max_bytes_recv
                    min_recv_sleep_time max_recv_sleep_time (connects e i) in
  match create_readers mk_reader (seq 0 (Z.to_nat num_connections)) with
  | (Raise x, acts) => (Raise x, acts)
  | (Ok readers, acts) =>
      let p := Publisher.init (publisher_client e) channel
                              min_message_size max_message_size in
      (Ok (mk channel readers (Publisher.mkThread p Publisher.NotStarted [])),
       acts ++ [NewPublisher])
  end.

(** The i-th element of a list through [f i], indices from [i0]. *)
Fixpoint mapi {A B : Type} (f : nat -> A -> B) (i0 : nat) (l : list A) : list B :=
  match l with
  | [] => []
  | a :: l' => f i0 a :: mapi f (S i0) l'
  end.

Definition ids (self : t) : list nat := seq 0 (List.length (slow_readers self)).

(** [start(self)]. *)
Definition start (e : env) (self : t) : t * list action :=
  (mk (channel self)
      (mapi (fun i th => SlowReader.start (fst (reader_start e i)) (snd (reader_start e i)) th)
            0 (slow_readers self))
      (Publisher.start (publisher self)),
   [LogMain INFO MsgStartingTest]
     ++ map StartReader (ids self)
     ++ [StartPublisher; LogMain INFO MsgAllStarted]).

(** [start(self)] cut short once [k] threads have been started, in the
    order of the method: the readers by index, the publisher last. *)
Definition start_upto (e : env) (k : nat) (self : t) : t * list action :=
  let n := List.length (slow_readers self) in
  (mk (channel self)
      (mapi (fun i th =>
               if (i <? k)%nat
               then SlowReader.start (fst (reader_start e i)) (snd (reader_start e i)) th
               else th)
            0 (slow_readers self))
      (if (n <? k)%nat then Publisher.start (publisher self) else publisher self),
   [LogMain INFO MsgStartingTest]
     ++ map StartReader (firstn k (ids self))
     ++ (if (n <? k)%nat then [StartPublisher] else [])).

(** The threads running on their own, between [start] and [stop]. *)
Definition threads_run (e : env) (self : t) : t :=
  mk (channel self)
     (mapi (fun i th => SlowReader.run (reader_run e i) th) 0 (slow_readers self))
     (Publisher.run (publisher_run e) (publisher self)).

(** [thread.join()]: the thread runs until its function has returned.  On a
    thread that was never started, [join] raises [RuntimeError]. *)
Definition join_reader (e : env) (i : nat) (th : SlowReader.thread)
  : res SlowReader.thread :=
  match SlowReader.at_ th with
  | SlowReader.NotStarted => Raise PyException
  | _ => Ok (SlowReader.settle (SlowReader.run (reader_drain e i) th))
  end.

Definition join_publisher (e : env) (th : Publisher.thread) : res Publisher.thread :=
  match Publisher.at_ th with
  | Publisher.NotStarted => Raise PyException
  | _ => Ok (Publisher.settle (Publisher.run (publisher_drain e) th))
  end.

(** The [for thread in self.reader_threads: thread.join()] loop, from
    index [i]: the first [join] that raises ends it. *)
Fixpoint join_readers (e : env) (i : nat) (l : list SlowReader.thread)
  : res unit * list SlowReader.thread * list action :=
  match l with
  | [] => (Ok tt, [], [])
  | th :: rest =>
      match join_reader e i th with
      | Raise x => (Raise x, th :: rest, [ReaderJoin i])
      | Ok th' =>
          let '(r, rest', acts) := join_readers e (S i) rest in
          (r, th' :: rest', ReaderJoin i :: acts)
      end
  end.

Definition stop_reader (e : env) (i : nat) (th : SlowReader.thread) : SlowReader.thread :=
  SlowReader.stopped (reader_stop e i) th.

(** [stop(self)]: publisher first, then the readers.  An exception of
    [publisher.stop()] or of a [join] leaves the method where it was raised:
    nothing after it runs. *)
Definition stop (e : env) (self : t) : res unit * t * list action :=
  let p := publisher self in
  let '(r, pself, ptr) := Publisher.stop (publisher_close e) (Publisher.self p) in
  let p1 := Publisher.mkThread pself (Publisher.at_ p) (Publisher.trace p) in
  match r with
  | Raise x =>
      (Raise x, mk (channel self) (slow_readers self) p1,
       [LogMain INFO MsgStoppingTest; PublisherStop])
  | Ok _ =>
      match join_publisher e p1 with
      | Raise x =>
          (Raise x, mk (channel self) (slow_readers self) p1,
           [LogMain INFO MsgStoppingTest; PublisherStop; PublisherJoin])
      | Ok p2 =>
          let rs1 := mapi (stop_reader e) 0 (slow_readers self) in
          let '(rj, rs2, joins) := join_readers e 0 rs1 in
          (rj, mk (channel self) rs2 p2,
           [LogMain INFO MsgStoppingTest; PublisherStop; PublisherJoin]
             ++ map ReaderStop (ids self)
             ++ joins
             ++ match rj with
                | Ok _ => [LogMain INFO MsgAllStopped]
                | Raise _ => []
                end)
      end
  end.

Definition sum (l : list Z) : Z := fold_right Z.add 0 l.

Definition reader_stats (th : SlowReader.thread) : ConnectionStats.t :=
  SlowReader.stats (SlowReader.self th).

(** The three lines printed for one reader. *)
Definition connection_lines (i : nat) (th : SlowReader.thread) : list line :=
  [ConnectionHeader (Z.of_nat i + 1);
   ConnectionMessages (ConnectionStats.messages_received (reader_stats th));
   ConnectionBytes (ConnectionStats.bytes_read (reader_stats th));
   ConnectionReconnects (ConnectionStats.reconnection_attempts (reader_stats th))].

(** [print_stats(self)]. *)
Definition print_stats (self : t) : list line :=
  let rs := slow_readers self in
  let p := Publisher.self (publisher self) in
  let total_bytes_read := sum (map (fun r => ConnectionStats.bytes_read (reader_stats r)) rs) in
  let total_messages_received :=
    sum (map (fun r => ConnectionStats.messages_received (reader_stats r)) rs) in
  let total_reconnections :=
    sum (map (fun r => ConnectionStats.reconnection_attempts (reader_stats r)) rs) in
  [StatsHeader;
   StatsSent (Publisher.messages_sent p);
   StatsBytesSent (Publisher.total_bytes_sent p)]
  ++ (if Publisher.messages_sent p >? 0
      then [StatsAverage (Qmake (Publisher.total_bytes_sent p)
                                (Z.to_pos (Publisher.messages_sent p)))]
      else [])
  ++ [StatsReceived total_messages_received;
      StatsBytesRead total_bytes_read;
      StatsReconnections total_reconnections;
      PerConnectionHeader]
  ++ List.concat (mapi connection_lines 0 rs).

End BufferTester.

(** The parsed command line. *)
Record args : Type := mkArgs {
  host : string;
  port : Z;
  connections : Z;
  min_bytes_recv : Z;
  max_bytes_recv : Z;
  min_recv_sleep_time : float;
  max_recv_sleep_time : float;
  min_message_size : Z;
  max_message_size : Z;
  duration : Z
}.

(** Where the main thread stands when SIGINT is delivered.  [signal.signal]
    installs the handler before the banner is printed and before
    [tester.start()], so the handler can run at any point from there on.
    Two kinds of run are left out: a signal before [signal.signal] (the
    default handler, [KeyboardInterrupt]), and a signal that arrives once
    [time.sleep] has returned, while the main thread is inside its own
    [tester.stop()] or [print_stats()]. *)
Inductive sigint : Type :=
| NoSigint
| InBanner (k : nat)    (* [k] lines of the banner printed, no thread started *)
| InStart (k : nat)     (* in [tester.start()] or right after it: [k] threads
                           started, the readers by index, the publisher last *)
| InSleep.              (* inside [time.sleep(duration)] *)

(** What [main] meets. *)
Record world : Type := mkWorld {
  preflight : option exn;       (* the try block around redis_client.ping() *)
  threads : BufferTester.env;
  interrupt : sigint
}.

(** How the process ends. *)
Inductive ending : Type :=
| Exit (code : Z)               (* sys.exit(code) *)
| Returned                      (* main() returned *)
| Uncaught (e : exn).           (* an exception left main() *)

(** The three [if ... > ...] tests under [# Validate arguments]: the message
    of the first that fires. *)
Definition validate (a : args) : option line :=
  if min_message_size a >? max_message_size a then Some ErrMessageSize
  else if min_bytes_recv a >? max_bytes_recv a then Some ErrBytesRecv
  else if (max_recv_sleep_time a <? min_recv_sleep_time a)%float then Some ErrSleepTime
  else None.

Definition banner (a : args) : list action :=
  map Print
    [BannerStarting;
     BannerConnections (connections a);
     BannerRate (min_bytes_recv a) (max_bytes_recv a);
     BannerSleep (min_recv_sleep_time a) (max_recv_sleep_time a);
     BannerSize (min_message_size a) (max_message_size a);
     BannerDuration (duration a);
     BannerCtrlC].

(** [tester.stop(); tester.print_stats()], the tail of [main] and the body
    of [signal_handler]. *)
Definition shutdown (e : BufferTester.env) (tester : BufferTester.t)
  : res unit * BufferTester.t * list action :=
  let '(r, tester1, acts) := BufferTester.stop e tester in
  match r with
  | Raise x => (Raise x, tester1, acts)
  | Ok _ => (Ok tt, tester1, acts ++ map Print (BufferTester.print_stats tester1))
  end.

(** [signal_handler(signum, frame)]: the line, the shutdown, [sys.exit(0)].
    An exception of [tester.stop()] leaves the handler, and with it [main]. *)
Definition signal_handler (e : BufferTester.env) (tester : BufferTester.t)
  : list action * ending * BufferTester.t :=
  let '(r, tester1, acts) := shutdown e tester in
  (Print LineStopping :: acts,
   match r with
   | Ok _ => Exit 0
   | Raise x => Uncaught x
   end,
   tester1).

(** [main()]: what the main thread did, how the process ended, and the
    tester as it was left (when one was built). *)
Definition main (a : args) (w : world) : list action * ending * option BufferTester.t :=
  match validate a with
  | Some err => ([Print err], Exit 1, None)
  | None =>
      match preflight w with
      | Some e =>
          if isinstance_RedisError e
          then ([Ping (host a) (port a);
                 Print (ErrNoConnect (host a) (port a));
                 Print (ErrDetails e)], Exit 1, None)
          else ([Ping (host a) (port a)], Uncaught e, None)
      | None =>
          match BufferTester.init (threads w) (host a) (port a) (connections a)
                  (min_bytes_recv a) (max_bytes_recv a)
                  (min_recv_sleep_time a) (max_recv_sleep_time a)
                  (min_message_size a) (max_message_size a) with
          | (Raise x, acts) => (Ping (host a) (port a) :: acts, Uncaught x, None)
          | (Ok tester, acts) =>
              let sleeping (interrupted : bool) :=
                let '(tester1, started) := BufferTester.start (threads w) tester in
                let pre := Ping (host a) (port a) :: acts ++ [InstallSigint]
                             ++ banner a ++ started ++ [SleepDuration (duration a)] in
                if negb (sleep_int_ok (duration a))
                then (pre, Uncaught PyException, Some tester1)   (* time.sleep raises *)
                else
                  let tester2 := BufferTester.threads_run (threads w) tester1 in
                  if interrupted
                  then
                    let '(handled, fin, tester3) := signal_handler (threads w) tester2 in
                    (pre ++ handled, fin, Some tester3)
                  else
                    let '(r, tester3, stopped) := shutdown (threads w) tester2 in
                    (pre ++ stopped,
                     match r with
                     | Ok _ => Returned
                     | Raise x => Uncaught x
                     end,
                     Some tester3) in
              match interrupt w with
              | NoSigint => sleeping false
              | InSleep => sleeping true
              | InBanner k =>
                  let '(handled, fin, tester1) := signal_handler (threads w) tester in
                  (Ping (host a) (port a) :: acts ++ [InstallSigint]
                     ++ firstn k (banner a) ++ handled,
                   fin, Some tester1)
              | InStart k =>
                  let '(tester1, started) :=
                    BufferTester.start_upto (threads w) k tester in
                  let tester2 := BufferTester.threads_run (threads w) tester1 in
                  let '(handled, fin, tester3) := signal_handler (threads w) tester2 in
                  (Ping (host a) (port a) :: acts ++ [InstallSigint]
                     ++ banner a ++ started ++ handled,
                   fin, Some tester3)
              end
          end
      end
  end.

(** * Properties *)

(** ** Predicates used in the statements *)

Definition connect_fails (o : connect_outcome) : bool :=
  match o with
  | Subscribed _ => false
  | ConnectRaised _ _ => true
  end.

(** The delay [reconnect] sleeps after its [j]-th failed attempt (from 0),
    when it was entered with delay [d] and cap [cap]: [d] doubled and capped
    [j] times, as the loop does it. *)
Fixpoint backoff (d cap : Z) (j : nat) : Z :=
  match j with
  | O => d
  | S j' => backoff (Z.min (d * 2) cap) cap j'
  end.

Definition reconnection_attempts (self : SlowReader.t) : Z :=
  ConnectionStats.reconnection_attempts (SlowReader.stats self).

Definition bytes_read (self : SlowReader.t) : Z :=
  ConnectionStats.bytes_read (SlowReader.stats self).

Definition messages_received (self : SlowReader.t) : Z :=
  ConnectionStats.messages_received (SlowReader.stats self).

(** How the counters of one reader may differ between an earlier and a
    later moment: none has gone down, and [bytes_read] has moved only if
    [messages_received] has. *)
Definition evolves (a b : ConnectionStats.t) : Prop :=
  ConnectionStats.bytes_read a <= ConnectionStats.bytes_read b
  /\ ConnectionStats.messages_received a <= ConnectionStats.messages_received b
  /\ ConnectionStats.reconnection_attempts a <= ConnectionStats.reconnection_attempts b
  /\ (ConnectionStats.messages_received b = ConnectionStats.messages_received a ->
      ConnectionStats.bytes_read b = ConnectionStats.bytes_read a).

(** What can happen to a reader thread in its life: its loop makes a pass,
    the orchestrator calls [stop()] on its object, the orchestrator joins
    it. *)
Inductive life_event : Type :=
| Pass (i : SlowReader.iter)
| OrchestratorStop (env : stop_env)
| OrchestratorJoin.

Definition live (th : SlowReader.thread) (ev : life_event) : SlowReader.thread :=
  match ev with
  | Pass i => SlowReader.step i th
  | OrchestratorStop env => SlowReader.stopped env th
  | OrchestratorJoin => SlowReader.settle th
  end.

Definition lifetime (evs : list life_event) (th : SlowReader.thread) : SlowReader.thread :=
  fold_left live evs th.

(** The locals of [read_loop], while it runs. *)
Definition locals_of (p : SlowReader.pc) : option SlowReader.locals :=
  match p with
  | SlowReader.AtLoopTest v | SlowReader.InReconnect v => Some v
  | _ => None
  end.

(** Every message this pass may receive counts for at most [M]. *)
Definition sizes_within (M : Z) (i : SlowReader.iter) : Prop :=
  match SlowReader.received i with
  | RecvMsg m => SlowReader.data_size m <= M
  | _ => True
  end.

(** The window counter is zero or below the limit in force plus [M]. *)
Definition within_overshoot (M : Z) (v : SlowReader.locals) : Prop :=
  SlowReader.bytes_read_in_current_second v = 0
  \/ SlowReader.bytes_read_in_current_second v < SlowReader.current_byte_limit v + M.

(** The thread's function has returned, or an exception has ended it. *)
Definition reader_finished (th : SlowReader.thread) : Prop :=
  match SlowReader.at_ th with
  | SlowReader.Finished | SlowReader.Died _ => True
  | _ => False
  end.

Definition publisher_finished (th : Publisher.thread) : Prop :=
  Publisher.at_ th = Publisher.Finished.

(** The actions of a shutdown, and the lines of the statistics report. *)
Definition is_shutdown (a : action) : bool :=
  match a with
  | PublisherStop | PublisherJoin | ReaderStop _ | ReaderJoin _ => true
  | _ => false
  end.

Definition is_stats_line (l : line) : bool :=
  match l with
  | StatsHeader | StatsSent _ | StatsBytesSent _ | StatsAverage _
  | StatsReceived _ | StatsBytesRead _ | StatsReconnections _
  | PerConnectionHeader | ConnectionHeader _ | ConnectionMessages _
  | ConnectionBytes _ | ConnectionReconnects _ => true
  | _ => false
  end.

(** An action that is neither part of a shutdown nor a line of the report. *)
Definition before_shutdown (a : action) : bool :=
  match a with
  | Print l => negb (is_stats_line l)
  | _ => negb (is_shutdown a)
  end.

(** A line of the statistics report, printed. *)
Definition prints_report (a : action) : bool :=
  match a with
  | Print l => is_stats_line l
  | _ => false
  end.

(** The signal, if one comes, comes during the wait. *)
Definition in_wait (s : sigint) : bool :=
  match s with
  | NoSigint | InSleep => true
  | _ => false
  end.

(** How a run whose shutdown completed ends, and the line its trigger
    prints: [main] returns after the wait, the handler says so and calls
    [sys.exit(0)]. *)
Definition clean_ending (s : sigint) : ending :=
  match s with
  | NoSigint => Returned
  | _ => Exit 0
  end.

Definition stopping_line (s : sigint) : list action :=
  match s with
  | NoSigint => []
  | _ => [Print LineStopping]
  end.

(** An action that talks to the broker, or builds or starts a unit. *)
Definition touches_broker_or_units (a : action) : bool :=
  match a with
  | Ping _ _ | NewSlowReader _ | NewPublisher | StartReader _ | StartPublisher => true
  | _ => false
  end.

(** ** The reconnect loop *)

Section Reconnect.

Import SlowReader.

Lemma stop_fields (env : stop_env) (self : t) :
  stop env self = set_running false self.
Proof.
  unfold stop.
  destruct (pubsub (set_running false self)); [|reflexivity].
  destruct (unsubscribe_raises env); [reflexivity|].
  destruct (pubsub_close_raises env); [reflexivity|].
  destruct (client_close_raises env); reflexivity.
Qed.

Lemma connect_stats (o : connect_outcome) (self : t) :
  stats (snd (fst (connect o self))) = stats self.
Proof.
  destruct o as [h | [h|] e]; simpl; try destruct (isinstance_RedisError e); reflexivity.
Qed.

Lemma connect_running (o : connect_outcome) (self : t) :
  running (snd (fst (connect o self))) = running self.
Proof.
  destruct o as [h | [h|] e]; simpl; try destruct (isinstance_RedisError e); reflexivity.
Qed.

Lemma connect_max_delay (o : connect_outcome) (self : t) :
  max_reconnect_delay (snd (fst (connect o self))) = max_reconnect_delay self.
Proof.
  destruct o as [h | [h|] e]; simpl; try destruct (isinstance_RedisError e); reflexivity.
Qed.

Lemma connect_true_iff (o : connect_outcome) (self : t) :
  fst (fst (connect o self)) = Ok true <-> connect_fails o = false.
Proof.
  destruct o as [h | a e]; simpl.
  - split; reflexivity.
  - destruct (isinstance_RedisError e); simpl; split; discriminate.
Qed.

Lemma connect_failed_delay (o : connect_outcome) (self : t) :
  connect_fails o = true ->
  reconnect_delay (snd (fst (connect o self))) = reconnect_delay self.
Proof.
  destruct o as [h | [h|] e]; simpl; try discriminate;
    destruct (isinstance_RedisError e); reflexivity.
Qed.

Lemma connect_ok_delay (o : connect_outcome) (self : t) :
  connect_fails o = false ->
  reconnect_delay (snd (fst (connect o self))) = 1.
Proof. destruct o; simpl; [reflexivity | discriminate]. Qed.

(** The loop of [reconnect] touches no counter. *)
Lemma reconnect_loop_stats (rounds : list round) :
  forall self, stats (snd (fst (reconnect_loop rounds self))) = stats self.
Proof.
  induction rounds as [|r rest IH]; intros self; simpl.
  - destruct (running self); reflexivity.
  - destruct (running self) eqn:Hrun; simpl; [|reflexivity].
    destruct r as [env | o].
    + rewrite IH, stop_fields. reflexivity.
    + pose proof (connect_stats o self) as Hst.
      destruct (connect o self) as [[r self1] tr1]; simpl in Hst.
      destruct r as [[|]|e]; simpl; try assumption;
        match goal with
        | |- context [reconnect_loop rest ?s] =>
            specialize (IH s); destruct (reconnect_loop rest s) as [[rr s3] tr4];
            simpl in *; rewrite IH; assumption
        end.
Qed.

Lemma reconnect_loop_max_delay (rounds : list round) :
  forall self,
    max_reconnect_delay (snd (fst (reconnect_loop rounds self))) = max_reconnect_delay self.
Proof.
  induction rounds as [|r rest IH]; intros self; simpl.
  - destruct (running self); reflexivity.
  - destruct (running self) eqn:Hrun; simpl; [|reflexivity].
    destruct r as [env | o].
    + rewrite IH, stop_fields. reflexivity.
    + pose proof (connect_max_delay o self) as Hst.
      destruct (connect o self) as [[r self1] tr1]; simpl in Hst.
      destruct r as [[|]|e]; simpl; try assumption;
        match goal with
        | |- context [reconnect_loop rest ?s] =>
            specialize (IH s); destruct (reconnect_loop rest s) as [[rr s3] tr4];
            simpl in *; rewrite IH; assumption
        end.
Qed.

(** [reconnect] returns [True] only out of a successful [connect], which
    has just reset the delay. *)
Lemma reconnect_loop_true_delay (rounds : list round) :
  forall self,
    fst (fst (reconnect_loop rounds self)) = Returned true ->
    reconnect_delay (snd (fst (reconnect_loop rounds self))) = 1.
Proof.
  induction rounds as [|r rest IH]; intros self; simpl.
  - destruct (running self); simpl; discriminate.
  - destruct (running self) eqn:Hrun; simpl; [|discriminate].
    destruct r as [env | o]; [apply IH|].
    pose proof (connect_true_iff o self) as Hiff.
    pose proof (connect_ok_delay o self) as Hd.
    destruct (connect o self) as [[r self1] tr1]; simpl in Hiff, Hd.
    destruct r as [[|]|e]; simpl;
      try (intros _; apply Hd, Hiff; reflexivity);
      match goal with
      | |- context [reconnect_loop rest ?s] =>
          specialize (IH s); destruct (reconnect_loop rest s) as [[rr s3] tr4];
          simpl in *; exact IH
      end.
Qed.

(** A cleared flag ends the loop at its next test. *)
Lemma reconnect_loop_stopped (rounds : list round) (self : t) :
  running self = false ->
  reconnect_loop rounds self = (Returned false, self, []).
Proof. intros H. destruct rounds; simpl; rewrite H; reflexivity. Qed.

End Reconnect.

(** ** Backoff schedule *)

Lemma sleeps_app (a b : list event) : sleeps (a ++ b) = sleeps a ++ sleeps b.
Proof.
  induction a as [|[l m|d|f] a IH]; simpl; rewrite ?IH; reflexivity.
Qed.

Lemma connect_no_sleep (o : connect_outcome) (self : SlowReader.t) :
  sleeps (snd (SlowReader.connect o self)) = [].
Proof.
  destruct o as [h | a e]; simpl; [reflexivity|].
  destruct (isinstance_RedisError e); reflexivity.
Qed.

Lemma backoff_shift (d cap : Z) (n : nat) :
  map (backoff d cap) (seq 1 n) = map (backoff (Z.min (d * 2) cap) cap) (seq 0 n).
Proof.
  rewrite <- seq_shift, map_map. reflexivity.
Qed.

(** While the flag stays set and [connect] keeps failing, the loop sleeps
    the delays of [backoff], one after each failed attempt. *)
Lemma reconnect_loop_sleeps (outs : list connect_outcome) (rest : list SlowReader.round) :
  forall self,
    SlowReader.running self = true ->
    forallb connect_fails outs = true ->
    firstn (List.length outs)
           (sleeps (snd (SlowReader.reconnect_loop (map SlowReader.Attempt outs ++ rest) self)))
    = map (backoff (SlowReader.reconnect_delay self) (SlowReader.max_reconnect_delay self))
          (seq 0 (List.length outs)).
Proof.
  induction outs as [|o outs IH]; intros self Hrun Hfail; [reflexivity|].
  simpl in Hfail. apply andb_prop in Hfail as [Ho Houts].
  cbn [map app List.length seq]. rewrite backoff_shift.
  cbn [SlowReader.reconnect_loop]. rewrite Hrun. cbn [negb].
  pose proof (connect_true_iff o self) as Hiff.
  pose proof (connect_failed_delay o self Ho) as Hd.
  pose proof (connect_running o self) as Hr.
  pose proof (connect_max_delay o self) as Hm.
  pose proof (connect_no_sleep o self) as Hs.
  destruct (SlowReader.connect o self) as [[r self1] tr1]; simpl in Hiff, Hd, Hr, Hm, Hs.
  assert (Hne : r <> Ok true).
  { intros ->. destruct Hiff as [Hiff _]. rewrite Hiff in Ho; [discriminate|reflexivity]. }
  set (self2 := SlowReader.set_reconnect_delay _ self1).
  specialize (IH self2).
  assert (Hrun2 : SlowReader.running self2 = true) by (subst self2; simpl; congruence).
  specialize (IH Hrun2 Houts).
  assert (Hd2 : SlowReader.reconnect_delay self2
                = Z.min (SlowReader.reconnect_delay self * 2) (SlowReader.max_reconnect_delay self))
    by (subst self2; simpl; congruence).
  assert (Hm2 : SlowReader.max_reconnect_delay self2 = SlowReader.max_reconnect_delay self)
    by (subst self2; simpl; congruence).
  rewrite Hd2, Hm2 in IH.
  destruct (SlowReader.reconnect_loop (map SlowReader.Attempt outs ++ rest) self2)
    as [[rr self3] tr4].
  simpl in IH.
  destruct r as [[|]|e]; [congruence| |];
    simpl; rewrite !sleeps_app, Hs; simpl; rewrite ?sleeps_app; simpl;
    rewrite Hd, IH; reflexivity.
Qed.

(** Entered with delay 1 under a cap of at least 1, the schedule is the
    powers of two, capped. *)
Lemma backoff_closed (cap : Z) (j : nat) :
  forall d, 0 < d <= cap -> backoff d cap j = Z.min (d * 2 ^ Z.of_nat j) cap.
Proof.
  induction j as [|j IH]; intros d Hd.
  - simpl. lia.
  - cbn [backoff]. rewrite IH by lia.
    rewrite Nat2Z.inj_succ, Z.pow_succ_r by lia.
    assert (Hp : 0 < 2 ^ Z.of_nat j) by (apply Z.pow_pos_nonneg; lia).
    destruct (Z.le_gt_cases (d * 2) cap) as [Hle | Hgt].
    + rewrite (Z.min_l (d * 2) cap) by lia. f_equal. ring.
    + rewrite (Z.min_r (d * 2) cap) by lia.
      rewrite Z.min_r by nia. rewrite Z.min_r by nia. reflexivity.
Qed.

(** ** A reader to evaluate on *)

(** [SlowReader('localhost', 6379, 'test_channel', 500, 1500, 0.1, 0.5)]
    after a first connect that subscribed. *)
Definition demo_reader : SlowReader.t :=
  SlowReader.mk "localhost" 6379 "test_channel" 500 1500
                0x1.999999999999ap-4%float 0.5%float
                ConnectionStats.init true 1 30 (Some O).

Definition refused : connect_outcome := ConnectRaised (Some 1%nat) ConnectionError.

(** A pass, half a second after the loop started, that receives the
    message [{'type': 'message', 'data': b'xxx'}]. *)
Definition demo_message : message :=
  mkMessage "message" (PyBytes ["x"%byte; "x"%byte; "x"%byte]).

Definition demo_pass : SlowReader.iter :=
  SlowReader.mkIter None 0.5%float 0 (RecvMsg demo_message) 0%float None [].

(** C2 (amended): in one call of [reconnect], entered as every call from
    the read loop enters it (flag set, delay 1, cap 30), the delay slept
    before the k-th connect attempt, k >= 2, is [min(2^(k-2), 30)]: 1 before
    the second attempt, then 2, 4, 8, 16, 30, 30, ...; and a connect that
    succeeds leaves the delay at 1. *)
Theorem backoff_delay_before_attempt
    (self : SlowReader.t) (outs : list connect_outcome) (rest : list SlowReader.round)
    (k : nat) :
  SlowReader.running self = true ->
  SlowReader.reconnect_delay self = 1 ->
  SlowReader.max_reconnect_delay self = 30 ->
  forallb connect_fails outs = true ->
  (2 <= k <= List.length outs + 1)%nat ->
  nth_error (sleeps (snd (SlowReader.reconnect (map SlowReader.Attempt outs ++ rest) self)))
            (k - 2)
  = Some (Z.min (2 ^ (Z.of_nat k - 2)) 30)
  /\ (forall o s, connect_fails o = false ->
        SlowReader.reconnect_delay (snd (fst (SlowReader.connect o s))) = 1)
  /\ (forall rounds s,
        fst (fst (SlowReader.reconnect rounds s)) = SlowReader.Returned true ->
        SlowReader.reconnect_delay (snd (fst (SlowReader.reconnect rounds s))) = 1).
Proof.
  intros Hrun Hd Hcap Hfail Hk. split; [|split].
  - unfold SlowReader.reconnect, SlowReader.reconnect_enter.
    set (self1 := SlowReader.set_stats _ self).
    pose proof (reconnect_loop_sleeps outs rest self1 Hrun Hfail) as H.
    change (SlowReader.reconnect_delay self1) with (SlowReader.reconnect_delay self) in H.
    change (SlowReader.max_reconnect_delay self1) with (SlowReader.max_reconnect_delay self) in H.
    rewrite Hd, Hcap in H.
    destruct (SlowReader.reconnect_loop (map SlowReader.Attempt outs ++ rest) self1)
      as [[rr self2] tr2].
    simpl in H |- *.
    assert (Hlt : (k - 2 < List.length outs)%nat) by lia.
    rewrite <- (firstn_skipn (List.length outs) (sleeps tr2)), H.
    rewrite nth_error_app1 by (rewrite length_map, length_seq; exact Hlt).
    rewrite nth_error_map, nth_error_seq.
    apply Nat.ltb_lt in Hlt. rewrite Hlt. simpl.
    rewrite backoff_closed by lia.
    do 2 f_equal. rewrite Z.mul_1_l. f_equal. lia.
  - intros o s Ho. apply connect_ok_delay, Ho.
  - intros rounds s. unfold SlowReader.reconnect, SlowReader.reconnect_enter.
    set (s1 := SlowReader.set_stats _ s).
    pose proof (reconnect_loop_true_delay rounds s1) as H.
    destruct (SlowReader.reconnect_loop rounds s1) as [[rr s2] tr2]. exact H.
Qed.

Lemma backoff_delay_before_attempt_witness :
  nth_error (sleeps (snd (SlowReader.reconnect
                            (map SlowReader.Attempt (repeat refused 7) ++ []) demo_reader)))
            (7 - 2)
  = Some 30.
Proof.
  apply (backoff_delay_before_attempt demo_reader (repeat refused 7) [] 7);
    try reflexivity.
  simpl; lia.
Defined.

(** C2 as stated fails: before the second attempt the loop sleeps 1, not
    [min(2^(2-1), 30) = 2]. *)
Lemma backoff_claimed_exponent_fails :
  ~ (forall (self : SlowReader.t) (outs : list connect_outcome) (k : nat),
       SlowReader.running self = true ->
       SlowReader.reconnect_delay self = 1 ->
       SlowReader.max_reconnect_delay self = 30 ->
       forallb connect_fails outs = true ->
       (2 <= k <= List.length outs + 1)%nat ->
       nth_error (sleeps (snd (SlowReader.reconnect (map SlowReader.Attempt outs) self)))
                 (k - 2)
       = Some (Z.min (2 ^ (Z.of_nat k - 1)) 30)).
Proof.
  intros H.
  specialize (H demo_reader [refused] 2%nat eq_refl eq_refl eq_refl eq_refl).
  assert (Hk : (2 <= 2 <= List.length [refused] + 1)%nat) by (simpl; lia).
  specialize (H Hk). vm_compute in H. discriminate H.
Qed.

(** ** Reconnection episodes *)

(** C3: one call of [reconnect] (one connection-loss episode of the read
    loop) adds exactly 1 to [stats.reconnection_attempts], whatever its
    rounds are: any number of failed attempts, ended by a successful connect,
    by a stop request, or not ended yet.  The rounds themselves change no
    counter, neither inside the call nor when the thread goes on through the
    backoff loop on later inputs; and the read loop's handlers enter
    [reconnect] only on a connection or timeout error met with the flag
    set. *)
Theorem reconnect_counts_episode_once :
  (forall rounds self,
      reconnection_attempts (snd (fst (SlowReader.reconnect rounds self)))
      = reconnection_attempts self + 1)
  /\ (forall rounds self,
      SlowReader.stats (snd (fst (SlowReader.reconnect_loop rounds self)))
      = SlowReader.stats self)
  /\ (forall i th v,
      SlowReader.at_ th = SlowReader.InReconnect v ->
      SlowReader.stats (SlowReader.self (SlowReader.step i th))
      = SlowReader.stats (SlowReader.self th))
  /\ (forall e i self v,
      reconnection_attempts (snd (fst (SlowReader.handle_exception e i self v)))
      = reconnection_attempts self
        + (if isinstance_ConnectionError_or_TimeoutError e && SlowReader.running self
           then 1 else 0)).
Proof.
  assert (Hrec : forall rounds self,
             reconnection_attempts (snd (fst (SlowReader.reconnect rounds self)))
             = reconnection_attempts self + 1).
  { intros rounds self. unfold SlowReader.reconnect, SlowReader.reconnect_enter.
    set (self1 := SlowReader.set_stats _ self).
    pose proof (reconnect_loop_stats rounds self1) as H.
    destruct (SlowReader.reconnect_loop rounds self1) as [[r self2] tr2].
    simpl in H |- *. unfold reconnection_attempts. rewrite H. reflexivity. }
  split; [exact Hrec|]. split; [exact reconnect_loop_stats|]. split.
  - intros i th v Hat. unfold SlowReader.step. rewrite Hat.
    pose proof (reconnect_loop_stats (SlowReader.rounds i) (SlowReader.self th)) as H.
    destruct (SlowReader.reconnect_loop _ _) as [[r self1] tr1].
    destruct (SlowReader.after_reconnect v r) as [p tr2]. exact H.
  - intros e i self v. unfold SlowReader.handle_exception.
    destruct (isinstance_ConnectionError_or_TimeoutError e); simpl.
    + destruct (SlowReader.running self); simpl; [|lia].
      specialize (Hrec (SlowReader.rounds i) self).
      destruct (SlowReader.reconnect _ _) as [[r self1] tr1].
      destruct (SlowReader.after_reconnect v r) as [p tr2]. exact Hrec.
    + lia.
Qed.

(** ** Construction *)

(** C10: when the first connect fails with a broker-client error (a
    [RedisError]), [connect] logs it and returns [False], and [__init__]
    still returns the object: flag set, all counters zero, delay 1, and as
    handle whatever the failed connect had assigned (possibly none).  A
    connect that subscribes gives the same object with its handle. *)
Theorem init_survives_failed_connect
    (host : string) (port : Z) (channel : string) (lo hi : Z) (slo shi : float)
    (assigned : option handle) (e : exn) :
  isinstance_RedisError e = true ->
  let blank := SlowReader.mk host port channel lo hi slo shi
                             ConnectionStats.init true 1 30 None in
  let built := SlowReader.mk host port channel lo hi slo shi
                             ConnectionStats.init true 1 30 assigned in
  SlowReader.connect (ConnectRaised assigned e) blank
    = (Ok false, built, [Log ERROR (MsgFailedToConnect e)])
  /\ SlowReader.init host port channel lo hi slo shi (ConnectRaised assigned e)
     = (Ok built, [Log ERROR (MsgFailedToConnect e)])
  /\ SlowReader.running built = true
  /\ SlowReader.stats built = ConnectionStats.mk 0 0 0
  /\ (forall h,
        SlowReader.init host port channel lo hi slo shi (Subscribed h)
        = (Ok (SlowReader.mk host port channel lo hi slo shi
                             ConnectionStats.init true 1 30 (Some h)),
           [Log INFO (MsgSubscribed channel)])).
Proof.
  intros He blank built.
  unfold SlowReader.init, SlowReader.connect. fold blank. rewrite He.
  subst blank built. destruct assigned; simpl; repeat split; reflexivity.
Qed.

Lemma init_survives_failed_connect_witness :
  SlowReader.init "localhost" 6379 "test_channel" 500 1500
                  0x1.999999999999ap-4%float 0.5%float
                  (ConnectRaised None ConnectionError)
  = (Ok (SlowReader.mk "localhost" 6379 "test_channel" 500 1500
                       0x1.999999999999ap-4%float 0.5%float
                       ConnectionStats.init true 1 30 None),
     [Log ERROR (MsgFailedToConnect ConnectionError)]).
Proof.
  exact (proj1 (proj2 (init_survives_failed_connect
                         "localhost" 6379 "test_channel" 500 1500
                         0x1.999999999999ap-4%float 0.5%float
                         None ConnectionError eq_refl))).
Defined.

(** ** The read loop *)

Lemma py_len_nonneg (s : string) : 0 <= py_len s.
Proof. unfold py_len. lia. Qed.

Lemma data_size_nonneg (m : message) : 0 <= SlowReader.data_size m.
Proof. apply py_len_nonneg. Qed.

Lemma evolves_refl (a : ConnectionStats.t) : evolves a a.
Proof. unfold evolves. repeat split; try lia. Qed.

Lemma evolves_trans (a b c : ConnectionStats.t) :
  evolves a b -> evolves b c -> evolves a c.
Proof. unfold evolves. intros (?&?&?&?) (?&?&?&?). repeat split; lia. Qed.

#[local] Hint Resolve evolves_refl : core.

Lemma count_message_evolves (m : message) (self : SlowReader.t) (v : SlowReader.locals) :
  evolves (SlowReader.stats self)
          (SlowReader.stats (fst (fst (SlowReader.count_message m self v)))).
Proof.
  unfold SlowReader.count_message.
  destruct (String.eqb (mtype m) "message"); simpl; [|apply evolves_refl].
  pose proof (data_size_nonneg m). unfold evolves; simpl. repeat split; lia.
Qed.

Lemma receive_or_sleep_evolves (i : SlowReader.iter) (self : SlowReader.t)
    (v : SlowReader.locals) :
  evolves (SlowReader.stats self)
          (SlowReader.stats (snd (fst (fst (SlowReader.receive_or_sleep i self v))))).
Proof.
  unfold SlowReader.receive_or_sleep.
  destruct (_ <? _).
  - destruct (SlowReader.received i) as [|m|e]; simpl; auto.
    pose proof (count_message_evolves m self v) as H.
    destruct (SlowReader.count_message m self v) as [[self1 v1] tr]. exact H.
  - destruct (sleep_float _); simpl; auto.
Qed.

Lemma try_body_evolves (i : SlowReader.iter) (self : SlowReader.t)
    (v : SlowReader.locals) :
  evolves (SlowReader.stats self)
          (SlowReader.stats (snd (fst (fst (SlowReader.try_body i self v))))).
Proof.
  unfold SlowReader.try_body.
  destruct (SlowReader.window_elapsed _ _); [|apply receive_or_sleep_evolves].
  destruct (SlowReader.get_random_bytes_limit _ _) as [l|e]; simpl; auto.
  pose proof (receive_or_sleep_evolves i self
                (SlowReader.mkLocals (SlowReader.now i) 0 l)) as H.
  destruct (SlowReader.receive_or_sleep _ _ _) as [[[r self1] v1] tr]. exact H.
Qed.

Lemma reconnect_evolves (rounds : list SlowReader.round) (self : SlowReader.t) :
  evolves (SlowReader.stats self)
          (SlowReader.stats (snd (fst (SlowReader.reconnect rounds self)))).
Proof.
  unfold SlowReader.reconnect, SlowReader.reconnect_enter.
  set (self1 := SlowReader.set_stats _ self).
  pose proof (reconnect_loop_stats rounds self1) as H.
  destruct (SlowReader.reconnect_loop rounds self1) as [[r self2] tr2].
  simpl in H |- *. rewrite H. subst self1. unfold evolves; simpl. repeat split; lia.
Qed.

Lemma handle_exception_evolves (e : exn) (i : SlowReader.iter) (self : SlowReader.t)
    (v : SlowReader.locals) :
  evolves (SlowReader.stats self)
          (SlowReader.stats (snd (fst (SlowReader.handle_exception e i self v)))).
Proof.
  unfold SlowReader.handle_exception.
  destruct (isinstance_ConnectionError_or_TimeoutError e); simpl; auto.
  destruct (SlowReader.running self); simpl; auto.
  pose proof (reconnect_evolves (SlowReader.rounds i) self) as H.
  destruct (SlowReader.reconnect _ _) as [[r self1] tr1].
  destruct (SlowReader.after_reconnect v r) as [p tr2]. exact H.
Qed.

Lemma maybe_stop_stats (s : option stop_env) (self : SlowReader.t) :
  SlowReader.stats (SlowReader.maybe_stop s self) = SlowReader.stats self.
Proof. destruct s; simpl; [rewrite stop_fields|]; reflexivity. Qed.

Lemma maybe_stop_running_false (s : option stop_env) (self : SlowReader.t) :
  SlowReader.running self = false ->
  SlowReader.running (SlowReader.maybe_stop s self) = false.
Proof. destruct s; simpl; [rewrite stop_fields|]; auto. Qed.

Lemma step_evolves (i : SlowReader.iter) (th : SlowReader.thread) :
  evolves (SlowReader.stats (SlowReader.self th))
          (SlowReader.stats (SlowReader.self (SlowReader.step i th))).
Proof.
  unfold SlowReader.step.
  destruct (SlowReader.at_ th) as [|v|v| |e]; auto.
  - set (self0 := SlowReader.maybe_stop (SlowReader.stop_before i) (SlowReader.self th)).
    assert (H0 : SlowReader.stats self0 = SlowReader.stats (SlowReader.self th))
      by apply maybe_stop_stats.
    destruct (negb (SlowReader.running self0)); simpl; [rewrite H0; auto|].
    pose proof (try_body_evolves i self0 v) as H1.
    destruct (SlowReader.try_body i self0 v) as [[[r self1] v1] tr1]. simpl in H1.
    rewrite H0 in H1.
    set (self2 := SlowReader.maybe_stop (SlowReader.stop_during i) self1).
    assert (H2 : SlowReader.stats self2 = SlowReader.stats self1)
      by apply maybe_stop_stats.
    destruct r as [u|e]; simpl; [rewrite H2; exact H1|].
    pose proof (handle_exception_evolves e i self2 v1) as H3.
    destruct (SlowReader.handle_exception e i self2 v1) as [[p self3] tr2].
    simpl in H3 |- *. rewrite H2 in H3. eapply evolves_trans; eassumption.
  - pose proof (reconnect_loop_stats (SlowReader.rounds i) (SlowReader.self th)) as H.
    destruct (SlowReader.reconnect_loop _ _) as [[r self1] tr1].
    destruct (SlowReader.after_reconnect v r) as [p tr2]. simpl in H |- *.
    rewrite H. auto.
Qed.

Lemma live_evolves (ev : life_event) (th : SlowReader.thread) :
  evolves (SlowReader.stats (SlowReader.self th))
          (SlowReader.stats (SlowReader.self (live th ev))).
Proof.
  destruct ev as [i|env|]; simpl.
  - apply step_evolves.
  - rewrite stop_fields. simpl. auto.
  - unfold SlowReader.settle.
    destruct (SlowReader.at_ th); auto; destruct (SlowReader.running _); auto.
Qed.

Lemma lifetime_evolves (evs : list life_event) :
  forall th,
    evolves (SlowReader.stats (SlowReader.self th))
            (SlowReader.stats (SlowReader.self (lifetime evs th))).
Proof.
  induction evs as [|ev evs IH]; intros th; simpl; auto.
  eapply evolves_trans; [apply live_evolves | apply IH].
Qed.

Lemma lifetime_app (a b : list life_event) (th : SlowReader.thread) :
  lifetime (a ++ b) th = lifetime b (lifetime a th).
Proof. apply fold_left_app. Qed.

Lemma start_stats (t0 : float) (r : Z) (th : SlowReader.thread) :
  SlowReader.stats (SlowReader.self (SlowReader.start t0 r th))
  = SlowReader.stats (SlowReader.self th).
Proof.
  unfold SlowReader.start. destruct (SlowReader.at_ th); auto.
  destruct (SlowReader.get_random_bytes_limit _ _); reflexivity.
Qed.

Lemma init_fields (host : string) (port : Z) (channel : string) (lo hi : Z)
    (slo shi : float) (o : connect_outcome) (r0 : SlowReader.t) (tr0 : list event) :
  SlowReader.init host port channel lo hi slo shi o = (Ok r0, tr0) ->
  SlowReader.stats r0 = ConnectionStats.init
  /\ SlowReader.running r0 = true
  /\ SlowReader.max_reconnect_delay r0 = 30
  /\ SlowReader.reconnect_delay r0 = 1.
Proof.
  unfold SlowReader.init.
  destruct o as [h | [h|] e]; simpl; try destruct (isinstance_RedisError e);
    intros H; inversion H; subst; simpl; repeat split; reflexivity.
Qed.

Lemma mapi_stats (f : nat -> SlowReader.thread -> SlowReader.thread)
    (l : list SlowReader.thread) :
  (forall i th, BufferTester.reader_stats (f i th) = BufferTester.reader_stats th) ->
  forall i0,
    map BufferTester.reader_stats (BufferTester.mapi f i0 l)
    = map BufferTester.reader_stats l.
Proof.
  intros Hf. induction l as [|a l IH]; intros i0; simpl; [reflexivity|].
  rewrite Hf, IH. reflexivity.
Qed.

(** C5: over the whole life of a reader built by [__init__] (passes of its
    loop, [stop()] and [join()] from the orchestrator, in any order), the
    three counters are never negative, [messages_received == 0] implies
    [bytes_read == 0], and no counter ever goes down.  What the orchestrator
    does to a reader (starting its thread, [stop()], [join()]) changes no
    counter: only the passes of the reader's own loop do. *)
Theorem counters_never_decrease
    (host : string) (port : Z) (channel : string) (lo hi : Z) (slo shi : float)
    (o : connect_outcome) (r0 : SlowReader.t) (tr0 : list event)
    (t0 : float) (r : Z) (before after : list life_event) :
  SlowReader.init host port channel lo hi slo shi o = (Ok r0, tr0) ->
  let born := SlowReader.start t0 r (SlowReader.mkThread r0 SlowReader.NotStarted tr0) in
  let earlier := SlowReader.self (lifetime before born) in
  let later := SlowReader.self (lifetime (before ++ after) born) in
  (0 <= bytes_read earlier /\ 0 <= messages_received earlier
   /\ 0 <= reconnection_attempts earlier)
  /\ (messages_received earlier = 0 -> bytes_read earlier = 0)
  /\ (bytes_read earlier <= bytes_read later
      /\ messages_received earlier <= messages_received later
      /\ reconnection_attempts earlier <= reconnection_attempts later)
  /\ (forall env th,
        SlowReader.stats (SlowReader.self (live th (OrchestratorStop env)))
        = SlowReader.stats (SlowReader.self th))
  /\ (forall th,
        SlowReader.stats (SlowReader.self (live th OrchestratorJoin))
        = SlowReader.stats (SlowReader.self th))
  /\ (forall e tester,
        map BufferTester.reader_stats
            (BufferTester.slow_readers (fst (BufferTester.start e tester)))
        = map BufferTester.reader_stats (BufferTester.slow_readers tester)).
Proof.
  intros Hinit born earlier later.
  destruct (init_fields _ _ _ _ _ _ _ _ _ _ Hinit) as (Hst & _).
  assert (Hborn : SlowReader.stats (SlowReader.self born) = ConnectionStats.init).
  { subst born. rewrite start_stats. exact Hst. }
  pose proof (lifetime_evolves before born) as He.
  pose proof (lifetime_evolves after (lifetime before born)) as Hl.
  rewrite <- lifetime_app in Hl.
  fold earlier in He, Hl. fold later in Hl. rewrite Hborn in He.
  unfold evolves in He, Hl. simpl in He.
  unfold bytes_read, messages_received, reconnection_attempts.
  destruct He as (?&?&?&?), Hl as (?&?&?&?).
  repeat split; try lia; try tauto.
  - intros env th. simpl. rewrite stop_fields. reflexivity.
  - intros th. simpl. unfold SlowReader.settle.
    destruct (SlowReader.at_ th); try reflexivity; destruct (SlowReader.running _); reflexivity.
  - intros e tester. simpl. apply mapi_stats.
    intros i th. unfold BufferTester.reader_stats. apply start_stats.
Qed.

Lemma counters_never_decrease_witness :
  let born := SlowReader.start 0%float 0
                (SlowReader.mkThread demo_reader SlowReader.NotStarted
                                     [Log INFO (MsgSubscribed "test_channel")]) in
  let earlier := SlowReader.self (lifetime [Pass demo_pass] born) in
  let later :=
    SlowReader.self (lifetime ([Pass demo_pass] ++ [Pass demo_pass; OrchestratorJoin]) born) in
  bytes_read earlier <= bytes_read later
  /\ messages_received earlier <= messages_received later
  /\ reconnection_attempts earlier <= reconnection_attempts later.
Proof.
  exact (proj1 (proj2 (proj2 (counters_never_decrease
                         "localhost" 6379 "test_channel" 500 1500
                         0x1.999999999999ap-4%float 0.5%float
                         (Subscribed O) demo_reader
                         [Log INFO (MsgSubscribed "test_channel")]
                         0%float 0 [Pass demo_pass] [Pass demo_pass; OrchestratorJoin]
                         eq_refl)))).
Defined.

(** ** Counting a message *)

Lemma length_append (a b : string) :
  String.length (String.append a b) = (String.length a + String.length b)%nat.
Proof. induction a as [|c a IH]; simpl; [|rewrite IH]; reflexivity. Qed.

Lemma bytes_repr_char_length (q c : byte) :
  (1 <= String.length (bytes_repr_char q c))%nat.
Proof.
  unfold bytes_repr_char.
  repeat match goal with |- context [if ?b then _ else _] => destruct b end; simpl; lia.
Qed.

Lemma bytes_repr_body_length (q : byte) (tail : string) (b : list byte) :
  (List.length b + String.length tail
   <= String.length (fold_right (fun c acc => String.append (bytes_repr_char q c) acc) tail b))%nat.
Proof.
  induction b as [|c b IH]; simpl; [lia|].
  rewrite length_append. pose proof (bytes_repr_char_length q c). lia.
Qed.

(** [len(str(b))] of a bytes object is at least [len(b) + 3]: the [b] and
    the two quotes, and more for every escaped byte. *)
Lemma bytes_str_longer (b : list byte) :
  bytes_len b + 3 <= py_len (py_str (PyBytes b)).
Proof.
  unfold py_len, bytes_len, py_str, bytes_repr. simpl String.length.
  pose proof (bytes_repr_body_length (bytes_repr_quote b)
                (String (ascii_of_byte (bytes_repr_quote b)) EmptyString) b) as H.
  simpl String.length in H. lia.
Qed.

(** C4, on the code: a message of type ['message'] adds one and the same
    amount, [len(str(message['data']))], to the window counter and to
    [stats.bytes_read], and 1 to [stats.messages_received]; a message of any
    other type changes nothing.  For the [bytes] payload the client delivers,
    that amount is the length of the payload's [repr], at least 3 more than
    its byte length: [b'xxx'], 3 bytes long, counts for 6. *)
Theorem count_message_adds_repr_length :
  (forall m self v,
      SlowReader.count_message m self v
      = if String.eqb (mtype m) "message"
        then (SlowReader.set_stats
                (ConnectionStats.mk (bytes_read self + SlowReader.data_size m)
                                    (messages_received self + 1)
                                    (reconnection_attempts self)) self,
              SlowReader.mkLocals (SlowReader.last_read_time v)
                (SlowReader.bytes_read_in_current_second v + SlowReader.data_size m)
                (SlowReader.current_byte_limit v),
              [Log DEBUG (MsgReceived (SlowReader.data_size m))])
        else (self, v, []))
  /\ (forall t b, bytes_len b + 3 <= SlowReader.data_size (mkMessage t (PyBytes b)))
  /\ bytes_len ["x"%byte; "x"%byte; "x"%byte] = 3
  /\ SlowReader.data_size demo_message = 6
  /\ bytes_read (fst (fst (SlowReader.count_message demo_message demo_reader
                             (SlowReader.mkLocals 0%float 0 500)))) = 6.
Proof.
  split; [|split; [|repeat split]].
  - intros m self v. reflexivity.
  - intros t b. apply bytes_str_longer.
Qed.

(** ** The window counter *)

Lemma count_message_overshoot (M : Z) (m : message) (self : SlowReader.t)
    (v : SlowReader.locals) :
  SlowReader.data_size m <= M ->
  SlowReader.bytes_read_in_current_second v < SlowReader.current_byte_limit v ->
  within_overshoot M (snd (fst (SlowReader.count_message m self v))).
Proof.
  intros Hm Hlt. unfold SlowReader.count_message, within_overshoot.
  destruct (String.eqb (mtype m) "message"); simpl; right.
  - lia.
  - pose proof (data_size_nonneg m). lia.
Qed.

Lemma receive_or_sleep_overshoot (M : Z) (i : SlowReader.iter) (self : SlowReader.t)
    (v : SlowReader.locals) :
  sizes_within M i ->
  within_overshoot M v ->
  within_overshoot M (snd (fst (SlowReader.receive_or_sleep i self v))).
Proof.
  intros Hi Hv. unfold SlowReader.receive_or_sleep, sizes_within in *.
  destruct (_ <? _) eqn:Hlt.
  - apply Z.ltb_lt in Hlt.
    destruct (SlowReader.received i) as [|m|e]; simpl; auto.
    pose proof (count_message_overshoot M m self v Hi Hlt) as H.
    destruct (SlowReader.count_message m self v) as [[self1 v1] tr]. exact H.
  - destruct (sleep_float _); simpl; auto.
Qed.

Lemma try_body_overshoot (M : Z) (i : SlowReader.iter) (self : SlowReader.t)
    (v : SlowReader.locals) :
  sizes_within M i ->
  within_overshoot M v ->
  within_overshoot M (snd (fst (SlowReader.try_body i self v))).
Proof.
  intros Hi Hv. unfold SlowReader.try_body.
  destruct (SlowReader.window_elapsed _ _); [|apply receive_or_sleep_overshoot; auto].
  destruct (SlowReader.get_random_bytes_limit _ _) as [l|e]; simpl.
  - assert (H0 : within_overshoot M (SlowReader.mkLocals (SlowReader.now i) 0 l))
      by (left; reflexivity).
    pose proof (receive_or_sleep_overshoot M i self _ Hi H0) as H.
    destruct (SlowReader.receive_or_sleep _ _ _) as [[[r self1] v1] tr]. exact H.
  - left; reflexivity.
Qed.

Lemma after_reconnect_locals (v v' : SlowReader.locals) (r : SlowReader.reconnect_result) :
  locals_of (fst (SlowReader.after_reconnect v r)) = Some v' -> v' = v.
Proof. destruct r as [[|]|]; simpl; congruence. Qed.

Lemma handle_exception_locals (e : exn) (i : SlowReader.iter) (self : SlowReader.t)
    (v v' : SlowReader.locals) :
  locals_of (fst (fst (SlowReader.handle_exception e i self v))) = Some v' -> v' = v.
Proof.
  unfold SlowReader.handle_exception.
  destruct (isinstance_ConnectionError_or_TimeoutError e); simpl; [|congruence].
  destruct (SlowReader.running self); simpl; [|congruence].
  destruct (SlowReader.reconnect _ _) as [[r self1] tr1].
  pose proof (after_reconnect_locals v v' r) as H.
  destruct (SlowReader.after_reconnect v r) as [p tr2]. exact H.
Qed.

Lemma step_overshoot (M : Z) (i : SlowReader.iter) (th : SlowReader.thread) :
  sizes_within M i ->
  (forall v, locals_of (SlowReader.at_ th) = Some v -> within_overshoot M v) ->
  forall v, locals_of (SlowReader.at_ (SlowReader.step i th)) = Some v ->
            within_overshoot M v.
Proof.
  intros Hi Hth. unfold SlowReader.step.
  destruct (SlowReader.at_ th) as [|v0|v0| |e] eqn:Hat; simpl;
    try (intros ? Hv; rewrite Hat in Hv; discriminate Hv).
  - set (self0 := SlowReader.maybe_stop _ _).
    destruct (negb (SlowReader.running self0)); simpl; [intros ? Hv; discriminate Hv|].
    pose proof (try_body_overshoot M i self0 v0 Hi (Hth v0 eq_refl)) as H1.
    destruct (SlowReader.try_body i self0 v0) as [[[r self1] v1] tr1]. simpl in H1.
    destruct r as [u|e]; simpl; [congruence|].
    pose proof (handle_exception_locals e i
                  (SlowReader.maybe_stop (SlowReader.stop_during i) self1) v1) as H2.
    destruct (SlowReader.handle_exception _ _ _ _) as [[p self3] tr2].
    simpl in H2 |- *. intros v Hv. rewrite (H2 v Hv). exact H1.
  - destruct (SlowReader.reconnect_loop _ _) as [[r self1] tr1].
    pose proof (fun v' => after_reconnect_locals v0 v' r) as H.
    destruct (SlowReader.after_reconnect v0 r) as [p tr2]. simpl in H |- *.
    intros v Hv. rewrite (H v Hv). apply Hth. reflexivity.
Qed.

Lemma run_overshoot (M : Z) (inputs : list SlowReader.iter) :
  Forall (sizes_within M) inputs ->
  forall th,
    (forall v, locals_of (SlowReader.at_ th) = Some v -> within_overshoot M v) ->
    forall v, locals_of (SlowReader.at_ (SlowReader.run inputs th)) = Some v ->
              within_overshoot M v.
Proof.
  induction 1 as [|i inputs Hi _ IH]; intros th Hth; simpl; [exact Hth|].
  apply IH. apply step_overshoot; assumption.
Qed.

Lemma start_overshoot (M : Z) (t0 : float) (r : Z) (th : SlowReader.thread) :
  SlowReader.at_ th = SlowReader.NotStarted ->
  forall v, locals_of (SlowReader.at_ (SlowReader.start t0 r th)) = Some v ->
            within_overshoot M v.
Proof.
  intros Hns v. unfold SlowReader.start. rewrite Hns.
  destruct (SlowReader.get_random_bytes_limit _ _); simpl; [|discriminate].
  intros H; inversion H; subst. left; reflexivity.
Qed.

(** C1 (amended): the loop tests the window counter against the limit
    before each receive and never after it, so a window may overshoot its
    limit by the last message it counted.  At the instant a window resets
    ([current_time - last_read_time >= 1] at the loop test), the counter is
    zero or below the limit in force for that window plus [M], for any [M]
    that bounds what one received message counts for. *)
Theorem window_counter_overshoot_bound
    (M : Z) (th0 : SlowReader.thread) (t0 : float) (r : Z)
    (inputs : list SlowReader.iter) (i : SlowReader.iter) (v : SlowReader.locals) :
  SlowReader.at_ th0 = SlowReader.NotStarted ->
  Forall (sizes_within M) inputs ->
  SlowReader.at_ (SlowReader.run inputs (SlowReader.start t0 r th0))
  = SlowReader.AtLoopTest v ->
  SlowReader.window_elapsed (SlowReader.now i) v = true ->
  SlowReader.bytes_read_in_current_second v = 0
  \/ SlowReader.bytes_read_in_current_second v < SlowReader.current_byte_limit v + M.
Proof.
  intros Hns Hin Hat _.
  apply (run_overshoot M inputs Hin (SlowReader.start t0 r th0)).
  - apply start_overshoot, Hns.
  - rewrite Hat. reflexivity.
Qed.

(** A pass one and a half seconds after the loop started: the window
    resets. *)
Definition late_pass : SlowReader.iter :=
  SlowReader.mkIter None 1.5%float 0 RecvNone 0%float None [].

Lemma window_counter_overshoot_bound_witness :
  SlowReader.bytes_read_in_current_second (SlowReader.mkLocals 0%float 6 500) = 0
  \/ SlowReader.bytes_read_in_current_second (SlowReader.mkLocals 0%float 6 500)
     < SlowReader.current_byte_limit (SlowReader.mkLocals 0%float 6 500) + 6.
Proof.
  apply (window_counter_overshoot_bound 6
           (SlowReader.mkThread demo_reader SlowReader.NotStarted [])
           0%float 0 [demo_pass] late_pass (SlowReader.mkLocals 0%float 6 500)).
  - reflexivity.
  - repeat constructor. vm_compute. discriminate.
  - vm_compute. reflexivity.
  - vm_compute. reflexivity.
Defined.

(** A reader whose limit is 500 in every window, and a pass that receives a
    1000-byte message. *)
Definition fixed_rate_reader : SlowReader.t :=
  SlowReader.mk "localhost" 6379 "test_channel" 500 500
                0x1.999999999999ap-4%float 0.5%float
                ConnectionStats.init true 1 30 (Some O).

Definition big_pass : SlowReader.iter :=
  SlowReader.mkIter None 0.5%float 0
    (RecvMsg (mkMessage "message" (PyBytes (repeat "x"%byte 1000))))
    0%float None [].

(** C1 as stated fails: with a limit of 500, the first message of a window,
    1000 bytes long, is received whole (0 < 500) and the counter stands at
    1003 when the window resets. *)
Lemma window_counter_exceeds_limit :
  ~ (forall (th0 : SlowReader.thread) (t0 : float) (r : Z)
            (inputs : list SlowReader.iter) (i : SlowReader.iter) (v : SlowReader.locals),
       SlowReader.at_ th0 = SlowReader.NotStarted ->
       SlowReader.at_ (SlowReader.run inputs (SlowReader.start t0 r th0))
       = SlowReader.AtLoopTest v ->
       SlowReader.window_elapsed (SlowReader.now i) v = true ->
       SlowReader.bytes_read_in_current_second v <= SlowReader.current_byte_limit v).
Proof.
  intros H.
  specialize (H (SlowReader.mkThread fixed_rate_reader SlowReader.NotStarted [])
                0%float 0 [big_pass] late_pass (SlowReader.mkLocals 0%float 1003 500)
                eq_refl).
  assert (Hat : SlowReader.at_
                  (SlowReader.run [big_pass]
                     (SlowReader.start 0%float 0
                        (SlowReader.mkThread fixed_rate_reader SlowReader.NotStarted [])))
                = SlowReader.AtLoopTest (SlowReader.mkLocals 0%float 1003 500))
    by (vm_compute; reflexivity).
  assert (Hw : SlowReader.window_elapsed (SlowReader.now late_pass)
                 (SlowReader.mkLocals 0%float 1003 500) = true)
    by (vm_compute; reflexivity).
  specialize (H Hat Hw). simpl in H. lia.
Qed.

(** ** Argument validation *)

(** C6: when any of the three ranges has [min > max], [main] prints the
    error line of the first such range and calls [sys.exit(1)]; that print
    is all the main thread does: no ping, no reader or publisher built, no
    thread started, and no tester exists. *)
Theorem invalid_range_exits_first (a : args) (w : world) :
  min_message_size a > max_message_size a
  \/ min_bytes_recv a > max_bytes_recv a
  \/ (max_recv_sleep_time a <? min_recv_sleep_time a)%float = true ->
  exists err,
    In err [ErrMessageSize; ErrBytesRecv; ErrSleepTime]
    /\ main a w = ([Print err], Exit 1, None)
    /\ existsb touches_broker_or_units (fst (fst (main a w))) = false.
Proof.
  intros H.
  assert (Hv : exists err, In err [ErrMessageSize; ErrBytesRecv; ErrSleepTime]
                           /\ validate a = Some err).
  { unfold validate.
    destruct (Z.gtb_spec (min_message_size a) (max_message_size a)).
    { eexists; split; [|reflexivity]. simpl; auto. }
    destruct (Z.gtb_spec (min_bytes_recv a) (max_bytes_recv a)).
    { eexists; split; [|reflexivity]. simpl; auto. }
    destruct H as [H | [H | H]]; try lia.
    rewrite H. eexists; split; [|reflexivity]. simpl; auto. }
  destruct Hv as (err & Hin & Hv). exists err.
  unfold main. rewrite Hv. repeat split; auto.
Qed.

(** [--min-bytes-recv 1500 --max-bytes-recv 500], the rest at its default. *)
Definition swapped_args : args :=
  mkArgs "localhost" 6379 5 1500 500 0x1.999999999999ap-4%float 0.5%float 100 1000 60.

(** A world in which the broker answers and nothing fails. *)
Definition quiet_threads : BufferTester.env :=
  BufferTester.mkEnv
    (fun i => Subscribed i) 100%nat
    (fun _ => (0%float, 0))
    (fun _ => [demo_pass]) (fun _ => mkStopEnv None None None) (fun _ => [])
    [Publisher.mkIter 2 None] None [].

Definition quiet_world (s : sigint) : world :=
  mkWorld None quiet_threads s.

Lemma invalid_range_exits_first_witness :
  exists err,
    In err [ErrMessageSize; ErrBytesRecv; ErrSleepTime]
    /\ main swapped_args (quiet_world NoSigint) = ([Print err], Exit 1, None)
    /\ existsb touches_broker_or_units (fst (fst (main swapped_args (quiet_world NoSigint))))
       = false.
Proof.
  apply (invalid_range_exits_first swapped_args (quiet_world NoSigint)).
  right; left. simpl. lia.
Defined.

(** ** Threads end after [stop()] *)

Lemma after_reconnect_started (v : SlowReader.locals) (r : SlowReader.reconnect_result) :
  fst (SlowReader.after_reconnect v r) <> SlowReader.NotStarted.
Proof. destruct r as [[|]|]; simpl; discriminate. Qed.

Lemma handle_exception_started (e : exn) (i : SlowReader.iter) (self : SlowReader.t)
    (v : SlowReader.locals) :
  fst (fst (SlowReader.handle_exception e i self v)) <> SlowReader.NotStarted.
Proof.
  unfold SlowReader.handle_exception.
  destruct (isinstance_ConnectionError_or_TimeoutError e); simpl; [|discriminate].
  destruct (SlowReader.running self); simpl; [|discriminate].
  destruct (SlowReader.reconnect _ _) as [[r self1] tr1].
  pose proof (after_reconnect_started v r) as H.
  destruct (SlowReader.after_reconnect v r) as [p tr2]. exact H.
Qed.

Lemma start_started (t0 : float) (r : Z) (th : SlowReader.thread) :
  SlowReader.at_ (SlowReader.start t0 r th) <> SlowReader.NotStarted.
Proof.
  unfold SlowReader.start. destruct (SlowReader.at_ th) eqn:Hat;
    try (rewrite Hat; discriminate).
  destruct (SlowReader.get_random_bytes_limit _ _); simpl; discriminate.
Qed.

Lemma step_started (i : SlowReader.iter) (th : SlowReader.thread) :
  SlowReader.at_ th <> SlowReader.NotStarted ->
  SlowReader.at_ (SlowReader.step i th) <> SlowReader.NotStarted.
Proof.
  intros Hs. unfold SlowReader.step.
  destruct (SlowReader.at_ th) as [|v|v| |e] eqn:Hat; try (rewrite Hat; discriminate).
  - contradiction.
  - destruct (negb _); simpl; [discriminate|].
    destruct (SlowReader.try_body _ _ _) as [[[r self1] v1] tr1].
    destruct r as [u|e]; simpl; [discriminate|].
    pose proof (handle_exception_started e i
                  (SlowReader.maybe_stop (SlowReader.stop_during i) self1) v1) as H.
    destruct (SlowReader.handle_exception _ _ _ _) as [[p self3] tr2]. exact H.
  - destruct (SlowReader.reconnect_loop _ _) as [[r self1] tr1].
    pose proof (after_reconnect_started v r) as H.
    destruct (SlowReader.after_reconnect v r) as [p tr2]. exact H.
Qed.

Lemma run_started (inputs : list SlowReader.iter) :
  forall th,
    SlowReader.at_ th <> SlowReader.NotStarted ->
    SlowReader.at_ (SlowReader.run inputs th) <> SlowReader.NotStarted.
Proof.
  induction inputs as [|i inputs IH]; intros th H; simpl; [exact H|].
  apply IH, step_started, H.
Qed.

(** With the flag cleared, a pass keeps it cleared. *)
Lemma step_stays_stopped (i : SlowReader.iter) (th : SlowReader.thread) :
  SlowReader.running (SlowReader.self th) = false ->
  SlowReader.running (SlowReader.self (SlowReader.step i th)) = false.
Proof.
  intros Hr. unfold SlowReader.step.
  destruct (SlowReader.at_ th) as [|v|v| |e]; auto.
  - rewrite (maybe_stop_running_false _ _ Hr). simpl.
    apply maybe_stop_running_false, Hr.
  - rewrite (reconnect_loop_stopped _ _ Hr). simpl. exact Hr.
Qed.

(** [join()] after [stop()]: whatever the thread still meets, its function
    has returned (or had died) when the join is over. *)
Lemma join_after_stop (drain : list SlowReader.iter) :
  forall th,
    SlowReader.running (SlowReader.self th) = false ->
    SlowReader.at_ th <> SlowReader.NotStarted ->
    reader_finished (SlowReader.settle (SlowReader.run drain th)).
Proof.
  induction drain as [|i drain IH]; intros th Hr Hs; simpl.
  - unfold reader_finished, SlowReader.settle.
    destruct (SlowReader.at_ th) eqn:Hat; try rewrite Hr; simpl; try rewrite Hat; auto.
  - apply IH; [apply step_stays_stopped, Hr | apply step_started, Hs].
Qed.

Lemma publisher_run_started (inputs : list Publisher.iter) :
  forall th,
    Publisher.at_ th <> Publisher.NotStarted ->
    Publisher.at_ (Publisher.run inputs th) <> Publisher.NotStarted.
Proof.
  induction inputs as [|i inputs IH]; intros th H; simpl; [exact H|].
  apply IH. unfold Publisher.step.
  destruct (Publisher.at_ th) eqn:Hat; try congruence.
  destruct (Publisher.running _); [|simpl; discriminate].
  destruct (Publisher.publish_once _ _); simpl; discriminate.
Qed.

Lemma publisher_join_after_stop (drain : list Publisher.iter) :
  forall th,
    Publisher.running (Publisher.self th) = false ->
    Publisher.at_ th <> Publisher.NotStarted ->
    publisher_finished (Publisher.settle (Publisher.run drain th)).
Proof.
  unfold publisher_finished.
  induction drain as [|i drain IH]; intros th Hr Hs; simpl.
  - unfold Publisher.settle. destruct (Publisher.at_ th) eqn:Hat; try rewrite Hr; simpl; auto.
    contradiction.
  - apply IH.
    + unfold Publisher.step. destruct (Publisher.at_ th); auto. rewrite Hr. exact Hr.
    + unfold Publisher.step. destruct (Publisher.at_ th) eqn:Hat; try congruence.
      rewrite Hr. simpl. discriminate.
Qed.

(** ** Lists built by [mapi] *)

Lemma mapi_length {A B : Type} (f : nat -> A -> B) (l : list A) :
  forall i0, List.length (BufferTester.mapi f i0 l) = List.length l.
Proof. induction l as [|a l IH]; intros i0; simpl; [|rewrite IH]; reflexivity. Qed.

Lemma mapi_Forall {A B : Type} (P : A -> Prop) (Q : B -> Prop)
    (f : nat -> A -> B) (l : list A) :
  (forall i a, P a -> Q (f i a)) ->
  Forall P l -> forall i0, Forall Q (BufferTester.mapi f i0 l).
Proof.
  intros Hf H. induction H as [|a l Ha _ IH]; intros i0; simpl; constructor; auto.
Qed.

Lemma Forall_trivial (A : Type) (P : A -> Prop) (l : list A) :
  (forall a, P a) -> Forall P l.
Proof. intros H. induction l; constructor; auto. Qed.

Lemma create_readers_length (mk_reader : nat -> res SlowReader.t * list event)
    (ids : list nat) :
  forall rs acts,
    BufferTester.create_readers mk_reader ids = (Ok rs, acts) ->
    List.length rs = List.length ids
    /\ acts = map NewSlowReader ids.
Proof.
  induction ids as [|i ids IH]; simpl; intros rs acts H.
  - inversion H; auto.
  - destruct (mk_reader i) as [[r|e] tr]; [|discriminate].
    destruct (BufferTester.create_readers mk_reader ids) as [[l|e] acts'];
      [|discriminate].
    inversion H; subst. destruct (IH l acts' eq_refl) as [Hl Ha].
    simpl. rewrite Hl, Ha. auto.
Qed.

(** Joining threads that were all started raises nothing. *)
Lemma join_readers_started (e : BufferTester.env) (l : list SlowReader.thread) :
  Forall (fun th => SlowReader.at_ th <> SlowReader.NotStarted) l ->
  forall i,
    BufferTester.join_readers e i l
    = (Ok tt,
       BufferTester.mapi
         (fun j th => SlowReader.settle
                        (SlowReader.run (BufferTester.reader_drain e j) th)) i l,
       map ReaderJoin (seq i (List.length l))).
Proof.
  intros H. induction H as [|th l Hth _ IH]; intros i; simpl; [reflexivity|].
  unfold BufferTester.join_reader.
  destruct (SlowReader.at_ th) eqn:Hat; try congruence; rewrite IH; reflexivity.
Qed.

Lemma join_publisher_started (e : BufferTester.env) (th : Publisher.thread) :
  Publisher.at_ th <> Publisher.NotStarted ->
  BufferTester.join_publisher e th
  = Ok (Publisher.settle (Publisher.run (BufferTester.publisher_drain e) th)).
Proof.
  intros H. unfold BufferTester.join_publisher.
  destruct (Publisher.at_ th); congruence.
Qed.

Lemma stop_reader_started (e : BufferTester.env) (l : list SlowReader.thread) :
  Forall (fun th => SlowReader.at_ th <> SlowReader.NotStarted) l ->
  forall i,
    Forall (fun th => SlowReader.running (SlowReader.self th) = false
                      /\ SlowReader.at_ th <> SlowReader.NotStarted)
           (BufferTester.mapi (BufferTester.stop_reader e) i l).
Proof.
  intros H i.
  apply mapi_Forall with (P := fun th => SlowReader.at_ th <> SlowReader.NotStarted);
    [|exact H].
  intros j th Hs. unfold BufferTester.stop_reader, SlowReader.stopped. simpl.
  rewrite stop_fields. auto.
Qed.

(** ** A run of [main] that reaches its shutdown *)

Lemma init_shape (e : BufferTester.env) (host : string) (port : Z) (n : Z)
    (lo hi : Z) (slo shi : float) (mlo mhi : Z)
    (tester : BufferTester.t) (acts : list action) :
  BufferTester.init e host port n lo hi slo shi mlo mhi = (Ok tester, acts) ->
  List.length (BufferTester.slow_readers tester) = Z.to_nat n
  /\ acts = map NewSlowReader (seq 0 (Z.to_nat n)) ++ [NewPublisher]
  /\ Publisher.at_ (BufferTester.publisher tester) = Publisher.NotStarted.
Proof.
  unfold BufferTester.init.
  destruct (BufferTester.create_readers _ _) as [[rs|x] acts0] eqn:Hc; [|discriminate].
  intros H; inversion H; subst; simpl.
  destruct (create_readers_length _ _ _ _ Hc) as [Hl Ha].
  rewrite Hl, Ha, length_seq. auto.
Qed.

Lemma stop_shape (e : BufferTester.env) (tester : BufferTester.t) :
  BufferTester.publisher_close e = None ->
  Forall (fun th => SlowReader.at_ th <> SlowReader.NotStarted)
         (BufferTester.slow_readers tester) ->
  Publisher.at_ (BufferTester.publisher tester) <> Publisher.NotStarted ->
  exists final,
    BufferTester.stop e tester
    = (Ok tt, final,
       [LogMain INFO MsgStoppingTest; PublisherStop; PublisherJoin]
         ++ map ReaderStop (BufferTester.ids tester)
         ++ map ReaderJoin (BufferTester.ids tester)
         ++ [LogMain INFO MsgAllStopped])
    /\ Forall reader_finished (BufferTester.slow_readers final)
    /\ publisher_finished (BufferTester.publisher final)
    /\ List.length (BufferTester.slow_readers final)
       = List.length (BufferTester.slow_readers tester).
Proof.
  intros Hclose Hrs Hp. unfold BufferTester.stop, Publisher.stop. rewrite Hclose.
  pose proof (stop_reader_started e _ Hrs 0%nat) as Hrs1.
  rewrite join_publisher_started by exact Hp.
  rewrite (join_readers_started e _
             (Forall_impl _ (fun th H => proj2 H) Hrs1)).
  rewrite mapi_length.
  eexists. split; [reflexivity|]. simpl. split; [|split].
  - apply mapi_Forall
      with (P := fun th => SlowReader.running (SlowReader.self th) = false
                           /\ SlowReader.at_ th <> SlowReader.NotStarted);
      [|exact Hrs1].
    intros i th [Hr Hs]. apply join_after_stop; assumption.
  - apply publisher_join_after_stop; simpl; auto.
  - rewrite !mapi_length. reflexivity.
Qed.

Lemma start_shape (e : BufferTester.env) (tester : BufferTester.t) :
  Publisher.at_ (BufferTester.publisher tester) = Publisher.NotStarted ->
  let running_ := BufferTester.threads_run e (fst (BufferTester.start e tester)) in
  Forall (fun th => SlowReader.at_ th <> SlowReader.NotStarted)
         (BufferTester.slow_readers running_)
  /\ Publisher.at_ (BufferTester.publisher running_) <> Publisher.NotStarted
  /\ List.length (BufferTester.slow_readers running_)
     = List.length (BufferTester.slow_readers tester).
Proof.
  intros Hp. simpl. split; [|split].
  - apply mapi_Forall with (P := fun th => SlowReader.at_ th <> SlowReader.NotStarted).
    + intros i th Hs. apply run_started, Hs.
    + apply mapi_Forall with (P := fun _ => True).
      * intros i th _. apply start_started.
      * apply Forall_trivial. auto.
  - apply publisher_run_started. unfold Publisher.start. rewrite Hp. simpl. discriminate.
  - rewrite !mapi_length. reflexivity.
Qed.

Lemma main_reaches_shutdown (a : args) (w : world)
    (tester : BufferTester.t) (acts : list action) :
  validate a = None ->
  preflight w = None ->
  BufferTester.init (threads w) (host a) (port a) (connections a)
    (min_bytes_recv a) (max_bytes_recv a) (min_recv_sleep_time a) (max_recv_sleep_time a)
    (min_message_size a) (max_message_size a) = (Ok tester, acts) ->
  0 <= duration a <= 9223372036 ->
  BufferTester.publisher_close (threads w) = None ->
  in_wait (interrupt w) = true ->
  let n := Z.to_nat (connections a) in
  exists final,
    main a w
    = ((Ping (host a) (port a) :: (map NewSlowReader (seq 0 n) ++ [NewPublisher])
          ++ [InstallSigint] ++ banner a
          ++ ([LogMain INFO MsgStartingTest] ++ map StartReader (seq 0 n)
                ++ [StartPublisher; LogMain INFO MsgAllStarted])
          ++ [SleepDuration (duration a)])
         ++ stopping_line (interrupt w)
         ++ ([LogMain INFO MsgStoppingTest; PublisherStop; PublisherJoin]
               ++ map ReaderStop (seq 0 n) ++ map ReaderJoin (seq 0 n)
               ++ [LogMain INFO MsgAllStopped])
            ++ map Print (BufferTester.print_stats final),
       clean_ending (interrupt w),
       Some final)
    /\ Forall reader_finished (BufferTester.slow_readers final)
    /\ publisher_finished (BufferTester.publisher final)
    /\ List.length (BufferTester.slow_readers final) = n.
Proof.
  intros Hv Hp Hi Hd Hc Hw n.
  destruct (init_shape _ _ _ _ _ _ _ _ _ _ _ _ Hi) as (Hlen & Hacts & Hpub).
  destruct (start_shape (threads w) tester Hpub) as (Hrs & Hps & Hlen2).
  destruct (stop_shape (threads w) _ Hc Hrs Hps) as (final & Hstop & Hfin & Hpfin & Hlen3).
  exists final.
  assert (Hd' : sleep_int_ok (duration a) = true)
    by (unfold sleep_int_ok; apply andb_true_intro; split; apply Z.leb_le; lia).
  unfold main. rewrite Hv, Hp, Hi.
  destruct (BufferTester.start (threads w) tester) as [tester1 started] eqn:Hstart.
  assert (Hs : started = [LogMain INFO MsgStartingTest] ++ map StartReader (seq 0 n)
                           ++ [StartPublisher; LogMain INFO MsgAllStarted]).
  { unfold BufferTester.start in Hstart. inversion Hstart.
    unfold BufferTester.ids. rewrite Hlen. reflexivity. }
  simpl fst in *.
  assert (Hids : BufferTester.ids (BufferTester.threads_run (threads w) tester1) = seq 0 n).
  { unfold BufferTester.ids. rewrite Hlen2, Hlen. reflexivity. }
  split; [|split; [exact Hfin | split; [exact Hpfin | lia]]].
  destruct (interrupt w); try discriminate Hw;
    cbv zeta; rewrite Hd'; cbn [negb];
    unfold signal_handler, shutdown; rewrite Hstop, Hids, Hacts, Hs; reflexivity.
Qed.

Lemma forallb_map_all {A B : Type} (p : B -> bool) (f : A -> B) (l : list A) :
  (forall a, p (f a) = true) -> forallb p (map f l) = true.
Proof. intros H. induction l; simpl; [|rewrite H]; auto. Qed.

Lemma existsb_map_none {A B : Type} (p : B -> bool) (f : A -> B) (l : list A) :
  (forall a, p (f a) = false) -> existsb p (map f l) = false.
Proof. intros H. induction l; simpl; [|rewrite H]; auto. Qed.

Lemma existsb_firstn_none {A : Type} (p : A -> bool) (k : nat) (l : list A) :
  existsb p l = false -> existsb p (firstn k l) = false.
Proof.
  revert k. induction l as [|x l IH]; intros [|k]; simpl; auto.
  intros H. apply Bool.orb_false_elim in H. destruct H as [Hx Hl]. rewrite Hx. simpl. auto.
Qed.

(** ** Shutdown order *)

(** X18: the ordered shutdown, where it is reached.  In a run of [main] in
    which every thread has been started when the shutdown begins (valid
    ranges, broker reached, units built, a duration between 0 and 9223372036
    that [time.sleep] accepts, no signal outside the wait) and the publisher
    client's [close()] returns, on either trigger (the duration elapses, or
    SIGINT arrives during the wait) the main thread first calls
    [publisher.stop()] and joins the publisher thread, then calls [stop()] on
    every reader, then joins every reader thread, and prints the statistics
    after that.  Nothing before the publisher's stop is a stop, a join or a
    line of the report; and what the report shows is the tester in which
    every reader thread and the publisher thread have finished. *)
Theorem shutdown_stops_publisher_first (a : args) (w : world)
    (tester : BufferTester.t) (acts : list action) :
  validate a = None ->
  preflight w = None ->
  BufferTester.init (threads w) (host a) (port a) (connections a)
    (min_bytes_recv a) (max_bytes_recv a) (min_recv_sleep_time a) (max_recv_sleep_time a)
    (min_message_size a) (max_message_size a) = (Ok tester, acts) ->
  0 <= duration a <= 9223372036 ->
  BufferTester.publisher_close (threads w) = None ->
  in_wait (interrupt w) = true ->
  exists pre final,
    fst (fst (main a w))
    = pre ++ [PublisherStop; PublisherJoin]
          ++ map ReaderStop (seq 0 (Z.to_nat (connections a)))
          ++ map ReaderJoin (seq 0 (Z.to_nat (connections a)))
          ++ [LogMain INFO MsgAllStopped]
          ++ map Print (BufferTester.print_stats final)
    /\ forallb before_shutdown pre = true
    /\ snd (main a w) = Some final
    /\ List.length (BufferTester.slow_readers final) = Z.to_nat (connections a)
    /\ Forall reader_finished (BufferTester.slow_readers final)
    /\ publisher_finished (BufferTester.publisher final)
    /\ snd (fst (main a w)) = clean_ending (interrupt w).
Proof.
  intros Hv Hp Hi Hd Hc Hw.
  destruct (main_reaches_shutdown a w tester acts Hv Hp Hi Hd Hc Hw)
    as (final & Hmain & Hfin & Hpfin & Hlen).
  set (n := Z.to_nat (connections a)) in *.
  exists ((Ping (host a) (port a) :: (map NewSlowReader (seq 0 n) ++ [NewPublisher])
             ++ [InstallSigint] ++ banner a
             ++ ([LogMain INFO MsgStartingTest] ++ map StartReader (seq 0 n)
                   ++ [StartPublisher; LogMain INFO MsgAllStarted])
             ++ [SleepDuration (duration a)])
          ++ stopping_line (interrupt w)
          ++ [LogMain INFO MsgStoppingTest]),
         final.
  rewrite Hmain. cbn [fst snd].
  split; [|split; [|repeat split; assumption]].
  - generalize (map Print (BufferTester.print_stats final)) as report.
    generalize (map ReaderStop (seq 0 n)) as stops.
    generalize (map ReaderJoin (seq 0 n)) as joins.
    intros joins stops report.
    rewrite <- !app_assoc. reflexivity.
  - unfold banner. rewrite !forallb_app. cbn [forallb map before_shutdown is_shutdown
                                               is_stats_line negb andb].
    rewrite !forallb_app, !forallb_map_all by reflexivity.
    destruct (interrupt w); reflexivity.
Qed.

(** *** A signal before the publisher thread is started *)

Lemma publisher_run_not_started (inputs : list Publisher.iter) :
  forall th,
    Publisher.at_ th = Publisher.NotStarted ->
    Publisher.run inputs th = th.
Proof.
  induction inputs as [|i inputs IH]; intros th H; simpl; [reflexivity|].
  unfold Publisher.step. rewrite H. apply IH, H.
Qed.

Lemma forallb_firstn {A : Type} (p : A -> bool) (k : nat) (l : list A) :
  forallb p l = true -> forallb p (firstn k l) = true.
Proof.
  revert k. induction l as [|x l IH]; intros [|k]; simpl; auto.
  intros H. apply andb_prop in H. destruct H as [Hx Hl]. rewrite Hx. simpl. auto.
Qed.

Lemma banner_before_shutdown (a : args) : forallb before_shutdown (banner a) = true.
Proof. reflexivity. Qed.

Lemma banner_prints_no_report (a : args) : existsb prints_report (banner a) = false.
Proof. reflexivity. Qed.

(** [tester.stop()] on a tester whose publisher thread was never started,
    with a client whose [close()] returns: the publisher is told to stop,
    its [join] raises, and the method is left there. *)
Lemma stop_unstarted_publisher (e : BufferTester.env) (tester : BufferTester.t) :
  BufferTester.publisher_close e = None ->
  Publisher.at_ (BufferTester.publisher tester) = Publisher.NotStarted ->
  exists final,
    BufferTester.stop e tester
    = (Raise PyException, final,
       [LogMain INFO MsgStoppingTest; PublisherStop; PublisherJoin])
    /\ BufferTester.slow_readers final = BufferTester.slow_readers tester
    /\ Publisher.at_ (BufferTester.publisher final) = Publisher.NotStarted.
Proof.
  intros Hc Hp. unfold BufferTester.stop, Publisher.stop, BufferTester.join_publisher.
  rewrite Hc. cbn [Publisher.at_]. rewrite Hp.
  eexists. split; [reflexivity|]. split; reflexivity.
Qed.

(** Where a signal finds the publisher thread not yet started: during the
    banner, or inside [tester.start()] with at most the [n] readers started. *)
Definition before_publisher_start (n : nat) (s : sigint) : bool :=
  match s with
  | InBanner _ => true
  | InStart k => (k <=? n)%nat
  | _ => false
  end.

(** C7 fails in the code when SIGINT arrives after [signal.signal] and before
    [tester.start()] has started the publisher thread (valid ranges, broker
    reached, units built, a publisher client whose [close()] returns).  The
    handler prints its line and calls [tester.stop()]: the publisher is told
    to stop, [publisher_thread.join()] raises [RuntimeError] on the thread
    that was never started, and the exception leaves the handler and [main].
    No reader is stopped or joined, nothing of the report is printed, and
    the readers are left as they were when the signal came: those already
    started as their threads have run, the others as built. *)
Theorem early_sigint_aborts_shutdown (a : args) (w : world)
    (tester : BufferTester.t) (acts : list action) :
  validate a = None ->
  preflight w = None ->
  BufferTester.init (threads w) (host a) (port a) (connections a)
    (min_bytes_recv a) (max_bytes_recv a) (min_recv_sleep_time a) (max_recv_sleep_time a)
    (min_message_size a) (max_message_size a) = (Ok tester, acts) ->
  BufferTester.publisher_close (threads w) = None ->
  before_publisher_start (Z.to_nat (connections a)) (interrupt w) = true ->
  exists pre final,
    main a w
    = (pre ++ [Print LineStopping; LogMain INFO MsgStoppingTest;
               PublisherStop; PublisherJoin],
       Uncaught PyException, Some final)
    /\ forallb before_shutdown pre = true
    /\ existsb prints_report (fst (fst (main a w))) = false
    /\ Publisher.at_ (BufferTester.publisher final) = Publisher.NotStarted
    /\ List.length (BufferTester.slow_readers final) = Z.to_nat (connections a)
    /\ BufferTester.slow_readers final
       = BufferTester.slow_readers
           match interrupt w with
           | InStart k =>
               BufferTester.threads_run (threads w)
                 (fst (BufferTester.start_upto (threads w) k tester))
           | _ => tester
           end.
Proof.
  intros Hv Hp Hi Hc Hs.
  destruct (init_shape _ _ _ _ _ _ _ _ _ _ _ _ Hi) as (Hlen & Hacts & Hpub).
  unfold main. rewrite Hv, Hp, Hi. cbv zeta.
  destruct (interrupt w) as [|k|k|]; try discriminate Hs; cbn [before_publisher_start] in Hs.
  - destruct (stop_unstarted_publisher (threads w) tester Hc Hpub)
      as (final & Hstop & Hrs & Hfp).
    unfold signal_handler, shutdown. rewrite Hstop.
    exists (Ping (host a) (port a) :: acts ++ [InstallSigint] ++ firstn k (banner a)), final.
    cbn [fst snd].
    split; [|split; [|split; [|split; [|split]]]].
    + rewrite <- !app_comm_cons, <- !app_assoc. reflexivity.
    + rewrite Hacts. cbn [forallb before_shutdown is_shutdown negb andb].
      rewrite !forallb_app, !forallb_map_all by reflexivity.
      rewrite (forallb_firstn _ _ _ (banner_before_shutdown a)). reflexivity.
    + rewrite Hacts. cbn [existsb prints_report orb].
      rewrite !existsb_app, !existsb_map_none by reflexivity.
      cbn [existsb prints_report is_stats_line orb].
      rewrite Bool.orb_false_r.
      apply existsb_firstn_none. reflexivity.
    + exact Hfp.
    + rewrite Hrs. exact Hlen.
    + exact Hrs.
  - apply Nat.leb_le in Hs.
    assert (Hn : (List.length (BufferTester.slow_readers tester) <? k)%nat = false)
      by (apply Nat.ltb_ge; lia).
    unfold BufferTester.start_upto. rewrite Hn.
    set (tester2 := BufferTester.threads_run _ _).
    assert (Hp2 : Publisher.at_ (BufferTester.publisher tester2) = Publisher.NotStarted).
    { subst tester2. unfold BufferTester.threads_run. cbn [BufferTester.publisher].
      rewrite publisher_run_not_started; exact Hpub. }
    destruct (stop_unstarted_publisher (threads w) tester2 Hc Hp2)
      as (final & Hstop & Hrs & Hfp).
    unfold signal_handler, shutdown. rewrite Hstop.
    exists (Ping (host a) (port a) :: acts ++ [InstallSigint] ++ banner a
              ++ [LogMain INFO MsgStartingTest]
              ++ map StartReader (firstn k (BufferTester.ids tester)) ++ []), final.
    cbn [fst snd].
    split; [|split; [|split; [|split; [|split]]]].
    + cbn [app]. rewrite ?app_nil_r. repeat (rewrite <- app_assoc; cbn [app]).
      reflexivity.
    + rewrite Hacts. cbn [forallb before_shutdown is_shutdown negb andb].
      rewrite !forallb_app, !forallb_map_all by reflexivity.
      reflexivity.
    + rewrite Hacts. cbn [existsb prints_report orb].
      rewrite !existsb_app, !existsb_map_none by reflexivity.
      reflexivity.
    + exact Hfp.
    + rewrite Hrs. subst tester2. unfold BufferTester.threads_run.
      cbn [BufferTester.slow_readers]. rewrite !mapi_length. exact Hlen.
    + rewrite Hrs. reflexivity.
Qed.

(** The command line [--connections 2 --duration 5], the rest at its
    default, and what [BufferTester(...)] builds from it in the quiet
    world. *)
Definition short_args : args :=
  mkArgs "localhost" 6379 2 500 1500 0x1.999999999999ap-4%float 0.5%float 100 1000 5.

Definition short_built : res BufferTester.t * list action :=
  Eval vm_compute in
    BufferTester.init quiet_threads (host short_args) (port short_args)
      (connections short_args) (min_bytes_recv short_args) (max_bytes_recv short_args)
      (min_recv_sleep_time short_args) (max_recv_sleep_time short_args)
      (min_message_size short_args) (max_message_size short_args).

Definition short_tester : BufferTester.t :=
  match fst short_built with
  | Ok t => t
  | Raise _ =>
      BufferTester.mk "test_channel" []
        (Publisher.mkThread (Publisher.init 0%nat "test_channel" 0 0) Publisher.NotStarted [])
  end.

Lemma shutdown_stops_publisher_first_witness :
  exists pre final,
    fst (fst (main short_args (quiet_world InSleep)))
    = pre ++ [PublisherStop; PublisherJoin]
          ++ map ReaderStop (seq 0 (Z.to_nat (connections short_args)))
          ++ map ReaderJoin (seq 0 (Z.to_nat (connections short_args)))
          ++ [LogMain INFO MsgAllStopped]
          ++ map Print (BufferTester.print_stats final)
    /\ forallb before_shutdown pre = true
    /\ snd (main short_args (quiet_world InSleep)) = Some final
    /\ List.length (BufferTester.slow_readers final) = Z.to_nat (connections short_args)
    /\ Forall reader_finished (BufferTester.slow_readers final)
    /\ publisher_finished (BufferTester.publisher final)
    /\ snd (fst (main short_args (quiet_world InSleep)))
       = clean_ending (interrupt (quiet_world InSleep)).
Proof.
  apply (shutdown_stops_publisher_first short_args (quiet_world InSleep)
           short_tester (snd short_built)).
  - reflexivity.
  - reflexivity.
  - vm_compute. reflexivity.
  - simpl. lia.
  - reflexivity.
  - reflexivity.
Defined.

(** Ctrl+C while the second reader thread is being started, one reader
    thread running: the run ends in the [RuntimeError] of the publisher
    thread's [join]. *)
Lemma early_sigint_aborts_shutdown_witness :
  exists pre final,
    main short_args (quiet_world (InStart 1))
    = (pre ++ [Print LineStopping; LogMain INFO MsgStoppingTest;
               PublisherStop; PublisherJoin],
       Uncaught PyException, Some final)
    /\ forallb before_shutdown pre = true
    /\ existsb prints_report (fst (fst (main short_args (quiet_world (InStart 1))))) = false
    /\ Publisher.at_ (BufferTester.publisher final) = Publisher.NotStarted
    /\ List.length (BufferTester.slow_readers final) = Z.to_nat (connections short_args)
    /\ BufferTester.slow_readers final
       = BufferTester.slow_readers
           match interrupt (quiet_world (InStart 1)) with
           | InStart k =>
               BufferTester.threads_run (threads (quiet_world (InStart 1)))
                 (fst (BufferTester.start_upto (threads (quiet_world (InStart 1))) k
                         short_tester))
           | _ => short_tester
           end.
Proof.
  apply (early_sigint_aborts_shutdown short_args (quiet_world (InStart 1))
           short_tester (snd short_built)).
  - reflexivity.
  - reflexivity.
  - vm_compute. reflexivity.
  - reflexivity.
  - reflexivity.
Defined.

(** ** The statistics report *)

Lemma connection_lines_no_average (q : Q) (rs : list SlowReader.thread) :
  forall i0, ~ In (StatsAverage q) (List.concat (BufferTester.mapi BufferTester.connection_lines i0 rs)).
Proof.
  induction rs as [|th rs IH]; intros i0; simpl; [tauto|].
  intros [H|[H|[H|[H|H]]]]; try discriminate. exact (IH _ H).
Qed.

Lemma connection_lines_printed (rs : list SlowReader.thread) :
  forall i0 i th,
    nth_error rs i = Some th ->
    incl (BufferTester.connection_lines (i0 + i) th)
         (List.concat (BufferTester.mapi BufferTester.connection_lines i0 rs)).
Proof.
  induction rs as [|r rs IH]; intros i0 i th H; destruct i as [|i]; simpl in H;
    try discriminate.
  - inversion H; subst. rewrite Nat.add_0_r.
    cbn [BufferTester.mapi List.concat]. apply incl_appl, incl_refl.
  - cbn [BufferTester.mapi List.concat]. apply incl_appr.
    replace (i0 + S i)%nat with (S i0 + i)%nat by lia. apply IH, H.
Qed.

(** *** Which runs print the report *)

Lemma validate_prints_no_report (a : args) (err : line) :
  validate a = Some err -> is_stats_line err = false.
Proof.
  unfold validate.
  destruct (_ >? _); [intros H; inversion H; reflexivity|].
  destruct (_ >? _); [intros H; inversion H; reflexivity|].
  destruct (PrimFloat.ltb _ _); intros H; inversion H; reflexivity.
Qed.

Lemma create_readers_prints_no_report
    (mk_reader : nat -> res SlowReader.t * list event) (ids : list nat) :
  existsb prints_report (snd (BufferTester.create_readers mk_reader ids)) = false.
Proof.
  induction ids as [|i ids IH]; simpl; [reflexivity|].
  destruct (mk_reader i) as [[r|x] tr]; [|reflexivity].
  destruct (BufferTester.create_readers mk_reader ids) as [rs acts]. exact IH.
Qed.

Lemma init_prints_no_report (e : BufferTester.env) (host : string) (port n : Z)
    (lo hi : Z) (slo shi : float) (mlo mhi : Z) :
  existsb prints_report (snd (BufferTester.init e host port n lo hi slo shi mlo mhi))
  = false.
Proof.
  unfold BufferTester.init.
  match goal with
  | |- context [BufferTester.create_readers ?f ?l] =>
      pose proof (create_readers_prints_no_report f l) as H;
      destruct (BufferTester.create_readers f l) as [[rs|x] acts]
  end; cbn [snd] in *; [|exact H].
  rewrite existsb_app, H. reflexivity.
Qed.

Lemma join_readers_prints_no_report (e : BufferTester.env) (l : list SlowReader.thread) :
  forall i, existsb prints_report (snd (BufferTester.join_readers e i l)) = false.
Proof.
  induction l as [|th l IH]; intros i; simpl; [reflexivity|].
  destruct (BufferTester.join_reader e i th) as [th'|x]; [|reflexivity].
  specialize (IH (S i)).
  destruct (BufferTester.join_readers e (S i) l) as [[r rest] acts]. exact IH.
Qed.

Lemma stop_prints_no_report (e : BufferTester.env) (tester : BufferTester.t) :
  existsb prints_report (snd (BufferTester.stop e tester)) = false.
Proof.
  unfold BufferTester.stop.
  destruct (Publisher.stop _ _) as [[[u|x] pself] ptr]; [|reflexivity].
  destruct (BufferTester.join_publisher _ _) as [p2|x]; [|reflexivity].
  match goal with
  | |- context [BufferTester.join_readers ?e ?i ?l] =>
      pose proof (join_readers_prints_no_report e l i) as H;
      destruct (BufferTester.join_readers e i l) as [[rj rs2] joins]
  end; cbn [snd] in *.
  cbn [app existsb prints_report orb].
  rewrite !existsb_app, existsb_map_none, H by reflexivity.
  destruct rj; reflexivity.
Qed.

Lemma start_prints_no_report (e : BufferTester.env) (tester : BufferTester.t) :
  existsb prints_report (snd (BufferTester.start e tester)) = false.
Proof.
  unfold BufferTester.start. cbn [snd app existsb prints_report orb].
  rewrite existsb_app, existsb_map_none by reflexivity. reflexivity.
Qed.

Lemma start_upto_prints_no_report (e : BufferTester.env) (k : nat)
    (tester : BufferTester.t) :
  existsb prints_report (snd (BufferTester.start_upto e k tester)) = false.
Proof.
  unfold BufferTester.start_upto. cbn [snd app existsb prints_report orb].
  rewrite existsb_app, existsb_map_none by reflexivity.
  destruct (_ <? _)%nat; reflexivity.
Qed.

(** [tester.stop(); tester.print_stats()]: the report is printed last, of
    the tester as [stop] left it, exactly when [stop] returns. *)
Lemma shutdown_report (e : BufferTester.env) (tester : BufferTester.t) :
  match shutdown e tester with
  | (Ok _, final, acts) =>
      exists before,
        acts = before ++ map Print (BufferTester.print_stats final)
        /\ existsb prints_report before = false
  | (Raise _, _, acts) => existsb prints_report acts = false
  end.
Proof.
  unfold shutdown. pose proof (stop_prints_no_report e tester) as H.
  destruct (BufferTester.stop e tester) as [[[u|x] final] acts]; cbn [snd] in H.
  - exists acts. auto.
  - exact H.
Qed.

Lemma signal_handler_report (e : BufferTester.env) (tester : BufferTester.t) :
  match signal_handler e tester with
  | (acts, Exit 0, final) =>
      exists before,
        acts = before ++ map Print (BufferTester.print_stats final)
        /\ existsb prints_report before = false
  | (acts, fin, _) =>
      existsb prints_report acts = false /\ fin <> Returned /\ fin <> Exit 0
  end.
Proof.
  unfold signal_handler. pose proof (shutdown_report e tester) as H.
  destruct (shutdown e tester) as [[[u|x] final] acts].
  - destruct H as (before & -> & Hb). exists (Print LineStopping :: before).
    split; [reflexivity|exact Hb].
  - cbn [existsb prints_report is_stats_line orb]. repeat split; try discriminate.
    exact H.
Qed.

(** Every run of [main]: either its shutdown completes ([main] returns, or
    the handler reaches [sys.exit(0)]) and the report is the last thing
    printed, or it ends otherwise and no line of the report is printed. *)
Lemma main_report (a : args) (w : world) :
  (exists before final,
      main a w = (before ++ map Print (BufferTester.print_stats final),
                  clean_ending (interrupt w), Some final)
      /\ existsb prints_report before = false)
  \/ (existsb prints_report (fst (fst (main a w))) = false
      /\ snd (fst (main a w)) <> Returned
      /\ snd (fst (main a w)) <> Exit 0).
Proof.
  unfold main.
  destruct (validate a) as [err|] eqn:Hv.
  { right. cbn [fst snd existsb prints_report orb].
    rewrite (validate_prints_no_report _ _ Hv). repeat split; discriminate. }
  destruct (preflight w) as [x|].
  { right. destruct (isinstance_RedisError x); cbn; repeat split; discriminate. }
  match goal with
  | |- context [BufferTester.init ?e ?h ?p ?n ?lo ?hi ?slo ?shi ?mlo ?mhi] =>
      pose proof (init_prints_no_report e h p n lo hi slo shi mlo mhi) as Hin;
      destruct (BufferTester.init e h p n lo hi slo shi mlo mhi) as [[tester|x] acts]
  end; cbn [snd] in Hin.
  2: { right. cbn [fst snd existsb prints_report orb]. rewrite Hin.
       repeat split; discriminate. }
  cbv zeta.
  pose proof (start_prints_no_report (threads w) tester) as Hst.
  pose proof (banner_prints_no_report a) as Hb.
  assert (Hpre : forall tail,
             existsb prints_report
               (Ping (host a) (port a) :: acts ++ [InstallSigint] ++ banner a ++ tail)
             = existsb prints_report tail).
  { intros tail. cbn [existsb prints_report orb app].
    rewrite existsb_app, Hin. cbn [existsb prints_report orb].
    rewrite existsb_app, Hb. reflexivity. }
  destruct (interrupt w) as [|k|k|] eqn:Hint; cbn [clean_ending].
  - destruct (BufferTester.start (threads w) tester) as [tester1 started].
    cbn [snd] in Hst.
    destruct (negb (sleep_int_ok (duration a))).
    { right. cbn [fst snd]. rewrite Hpre, existsb_app, Hst.
      repeat split; discriminate. }
    pose proof (shutdown_report (threads w)
                  (BufferTester.threads_run (threads w) tester1)) as Hsh.
    destruct (shutdown _ _) as [[[u|x] final] stopped].
    + left. destruct Hsh as (before & -> & Hbe).
      exists ((Ping (host a) (port a) :: acts ++ [InstallSigint] ++ banner a
                 ++ started ++ [SleepDuration (duration a)]) ++ before), final.
      split; [rewrite <- app_assoc; reflexivity|].
      rewrite existsb_app, Hpre, existsb_app, Hst, Hbe. reflexivity.
    + right. cbn [fst snd]. rewrite existsb_app, Hpre, existsb_app, Hst, Hsh.
      repeat split; discriminate.
  - pose proof (signal_handler_report (threads w) tester) as Hsh.
    destruct (signal_handler _ _) as [[handled fin] final].
    assert (Hk : existsb prints_report (firstn k (banner a)) = false)
      by (apply existsb_firstn_none, Hb).
    assert (Hpk : forall tail,
               existsb prints_report
                 (Ping (host a) (port a) :: acts ++ [InstallSigint]
                    ++ firstn k (banner a) ++ tail)
               = existsb prints_report tail).
    { intros tail. cbn [existsb prints_report orb app].
      rewrite existsb_app, Hin. cbn [existsb prints_report orb].
      rewrite existsb_app, Hk. reflexivity. }
    destruct fin as [code| |x]; [destruct code as [|c|c]| |];
      try (right; destruct Hsh as (Hh & H1 & H2); cbn [fst snd];
           rewrite Hpk, Hh; auto).
    left. destruct Hsh as (before & -> & Hbe).
    exists (Ping (host a) (port a) :: acts ++ [InstallSigint]
              ++ firstn k (banner a) ++ before), final.
    split; [|rewrite Hpk; exact Hbe].
    cbn [app]. repeat (rewrite <- app_assoc; cbn [app]). reflexivity.
  - pose proof (start_upto_prints_no_report (threads w) k tester) as Hsu.
    destruct (BufferTester.start_upto (threads w) k tester) as [tester1 started].
    cbn [snd] in Hsu.
    pose proof (signal_handler_report (threads w)
                  (BufferTester.threads_run (threads w) tester1)) as Hsh.
    destruct (signal_handler _ _) as [[handled fin] final].
    destruct fin as [code| |x]; [destruct code as [|c|c]| |];
      try (right; destruct Hsh as (Hh & H1 & H2); cbn [fst snd];
           rewrite Hpre, existsb_app, Hsu, Hh; auto).
    left. destruct Hsh as (before & -> & Hbe).
    exists (Ping (host a) (port a) :: acts ++ [InstallSigint] ++ banner a
              ++ started ++ before), final.
    split; [|rewrite Hpre, existsb_app, Hsu; exact Hbe].
    cbn [app]. repeat (rewrite <- app_assoc; cbn [app]). reflexivity.
  - destruct (BufferTester.start (threads w) tester) as [tester1 started].
    cbn [snd] in Hst.
    destruct (negb (sleep_int_ok (duration a))).
    { right. cbn [fst snd]. rewrite Hpre, existsb_app, Hst.
      repeat split; discriminate. }
    pose proof (signal_handler_report (threads w)
                  (BufferTester.threads_run (threads w) tester1)) as Hsh.
    destruct (signal_handler _ _) as [[handled fin] final].
    destruct fin as [code| |x]; [destruct code as [|c|c]| |];
      try (right; destruct Hsh as (Hh & H1 & H2); cbn [fst snd];
           rewrite existsb_app, Hpre, existsb_app, Hst, Hh; auto).
    left. destruct Hsh as (before & -> & Hbe).
    exists ((Ping (host a) (port a) :: acts ++ [InstallSigint] ++ banner a
               ++ started ++ [SleepDuration (duration a)]) ++ before), final.
    split; [rewrite <- app_assoc; reflexivity|].
    rewrite existsb_app, Hpre, existsb_app, Hst, Hbe. reflexivity.
Qed.

(** C9 (amended): the report has an average-message-size line exactly when
    [messages_sent > 0], and its value is then
    [total_bytes_sent / messages_sent]; when no message was sent the line is
    left out (no 0 is printed).  Every other line (publisher totals, the
    sums over the readers, the three lines of each reader) is in every
    report.  A run of [main] (with the signal, if one arrives, arriving no
    later than the wait) prints the report exactly when its shutdown
    completes, on either trigger: when [main] returns after [tester.stop()],
    or the SIGINT handler reaches [sys.exit(0)], the report of the tester as
    [stop] left it is the last thing printed and no line of it comes
    earlier; a run that ends in [sys.exit(1)] or in an uncaught exception
    prints no line of the report. *)
Theorem report_average_only_when_sent (tester : BufferTester.t) :
  let p := Publisher.self (BufferTester.publisher tester) in
  let rs := BufferTester.slow_readers tester in
  let report := BufferTester.print_stats tester in
  (forall q, In (StatsAverage q) report
             <-> Publisher.messages_sent p > 0
                 /\ q = Qmake (Publisher.total_bytes_sent p)
                              (Z.to_pos (Publisher.messages_sent p)))
  /\ incl [StatsHeader;
           StatsSent (Publisher.messages_sent p);
           StatsBytesSent (Publisher.total_bytes_sent p);
           StatsReceived
             (BufferTester.sum
                (map (fun r => ConnectionStats.messages_received (BufferTester.reader_stats r)) rs));
           StatsBytesRead
             (BufferTester.sum
                (map (fun r => ConnectionStats.bytes_read (BufferTester.reader_stats r)) rs));
           StatsReconnections
             (BufferTester.sum
                (map (fun r => ConnectionStats.reconnection_attempts (BufferTester.reader_stats r)) rs));
           PerConnectionHeader] report
  /\ (forall i th, nth_error rs i = Some th ->
                   incl (BufferTester.connection_lines i th) report)
  /\ (forall a w,
        (snd (fst (main a w)) = Returned \/ snd (fst (main a w)) = Exit 0 ->
         exists before final,
           main a w = (before ++ map Print (BufferTester.print_stats final),
                       clean_ending (interrupt w), Some final)
           /\ existsb prints_report before = false)
        /\ (snd (fst (main a w)) <> Returned ->
            snd (fst (main a w)) <> Exit 0 ->
            existsb prints_report (fst (fst (main a w))) = false)).
Proof.
  intros p rs report.
  assert (Hreport : report
            = [StatsHeader;
               StatsSent (Publisher.messages_sent p);
               StatsBytesSent (Publisher.total_bytes_sent p)]
              ++ (if Publisher.messages_sent p >? 0
                  then [StatsAverage (Qmake (Publisher.total_bytes_sent p)
                                            (Z.to_pos (Publisher.messages_sent p)))]
                  else [])
              ++ [StatsReceived
                    (BufferTester.sum
                       (map (fun r => ConnectionStats.messages_received
                                        (BufferTester.reader_stats r)) rs));
                  StatsBytesRead
                    (BufferTester.sum
                       (map (fun r => ConnectionStats.bytes_read
                                        (BufferTester.reader_stats r)) rs));
                  StatsReconnections
                    (BufferTester.sum
                       (map (fun r => ConnectionStats.reconnection_attempts
                                        (BufferTester.reader_stats r)) rs));
                  PerConnectionHeader]
              ++ List.concat (BufferTester.mapi BufferTester.connection_lines 0 rs))
    by reflexivity.
  split; [|split; [|split]]; try rewrite Hreport; clear Hreport.
  - intros q. rewrite !in_app_iff. split.
    + intros [H|[H|[H|H]]].
      * simpl in H. destruct H as [H|[H|[H|[]]]]; discriminate.
      * destruct (Z.gtb_spec (Publisher.messages_sent p) 0) as [Hgt|Hle].
        -- destruct H as [H|[]]. inversion H. split; [lia|reflexivity].
        -- destruct H.
      * simpl in H. destruct H as [H|[H|[H|[H|[]]]]]; discriminate.
      * exfalso. exact (connection_lines_no_average q rs 0%nat H).
    + intros [Hgt ->]. right; left.
      destruct (Z.gtb_spec (Publisher.messages_sent p) 0) as [_|Hle]; [|lia].
      left; reflexivity.
  - intros l Hl. rewrite !in_app_iff. simpl in Hl |- *.
    destruct Hl as [<-|[<-|[<-|[<-|[<-|[<-|[<-|[]]]]]]]]; tauto.
  - intros i th Hn l Hl. rewrite !in_app_iff. right; right; right.
    exact (connection_lines_printed rs 0%nat i th Hn l Hl).
  - intros a w. destruct (main_report a w) as [Hclean|(Hnone & Hr & He)].
    + split; [intros _; exact Hclean|].
      destruct Hclean as (before & final & Hmain & _). rewrite Hmain. cbn [fst snd].
      intros Hr He. destruct (interrupt w); contradiction.
    + split; [|intros _ _; exact Hnone].
      intros [H|H]; contradiction.
Qed.

(** Five seconds, no signal: [main] returns, and the report ends its output;
    Ctrl+C during the wait: the handler exits with 0, the report likewise. *)
Lemma report_average_only_when_sent_witness :
  (exists before final,
      main short_args (quiet_world NoSigint)
      = (before ++ map Print (BufferTester.print_stats final),
         clean_ending (interrupt (quiet_world NoSigint)), Some final)
      /\ existsb prints_report before = false)
  /\ (exists before final,
      main short_args (quiet_world InSleep)
      = (before ++ map Print (BufferTester.print_stats final),
         clean_ending (interrupt (quiet_world InSleep)), Some final)
      /\ existsb prints_report before = false).
Proof.
  split.
  - apply (proj1 (proj2 (proj2 (proj2 (report_average_only_when_sent short_tester)))
                   short_args (quiet_world NoSigint))).
    left. vm_compute. reflexivity.
  - apply (proj1 (proj2 (proj2 (proj2 (report_average_only_when_sent short_tester)))
                   short_args (quiet_world InSleep))).
    right. vm_compute. reflexivity.
Defined.

(** The command line [--connections 2 --duration 10000000000]: more seconds
    than [time.sleep] takes. *)
Definition overlong_args : args :=
  mkArgs "localhost" 6379 2 500 1500 0x1.999999999999ap-4%float 0.5%float 100 1000
         10000000000.

(** C9 as stated fails twice.  A tester whose publisher sent nothing gets a
    report with no average line at all, not one showing 0.  And not every
    run prints the report: with [--duration 10000000000] the test is
    started, [time.sleep] raises [OverflowError], and the run ends without
    a line of it. *)
Lemma report_without_average :
  ~ (forall tester : BufferTester.t,
       exists q, In (StatsAverage q) (BufferTester.print_stats tester))
  /\ ~ (forall (a : args) (w : world),
         validate a = None -> preflight w = None ->
         existsb prints_report (fst (fst (main a w))) = true).
Proof.
  split.
  - intros H. destruct (H short_tester) as [q Hq].
    cbv in Hq.
    repeat (destruct Hq as [Hq|Hq]; [discriminate Hq|]).
    exact Hq.
  - intros H.
    specialize (H overlong_args (quiet_world NoSigint) eq_refl eq_refl).
    vm_compute in H. discriminate H.
Qed.

(** ** Stopping twice *)

(** C8 (amended): [stop()] is idempotent on the state of both classes, not
    on what it does.  A second [SlowReader.stop], whatever the client calls
    do either time, leaves the object exactly as the first left it (flag
    cleared, same counters, same delay, same handle) and, being total, never
    raises; but it makes its client calls again: with a handle stored it
    starts with the same [unsubscribe()] on that handle, every error
    swallowed.  A second [Publisher.stop] changes no field either (flag
    cleared, counters alone); it calls [redis_client.close()] again, outside
    any [try]: when that call returns it logs "Publisher stopped" once more
    and returns, and when that call raises the exception leaves [stop]. *)
Theorem stop_twice_keeps_state_repeats_calls :
  (forall env1 env2 self,
      SlowReader.stop env2 (SlowReader.stop env1 self) = SlowReader.stop env1 self
      /\ SlowReader.running (SlowReader.stop env1 self) = false
      /\ SlowReader.stats (SlowReader.stop env1 self) = SlowReader.stats self)
  /\ (forall env1 env2 th,
      SlowReader.stopped env2 (SlowReader.stopped env1 th) = SlowReader.stopped env1 th)
  /\ (forall env1 env2 self,
      SlowReader.stop_calls env2 (SlowReader.stop env1 self)
      = SlowReader.stop_calls env2 self)
  /\ (forall env1 env2 self h,
      SlowReader.pubsub self = Some h ->
      exists rest,
        SlowReader.stop_calls env2 (SlowReader.stop env1 self) = Unsubscribe h :: rest)
  /\ (forall c1 c2 self,
      let once := snd (fst (Publisher.stop c1 self)) in
      snd (fst (Publisher.stop c2 once)) = once
      /\ Publisher.running once = false
      /\ Publisher.messages_sent once = Publisher.messages_sent self
      /\ Publisher.total_bytes_sent once = Publisher.total_bytes_sent self
      /\ Publisher.stop_calls once = [ClientClose (Publisher.redis_client self)])
  /\ (forall c1 self,
      let once := snd (fst (Publisher.stop c1 self)) in
      Publisher.stop None once = (Ok tt, once, [Log INFO MsgPublisherStopped])
      /\ forall x, Publisher.stop (Some x) once = (Raise x, once, [])).
Proof.
  split; [|split; [|split; [|split; [|split]]]].
  - intros env1 env2 self. rewrite !stop_fields. repeat split.
  - intros env1 env2 th. unfold SlowReader.stopped. simpl. rewrite !stop_fields.
    reflexivity.
  - intros env1 env2 self. rewrite stop_fields. reflexivity.
  - intros env1 env2 self h Hh. rewrite stop_fields.
    unfold SlowReader.stop_calls. cbn [SlowReader.pubsub SlowReader.set_running].
    rewrite Hh. eexists. reflexivity.
  - intros c1 c2 self once. subst once.
    destruct c1, c2; simpl; repeat split.
  - intros c1 self once. subst once. destruct c1; split; reflexivity.
Qed.

(** The publisher of the default command line, before any message. *)
Definition idle_publisher : Publisher.t := Publisher.init 0%nat "test_channel" 100 1000.

(** C8 as stated fails: a second [Publisher.stop] is not without effect.
    Even when [close()] returns both times, the second call closes the
    client again and writes the "Publisher stopped" line again; and when
    the second [close()] raises, so does the second [stop()]. *)
Lemma second_stop_is_observable :
  ~ (forall (c : option exn) (self : Publisher.t),
       let once := snd (fst (Publisher.stop None self)) in
       fst (fst (Publisher.stop c once)) = Ok tt
       /\ snd (Publisher.stop c once) = []
       /\ Publisher.stop_calls once = []).
Proof.
  intros H. destruct (H None idle_publisher) as (_ & Hlog & _).
  discriminate Hlog.
Qed.

(** * Further properties of the reader, the publisher and the orchestrator *)

(** ** What [reconnect] returns *)

Lemma connect_subscribed_handle (o : connect_outcome) (self : SlowReader.t) :
  fst (fst (SlowReader.connect o self)) = Ok true ->
  exists h, o = Subscribed h
            /\ SlowReader.pubsub (snd (fst (SlowReader.connect o self))) = Some h.
Proof.
  destruct o as [h | a e]; simpl.
  - intros _. exists h. auto.
  - destruct (isinstance_RedisError e); discriminate.
Qed.

Lemma reconnect_loop_result (rounds : list SlowReader.round) :
  forall self,
    match fst (fst (SlowReader.reconnect_loop rounds self)) with
    | SlowReader.Returned true =>
        SlowReader.running (snd (fst (SlowReader.reconnect_loop rounds self))) = true
        /\ exists h, In (SlowReader.Attempt (Subscribed h)) rounds
                     /\ SlowReader.pubsub (snd (fst (SlowReader.reconnect_loop rounds self)))
                        = Some h
    | SlowReader.Returned false =>
        SlowReader.running (snd (fst (SlowReader.reconnect_loop rounds self))) = false
    | SlowReader.Retrying =>
        SlowReader.running (snd (fst (SlowReader.reconnect_loop rounds self))) = true
    end.
Proof.
  induction rounds as [|r rest IH]; intros self; simpl.
  - destruct (SlowReader.running self) eqn:Hr; simpl; exact Hr.
  - destruct (SlowReader.running self) eqn:Hr; simpl; [|exact Hr].
    destruct r as [env | o].
    + specialize (IH (SlowReader.stop env self)).
      destruct (fst (fst (SlowReader.reconnect_loop rest (SlowReader.stop env self))))
        as [[|]|]; auto.
      destruct IH as (H1 & h & Hin & Hh). split; [exact H1|]. exists h. auto.
    + pose proof (connect_subscribed_handle o self) as Hh.
      pose proof (connect_running o self) as Hrun.
      destruct (SlowReader.connect o self) as [[r self1] tr1]; simpl in Hh, Hrun.
      destruct r as [[|]|e]; simpl.
      * destruct (Hh eq_refl) as (h & -> & Hp). split; [congruence|].
        exists h. auto.
      * match goal with
        | |- context [SlowReader.reconnect_loop rest ?s] =>
            specialize (IH s); destruct (SlowReader.reconnect_loop rest s) as [[rr s3] tr4]
        end.
        simpl in *. destruct rr as [[|]|]; auto.
        destruct IH as (H1 & h & Hin & Hp). split; [exact H1|]. exists h. auto.
      * match goal with
        | |- context [SlowReader.reconnect_loop rest ?s] =>
            specialize (IH s); destruct (SlowReader.reconnect_loop rest s) as [[rr s3] tr4]
        end.
        simpl in *. destruct rr as [[|]|]; auto.
        destruct IH as (H1 & h & Hin & Hp). split; [exact H1|]. exists h. auto.
Qed.

(** X1: what the result of [reconnect] means.  It returns [True] only
    when a connect of this call has subscribed, with the delay back at 1 and
    [self.pubsub] holding that handle; nothing is said of the flag then, as
    the method does not read it again between [connect()] and
    [return True].  It returns [False] only with the flag cleared (a stop
    request is the only way out besides success); and while it has neither
    returned nor been stopped it is still retrying.  A failed connect alone
    never makes it give up. *)
Theorem reconnect_returns_false_only_when_stopped
    (rounds : list SlowReader.round) (self : SlowReader.t) :
  let after := snd (fst (SlowReader.reconnect rounds self)) in
  match fst (fst (SlowReader.reconnect rounds self)) with
  | SlowReader.Returned true =>
      SlowReader.reconnect_delay after = 1
      /\ exists h, In (SlowReader.Attempt (Subscribed h)) rounds
                   /\ SlowReader.pubsub after = Some h
  | SlowReader.Returned false => SlowReader.running after = false
  | SlowReader.Retrying => SlowReader.running after = true
  end.
Proof.
  unfold SlowReader.reconnect, SlowReader.reconnect_enter.
  set (self1 := SlowReader.set_stats _ self).
  pose proof (reconnect_loop_result rounds self1) as H.
  pose proof (reconnect_loop_true_delay rounds self1) as Hd.
  destruct (SlowReader.reconnect_loop rounds self1) as [[r self2] tr2].
  simpl in *. destruct r as [[|]|]; auto.
  destruct H as (H1 & H2). auto.
Qed.

(** ** A stop request ends the backoff *)

Lemma reconnect_loop_after_stop (pre rest : list SlowReader.round) (env : stop_env) :
  forall self,
    SlowReader.reconnect_loop (pre ++ SlowReader.StopCalled env :: rest) self
    = SlowReader.reconnect_loop (pre ++ [SlowReader.StopCalled env]) self.
Proof.
  induction pre as [|r pre IH]; intros self; simpl.
  - destruct (SlowReader.running self); simpl; [|reflexivity].
    rewrite reconnect_loop_stopped by (rewrite stop_fields; reflexivity).
    rewrite stop_fields. reflexivity.
  - destruct (SlowReader.running self); simpl; [|reflexivity].
    destruct r as [env' | o]; [apply IH|].
    destruct (SlowReader.connect o self) as [[r self1] tr1].
    destruct r as [[|]|e]; try reflexivity; rewrite IH; reflexivity.
Qed.

Lemma reconnect_loop_stop_result (outs : list connect_outcome) (env : stop_env) :
  forall self,
    fst (fst (SlowReader.reconnect_loop
                (map SlowReader.Attempt outs ++ [SlowReader.StopCalled env]) self))
    = SlowReader.Returned
        (SlowReader.running self && existsb (fun o => negb (connect_fails o)) outs).
Proof.
  induction outs as [|o outs IH]; intros self; simpl.
  - destruct (SlowReader.running self) eqn:Hr; simpl; [|reflexivity].
    rewrite stop_fields. reflexivity.
  - destruct (SlowReader.running self) eqn:Hr; simpl; [|reflexivity].
    pose proof (connect_true_iff o self) as Hiff.
    pose proof (connect_running o self) as Hrun.
    destruct (SlowReader.connect o self) as [[r self1] tr1]; simpl in Hiff, Hrun.
    destruct (connect_fails o) eqn:Hf; simpl.
    + assert (Hne : r <> Ok true)
        by (intros ->; destruct Hiff as [Hiff _]; specialize (Hiff eq_refl); discriminate).
      match goal with
      | |- context [SlowReader.reconnect_loop ?l ?s] =>
          specialize (IH s); destruct (SlowReader.reconnect_loop l s) as [[rr s3] tr4]
      end.
      simpl in IH. rewrite Hrun, Hr in IH. simpl in IH.
      destruct r as [[|]|e]; simpl; congruence.
    + destruct Hiff as [_ Hiff]. rewrite (Hiff eq_refl). reflexivity.
Qed.

(** X2: a stop request ends [reconnect] at its next loop test.  Once another
    thread has called [stop()], nothing that would have come later (further
    connect outcomes, further stops) is looked at: the call has returned, and
    it returned [True] exactly when the flag was set on entry and one of the
    attempts made before the stop had subscribed. *)
Theorem stop_request_ends_reconnect
    (outs : list connect_outcome) (env : stop_env) (rest : list SlowReader.round)
    (self : SlowReader.t) :
  SlowReader.reconnect (map SlowReader.Attempt outs ++ SlowReader.StopCalled env :: rest) self
  = SlowReader.reconnect (map SlowReader.Attempt outs ++ [SlowReader.StopCalled env]) self
  /\ fst (fst (SlowReader.reconnect
                 (map SlowReader.Attempt outs ++ SlowReader.StopCalled env :: rest) self))
     = SlowReader.Returned
         (SlowReader.running self && existsb (fun o => negb (connect_fails o)) outs).
Proof.
  unfold SlowReader.reconnect, SlowReader.reconnect_enter.
  set (self1 := SlowReader.set_stats _ self).
  rewrite reconnect_loop_after_stop.
  pose proof (reconnect_loop_stop_result outs env self1) as H.
  destruct (SlowReader.reconnect_loop _ self1) as [[r self2] tr2].
  split; [reflexivity|exact H].
Qed.

(** ** What a reader keeps for life *)

(** The fields [__init__] copies from its arguments, and the delay cap. *)
Definition config (self : SlowReader.t)
  : string * Z * string * Z * Z * float * float * Z :=
  (SlowReader.host self, SlowReader.port self, SlowReader.channel self,
   SlowReader.min_bytes_recv self, SlowReader.max_bytes_recv self,
   SlowReader.min_recv_sleep_time self, SlowReader.max_recv_sleep_time self,
   SlowReader.max_reconnect_delay self).

(** From [a] to [b] the configuration is the same and a cleared flag has
    stayed cleared. *)
Definition keeps (a b : SlowReader.t) : Prop :=
  config b = config a
  /\ (SlowReader.running a = false -> SlowReader.running b = false).

(** The delay is between 1 and the cap of 30. *)
Definition delay_in_bounds (self : SlowReader.t) : Prop :=
  SlowReader.max_reconnect_delay self = 30
  /\ 1 <= SlowReader.reconnect_delay self <= 30.

Definition sleeps_in_bounds (tr : list event) : Prop :=
  Forall (fun d => 1 <= d <= 30) (sleeps tr).

Lemma keeps_refl (a : SlowReader.t) : keeps a a.
Proof. split; auto. Qed.

Lemma keeps_trans (a b c : SlowReader.t) : keeps a b -> keeps b c -> keeps a c.
Proof. intros [H1 H2] [H3 H4]. split; [congruence|auto]. Qed.

Lemma sleeps_in_bounds_app (a b : list event) :
  sleeps_in_bounds a -> sleeps_in_bounds b -> sleeps_in_bounds (a ++ b).
Proof.
  unfold sleeps_in_bounds. rewrite sleeps_app. intros. apply Forall_app. auto.
Qed.

Lemma sleeps_in_bounds_nil : sleeps_in_bounds [].
Proof. constructor. Qed.

#[local] Hint Resolve keeps_refl sleeps_in_bounds_nil sleeps_in_bounds_app : core.

Ltac frame :=
  repeat split; unfold delay_in_bounds in *; simpl in *;
  try reflexivity; auto; try (intuition lia).

Lemma connect_keeps (o : connect_outcome) (self : SlowReader.t) :
  keeps self (snd (fst (SlowReader.connect o self)))
  /\ (delay_in_bounds self -> delay_in_bounds (snd (fst (SlowReader.connect o self))))
  /\ sleeps_in_bounds (snd (SlowReader.connect o self)).
Proof.
  unfold sleeps_in_bounds. rewrite connect_no_sleep.
  destruct o as [h | [h|] e]; simpl; try destruct (isinstance_RedisError e);
    simpl; repeat split; auto; unfold delay_in_bounds in *; simpl; intuition lia.
Qed.

Lemma stop_keeps (env : stop_env) (self : SlowReader.t) :
  keeps self (SlowReader.stop env self)
  /\ (delay_in_bounds self -> delay_in_bounds (SlowReader.stop env self)).
Proof. rewrite stop_fields. frame. Qed.

Lemma maybe_stop_keeps (s : option stop_env) (self : SlowReader.t) :
  keeps self (SlowReader.maybe_stop s self)
  /\ (delay_in_bounds self -> delay_in_bounds (SlowReader.maybe_stop s self))
  /\ SlowReader.reconnect_delay (SlowReader.maybe_stop s self)
     = SlowReader.reconnect_delay self.
Proof.
  destruct s as [env|]; simpl; [|auto].
  rewrite stop_fields. frame.
Qed.

Lemma reconnect_loop_keeps (rounds : list SlowReader.round) :
  forall self,
    keeps self (snd (fst (SlowReader.reconnect_loop rounds self)))
    /\ (delay_in_bounds self ->
        delay_in_bounds (snd (fst (SlowReader.reconnect_loop rounds self)))
        /\ sleeps_in_bounds (snd (SlowReader.reconnect_loop rounds self))).
Proof.
  induction rounds as [|r rest IH]; intros self; simpl.
  - destruct (SlowReader.running self); simpl; auto.
  - destruct (SlowReader.running self) eqn:Hr; simpl; [|auto].
    destruct r as [env | o].
    + destruct (stop_keeps env self) as [Hk Hd].
      destruct (IH (SlowReader.stop env self)) as [Hk' Hd'].
      split; [eapply keeps_trans; eassumption | auto].
    + destruct (connect_keeps o self) as (Hk & Hd & Hs).
      destruct (SlowReader.connect o self) as [[r self1] tr1]; simpl in Hk, Hd, Hs.
      set (self2 := SlowReader.set_reconnect_delay
                      (Z.min (SlowReader.reconnect_delay self1 * 2)
                             (SlowReader.max_reconnect_delay self1)) self1).
      assert (Hk2 : keeps self1 self2) by (split; [reflexivity|auto]).
      assert (Hd2 : delay_in_bounds self1 -> delay_in_bounds self2).
      { unfold delay_in_bounds, self2. simpl. intros [Hm Hb]. rewrite Hm. lia. }
      assert (Hs3 : delay_in_bounds self1 ->
                    sleeps_in_bounds
                      [Log INFO (MsgWaiting (SlowReader.reconnect_delay self1));
                       Sleep (SlowReader.reconnect_delay self1)]).
      { intros [_ Hb]. repeat constructor; lia. }
      destruct (IH self2) as [Hk3 Hd3].
      destruct (SlowReader.reconnect_loop rest self2) as [[rr self3] tr4].
      simpl in Hk3, Hd3.
      assert (Hk13 : keeps self self3)
        by (eapply keeps_trans; [exact Hk | eapply keeps_trans; [exact Hk2 | exact Hk3]]).
      assert (Hrest : delay_in_bounds self ->
                      delay_in_bounds self3
                      /\ sleeps_in_bounds
                           ([Log INFO (MsgWaiting (SlowReader.reconnect_delay self1));
                             Sleep (SlowReader.reconnect_delay self1)] ++ tr4)).
      { intros H0. destruct (Hd3 (Hd2 (Hd H0))) as [Hd4 Hs4].
        split; [exact Hd4|]. apply sleeps_in_bounds_app; auto. }
      destruct r as [[|]|e]; simpl.
      * split; [exact Hk|]. intros H0. auto.
      * split; [exact Hk13|]. intros H0. destruct (Hrest H0) as [H1 H2].
        split; [exact H1|]. apply sleeps_in_bounds_app; auto.
      * split; [exact Hk13|]. intros H0. destruct (Hrest H0) as [H1 H2].
        split; [exact H1|]. apply sleeps_in_bounds_app; auto.
Qed.

Lemma reconnect_keeps (rounds : list SlowReader.round) (self : SlowReader.t) :
  keeps self (snd (fst (SlowReader.reconnect rounds self)))
  /\ (delay_in_bounds self ->
      delay_in_bounds (snd (fst (SlowReader.reconnect rounds self)))
      /\ sleeps_in_bounds (snd (SlowReader.reconnect rounds self))).
Proof.
  unfold SlowReader.reconnect, SlowReader.reconnect_enter.
  set (self1 := SlowReader.set_stats _ self).
  destruct (reconnect_loop_keeps rounds self1) as [Hk Hd].
  destruct (SlowReader.reconnect_loop rounds self1) as [[r self2] tr2].
  simpl in *. split; [exact Hk|]. intros H0. destruct (Hd H0) as [H1 H2].
  split; [exact H1|]. apply (sleeps_in_bounds_app [_]); auto.
Qed.

(** The [try] body assigns no field of the reader but [stats], and sleeps
    only float lengths. *)
Lemma try_body_only_stats (i : SlowReader.iter) (self : SlowReader.t)
    (v : SlowReader.locals) :
  (exists st, snd (fst (fst (SlowReader.try_body i self v))) = SlowReader.set_stats st self)
  /\ sleeps (snd (SlowReader.try_body i self v)) = [].
Proof.
  assert (Hself : self = SlowReader.set_stats (SlowReader.stats self) self)
    by (destruct self; reflexivity).
  assert (Hc : forall m v0,
             (exists st, fst (fst (SlowReader.count_message m self v0))
                         = SlowReader.set_stats st self)
             /\ sleeps (snd (SlowReader.count_message m self v0)) = []).
  { intros m v0. unfold SlowReader.count_message.
    destruct (String.eqb _ _); simpl; split; eauto. }
  assert (Hr : forall v0,
             (exists st, snd (fst (fst (SlowReader.receive_or_sleep i self v0)))
                         = SlowReader.set_stats st self)
             /\ sleeps (snd (SlowReader.receive_or_sleep i self v0)) = []).
  { intros v0. unfold SlowReader.receive_or_sleep.
    destruct (_ <? _).
    - destruct (SlowReader.received i) as [|m|e]; simpl; eauto.
      specialize (Hc m v0).
      destruct (SlowReader.count_message m self v0) as [[s1 v1] tr]. exact Hc.
    - unfold sleep_float. destruct (andb _ _); simpl; eauto. }
  unfold SlowReader.try_body.
  destruct (SlowReader.window_elapsed _ _); [|apply Hr].
  destruct (SlowReader.get_random_bytes_limit _ _) as [l|e]; simpl; eauto.
  specialize (Hr (SlowReader.mkLocals (SlowReader.now i) 0 l)).
  destruct (SlowReader.receive_or_sleep _ _ _) as [[[r s1] v1] tr]. exact Hr.
Qed.

Lemma reconnect_outcome (rounds : list SlowReader.round) (self : SlowReader.t) :
  (fst (fst (SlowReader.reconnect rounds self)) = SlowReader.Returned true ->
   SlowReader.reconnect_delay (snd (fst (SlowReader.reconnect rounds self))) = 1)
  /\ (fst (fst (SlowReader.reconnect rounds self)) = SlowReader.Returned false ->
      SlowReader.running (snd (fst (SlowReader.reconnect rounds self))) = false).
Proof.
  unfold SlowReader.reconnect, SlowReader.reconnect_enter.
  set (self1 := SlowReader.set_stats _ self).
  pose proof (reconnect_loop_result rounds self1) as H.
  pose proof (reconnect_loop_true_delay rounds self1) as Hd.
  destruct (SlowReader.reconnect_loop rounds self1) as [[r self2] tr2].
  simpl in *. split; [exact Hd|]. intros ->. exact H.
Qed.

(** What holds of a reader thread at every moment of its life. *)
Definition thread_ok (th : SlowReader.thread) : Prop :=
  delay_in_bounds (SlowReader.self th)
  /\ sleeps_in_bounds (SlowReader.trace th)
  /\ (forall v, SlowReader.at_ th = SlowReader.AtLoopTest v ->
                SlowReader.reconnect_delay (SlowReader.self th) = 1)
  /\ (SlowReader.at_ th = SlowReader.Finished ->
      SlowReader.running (SlowReader.self th) = false).

Lemma after_reconnect_ok (v : SlowReader.locals) (r : SlowReader.reconnect_result)
    (self : SlowReader.t) :
  (r = SlowReader.Returned true -> SlowReader.reconnect_delay self = 1) ->
  (r = SlowReader.Returned false -> SlowReader.running self = false) ->
  (forall v', fst (SlowReader.after_reconnect v r) = SlowReader.AtLoopTest v' ->
              SlowReader.reconnect_delay self = 1)
  /\ (fst (SlowReader.after_reconnect v r) = SlowReader.Finished ->
      SlowReader.running self = false)
  /\ (forall e, fst (SlowReader.after_reconnect v r) <> SlowReader.Died e)
  /\ sleeps (snd (SlowReader.after_reconnect v r)) = [].
Proof.
  intros H1 H2. destruct r as [[|]|]; simpl; repeat split; auto; try discriminate.
Qed.

Lemma handle_exception_ok (e : exn) (i : SlowReader.iter) (self : SlowReader.t)
    (v : SlowReader.locals) :
  let out := SlowReader.handle_exception e i self v in
  keeps self (snd (fst out))
  /\ (delay_in_bounds self -> delay_in_bounds (snd (fst out)) /\ sleeps_in_bounds (snd out))
  /\ (SlowReader.reconnect_delay self = 1 ->
      forall v', fst (fst out) = SlowReader.AtLoopTest v' ->
                 SlowReader.reconnect_delay (snd (fst out)) = 1)
  /\ (fst (fst out) = SlowReader.Finished -> SlowReader.running (snd (fst out)) = false)
  /\ (forall x, fst (fst out) <> SlowReader.Died x).
Proof.
  unfold SlowReader.handle_exception.
  destruct (isinstance_ConnectionError_or_TimeoutError e); simpl.
  - destruct (SlowReader.running self) eqn:Hr; simpl.
    + destruct (reconnect_keeps (SlowReader.rounds i) self) as [Hk Hd].
      destruct (reconnect_outcome (SlowReader.rounds i) self) as [Ht Hf].
      destruct (SlowReader.reconnect _ _) as [[r self1] tr1]. simpl in *.
      destruct (after_reconnect_ok v r self1 Ht Hf) as (A1 & A2 & A3 & A4).
      destruct (SlowReader.after_reconnect v r) as [p tr2]; simpl in *.
      split; [exact Hk|]. split; [|split; [|split]].
      * intros H0. destruct (Hd H0) as [Hd1 Hs]. split; [exact Hd1|].
        apply (sleeps_in_bounds_app [_]); auto. apply sleeps_in_bounds_app; auto.
        unfold sleeps_in_bounds. rewrite A4. constructor.
      * intros _ v' Hp. eapply A1. exact Hp.
      * exact A2.
      * exact A3.
    + split; [apply keeps_refl|].
      split; [intros H0; split; [exact H0 | constructor]|].
      split; [intros H0 v' _; exact H0|].
      split; [discriminate | intros x; discriminate].
  - split; [apply keeps_refl|].
    split.
    { intros H0; split; [exact H0|].
      destruct (SlowReader.running self); repeat constructor; lia. }
    split; [intros H0 v' _; exact H0|].
    split; [discriminate | intros x; discriminate].
Qed.

Lemma step_ok (i : SlowReader.iter) (th : SlowReader.thread) :
  keeps (SlowReader.self th) (SlowReader.self (SlowReader.step i th))
  /\ (thread_ok th -> thread_ok (SlowReader.step i th))
  /\ (forall x, SlowReader.at_ (SlowReader.step i th) = SlowReader.Died x ->
                SlowReader.at_ th = SlowReader.Died x).
Proof.
  unfold SlowReader.step, thread_ok.
  destruct (SlowReader.at_ th) as [|v|v| |x0] eqn:Hat;
    try (rewrite Hat; split; [apply keeps_refl | split; [tauto | auto]]).
  - (* at the loop test *)
    destruct (maybe_stop_keeps (SlowReader.stop_before i) (SlowReader.self th))
      as (Hk0 & Hd0 & He0).
    set (self0 := SlowReader.maybe_stop _ _) in *.
    destruct (negb (SlowReader.running self0)) eqn:Hrun.
    { simpl. split; [exact Hk0|]. split; [|discriminate].
      intros (Hd & Hs & Hl & _). repeat split; auto; try apply Hd0; try apply Hd; try discriminate.
      intros _. apply negb_true_iff in Hrun. exact Hrun. }
    destruct (try_body_only_stats i self0 v) as [[st Hst] Hsl].
    destruct (SlowReader.try_body i self0 v) as [[[r self1] v1] tr1].
    simpl in Hst, Hsl. subst self1.
    destruct (maybe_stop_keeps (SlowReader.stop_during i) (SlowReader.set_stats st self0))
      as (Hk2 & Hd2 & He2).
    set (self2 := SlowReader.maybe_stop (SlowReader.stop_during i) _) in *.
    assert (Hk02 : keeps (SlowReader.self th) self2).
    { eapply keeps_trans; [exact Hk0|]. eapply keeps_trans; [|exact Hk2].
      split; [reflexivity|auto]. }
    assert (Htr1 : sleeps_in_bounds tr1) by (unfold sleeps_in_bounds; rewrite Hsl; constructor).
    destruct r as [u|e]; simpl.
    + split; [exact Hk02|]. split; [|discriminate].
      intros (Hd & Hs & Hl & _). repeat split; auto; try discriminate.
      * apply Hd2. apply Hd0 in Hd. exact Hd.
      * apply Hd2. apply Hd0 in Hd. exact Hd.
      * apply Hd2. apply Hd0 in Hd. exact Hd.
      * intros v' _. rewrite He2. simpl. rewrite He0. eapply Hl. reflexivity.
    + destruct (handle_exception_ok e i self2 v1) as (Hk3 & Hd3 & Hl3 & Hf3 & Hn3).
      destruct (SlowReader.handle_exception e i self2 v1) as [[p self3] tr2].
      simpl in *. split; [eapply keeps_trans; eassumption|].
      split; [|intros x Hx; exfalso; exact (Hn3 x Hx)].
      intros (Hd & Hs & Hl & _).
      assert (Hd' : delay_in_bounds self2) by (apply Hd2; apply Hd0 in Hd; exact Hd).
      destruct (Hd3 Hd') as [Hd4 Hs4].
      split; [exact Hd4|]. split; [auto|]. split; [|exact Hf3].
      intros v' Hp. eapply Hl3; [|exact Hp].
      rewrite He2. simpl. rewrite He0. eapply Hl. reflexivity.
  - (* inside reconnect *)
    destruct (reconnect_loop_keeps (SlowReader.rounds i) (SlowReader.self th)) as [Hk Hd].
    pose proof (reconnect_loop_result (SlowReader.rounds i) (SlowReader.self th)) as Hres.
    pose proof (reconnect_loop_true_delay (SlowReader.rounds i) (SlowReader.self th)) as Ht.
    destruct (SlowReader.reconnect_loop _ _) as [[r self1] tr1]. simpl in *.
    assert (Hf : r = SlowReader.Returned false -> SlowReader.running self1 = false)
      by (intros ->; exact Hres).
    destruct (after_reconnect_ok v r self1 Ht Hf) as (A1 & A2 & A3 & A4).
    destruct (SlowReader.after_reconnect v r) as [p tr2]. simpl in *.
    split; [exact Hk|]. split; [|intros x Hx; exfalso; exact (A3 x Hx)].
    intros (Hd0 & Hs & _ & _). destruct (Hd Hd0) as [Hd1 Hs1].
    split; [exact Hd1|]. split; [|split; [exact A1 | exact A2]].
    repeat apply sleeps_in_bounds_app; auto.
    unfold sleeps_in_bounds. rewrite A4. constructor.
Qed.

Lemma settle_cases (th : SlowReader.thread) :
  SlowReader.settle th = th
  \/ (SlowReader.running (SlowReader.self th) = false
      /\ exists tr, SlowReader.settle th
                    = SlowReader.mkThread (SlowReader.self th) SlowReader.Finished
                                          (SlowReader.trace th ++ tr)
                    /\ sleeps tr = []).
Proof.
  unfold SlowReader.settle.
  destruct (SlowReader.at_ th); auto;
    destruct (SlowReader.running (SlowReader.self th)); auto; right;
    (split; [reflexivity|]).
  - exists []. rewrite app_nil_r. auto.
  - eexists. split; reflexivity.
Qed.

Lemma live_ok (ev : life_event) (th : SlowReader.thread) :
  keeps (SlowReader.self th) (SlowReader.self (live th ev))
  /\ (thread_ok th -> thread_ok (live th ev))
  /\ (forall x, SlowReader.at_ (live th ev) = SlowReader.Died x ->
                SlowReader.at_ th = SlowReader.Died x).
Proof.
  destruct ev as [i|env|]; simpl.
  - apply step_ok.
  - unfold SlowReader.stopped, thread_ok. simpl. rewrite stop_fields.
    split; [split; [reflexivity|auto]|]. split; [|auto].
    intros (Hd & Hs & Hl & Hf). repeat split; auto; apply Hd.
  - destruct (settle_cases th) as [-> | (Hr & tr & -> & Htr)].
    + split; [apply keeps_refl | auto].
    + unfold thread_ok. simpl. split; [apply keeps_refl|]. split; [|discriminate].
      intros (Hd & Hs & Hl & Hf). split; [exact Hd|]. split; [|split; [discriminate|auto]].
      apply sleeps_in_bounds_app; auto.
      unfold sleeps_in_bounds. rewrite Htr. constructor.
Qed.

Lemma lifetime_ok (evs : list life_event) :
  forall th,
    keeps (SlowReader.self th) (SlowReader.self (lifetime evs th))
    /\ (thread_ok th -> thread_ok (lifetime evs th))
    /\ (forall x, SlowReader.at_ (lifetime evs th) = SlowReader.Died x ->
                  SlowReader.at_ th = SlowReader.Died x).
Proof.
  induction evs as [|ev evs IH]; intros th; simpl.
  - split; [apply keeps_refl | auto].
  - destruct (live_ok ev th) as (Hk & Ho & Hd).
    destruct (IH (live th ev)) as (Hk' & Ho' & Hd').
    split; [eapply keeps_trans; eassumption|]. split; auto.
Qed.

Lemma init_no_sleep (host : string) (port : Z) (channel : string) (lo hi : Z)
    (slo shi : float) (o : connect_outcome) :
  sleeps (snd (SlowReader.init host port channel lo hi slo shi o)) = [].
Proof.
  unfold SlowReader.init.
  pose proof (connect_no_sleep o
                (SlowReader.mk host port channel lo hi slo shi
                               ConnectionStats.init true 1 30 None)) as H.
  destruct (SlowReader.connect o _) as [[[b|e] s1] tr]; exact H.
Qed.

Lemma born_ok (host : string) (port : Z) (channel : string) (lo hi : Z)
    (slo shi : float) (o : connect_outcome) (r0 : SlowReader.t) (tr0 : list event)
    (t0 : float) (r : Z) :
  SlowReader.init host port channel lo hi slo shi o = (Ok r0, tr0) ->
  thread_ok (SlowReader.start t0 r (SlowReader.mkThread r0 SlowReader.NotStarted tr0)).
Proof.
  intros Hi. destruct (init_fields _ _ _ _ _ _ _ _ _ _ Hi) as (_ & _ & Hm & Hd).
  pose proof (init_no_sleep host port channel lo hi slo shi o) as Hs.
  rewrite Hi in Hs. simpl in Hs.
  unfold SlowReader.start, thread_ok. simpl.
  destruct (SlowReader.get_random_bytes_limit r r0); simpl;
    (split; [split; [exact Hm | lia]|]);
    (split; [unfold sleeps_in_bounds; rewrite Hs; constructor|]);
    split; auto; discriminate.
Qed.

(** X3: nothing in the life of a reader thread (passes of its loop,
    reconnects, [stop()], [join()]) assigns the fields [__init__] copied from
    its arguments (host, port, channel, the two ranges) or the delay cap; and
    nothing sets [running] again once it is cleared. *)
Theorem reader_config_is_fixed (evs : list life_event) (th : SlowReader.thread) :
  config (SlowReader.self (lifetime evs th)) = config (SlowReader.self th)
  /\ (SlowReader.running (SlowReader.self th) = false ->
      SlowReader.running (SlowReader.self (lifetime evs th)) = false).
Proof. exact (proj1 (lifetime_ok evs th)). Qed.

(** X4: for a reader built by [__init__], at every moment of its life the
    reconnect delay is between 1 and 30, every [time.sleep] of an integer
    length the thread has made (the backoff sleeps and the 1-second pause
    after an unexpected error) lasted between 1 and 30 seconds, and whenever
    the thread is at the test of its read loop the delay is 1, so that every
    reconnect episode starts its backoff from 1. *)
Theorem backoff_stays_within_cap
    (host : string) (port : Z) (channel : string) (lo hi : Z) (slo shi : float)
    (o : connect_outcome) (r0 : SlowReader.t) (tr0 : list event)
    (t0 : float) (r : Z) (evs : list life_event) :
  SlowReader.init host port channel lo hi slo shi o = (Ok r0, tr0) ->
  let th := lifetime evs
              (SlowReader.start t0 r (SlowReader.mkThread r0 SlowReader.NotStarted tr0)) in
  1 <= SlowReader.reconnect_delay (SlowReader.self th) <= 30
  /\ SlowReader.max_reconnect_delay (SlowReader.self th) = 30
  /\ Forall (fun d => 1 <= d <= 30) (sleeps (SlowReader.trace th))
  /\ (forall v, SlowReader.at_ th = SlowReader.AtLoopTest v ->
                SlowReader.reconnect_delay (SlowReader.self th) = 1).
Proof.
  intros Hi th.
  destruct (lifetime_ok evs
              (SlowReader.start t0 r (SlowReader.mkThread r0 SlowReader.NotStarted tr0)))
    as (_ & Hok & _).
  destruct (Hok (born_ok _ _ _ _ _ _ _ _ _ _ t0 r Hi)) as ((Hm & Hd) & Hs & Hl & _).
  fold th in Hm, Hd, Hs, Hl. auto.
Qed.

(** A pass on which [get_message] raises [ConnectionError]; the reconnect
    that follows meets four refused connects, then one that subscribes. *)
Definition lost_pass : SlowReader.iter :=
  SlowReader.mkIter None 0.5%float 0 (RecvRaise ConnectionError) 0%float None
    (map SlowReader.Attempt (repeat refused 4 ++ [Subscribed 7%nat])).

Lemma backoff_stays_within_cap_witness :
  let th := lifetime [Pass lost_pass]
              (SlowReader.start 0%float 0
                 (SlowReader.mkThread demo_reader SlowReader.NotStarted
                    [Log INFO (MsgSubscribed "test_channel")])) in
  1 <= SlowReader.reconnect_delay (SlowReader.self th) <= 30
  /\ SlowReader.max_reconnect_delay (SlowReader.self th) = 30
  /\ Forall (fun d => 1 <= d <= 30) (sleeps (SlowReader.trace th))
  /\ (forall v, SlowReader.at_ th = SlowReader.AtLoopTest v ->
                SlowReader.reconnect_delay (SlowReader.self th) = 1).
Proof.
  exact (backoff_stays_within_cap "localhost" 6379 "test_channel" 500 1500
           0x1.999999999999ap-4%float 0.5%float (Subscribed O) demo_reader
           [Log INFO (MsgSubscribed "test_channel")] 0%float 0 [Pass lost_pass] eq_refl).
Defined.

Lemma start_alive (t0 : float) (r : Z) (th : SlowReader.thread) :
  SlowReader.at_ th = SlowReader.NotStarted ->
  SlowReader.min_bytes_recv (SlowReader.self th)
  <= SlowReader.max_bytes_recv (SlowReader.self th) ->
  exists l, SlowReader.at_ (SlowReader.start t0 r th)
            = SlowReader.AtLoopTest (SlowReader.mkLocals t0 0 l)
            /\ SlowReader.min_bytes_recv (SlowReader.self th) <= l
               <= SlowReader.max_bytes_recv (SlowReader.self th).
Proof.
  intros Hns Hle. unfold SlowReader.start, SlowReader.get_random_bytes_limit, randint.
  rewrite Hns. destruct (Z.leb_spec (SlowReader.min_bytes_recv (SlowReader.self th))
                                    (SlowReader.max_bytes_recv (SlowReader.self th)));
    [|lia].
  eexists. split; [reflexivity|].
  pose proof (Z.mod_pos_bound r (SlowReader.max_bytes_recv (SlowReader.self th)
                                 - SlowReader.min_bytes_recv (SlowReader.self th) + 1)).
  lia.
Qed.

Lemma live_started (ev : life_event) (th : SlowReader.thread) :
  SlowReader.at_ th <> SlowReader.NotStarted ->
  SlowReader.at_ (live th ev) <> SlowReader.NotStarted.
Proof.
  intros Hs. destruct ev as [i|env|]; simpl.
  - apply step_started, Hs.
  - exact Hs.
  - destruct (settle_cases th) as [-> | (_ & tr & -> & _)]; [exact Hs | discriminate].
Qed.

Lemma lifetime_started (evs : list life_event) :
  forall th,
    SlowReader.at_ th <> SlowReader.NotStarted ->
    SlowReader.at_ (lifetime evs th) <> SlowReader.NotStarted.
Proof.
  induction evs as [|ev evs IH]; intros th Hs; simpl; [exact Hs|].
  apply IH, live_started, Hs.
Qed.

(** X5: with a valid byte range, the thread of a reader built by [__init__]
    never dies of an exception, whatever its passes meet (errors of the
    client, of the sleep, of anything under the [try]), and its [read_loop]
    has returned only if the [running] flag is cleared: apart from a stop
    request, nothing ends the loop. *)
Theorem read_loop_ends_only_by_stop
    (host : string) (port : Z) (channel : string) (lo hi : Z) (slo shi : float)
    (o : connect_outcome) (r0 : SlowReader.t) (tr0 : list event)
    (t0 : float) (r : Z) (evs : list life_event) :
  SlowReader.init host port channel lo hi slo shi o = (Ok r0, tr0) ->
  lo <= hi ->
  let th := lifetime evs
              (SlowReader.start t0 r (SlowReader.mkThread r0 SlowReader.NotStarted tr0)) in
  (forall x, SlowReader.at_ th <> SlowReader.Died x)
  /\ SlowReader.at_ th <> SlowReader.NotStarted
  /\ (SlowReader.at_ th = SlowReader.Finished ->
      SlowReader.running (SlowReader.self th) = false).
Proof.
  intros Hi Hle th.
  set (born := SlowReader.start t0 r (SlowReader.mkThread r0 SlowReader.NotStarted tr0)) in *.
  destruct (lifetime_ok evs born) as (_ & Hok & Hdied).
  destruct (Hok (born_ok _ _ _ _ _ _ _ _ _ _ t0 r Hi)) as (_ & _ & _ & Hf).
  assert (Hcfg : SlowReader.min_bytes_recv r0 = lo /\ SlowReader.max_bytes_recv r0 = hi).
  { unfold SlowReader.init in Hi.
    destruct o as [h | [h|] e]; simpl in Hi; try destruct (isinstance_RedisError e);
      inversion Hi; subst; auto. }
  destruct Hcfg as [Hlo Hhi].
  destruct (start_alive t0 r (SlowReader.mkThread r0 SlowReader.NotStarted tr0) eq_refl)
    as (l & Hat & _); [simpl; lia|].
  fold born in Hat.
  split; [|split; [|exact Hf]].
  - intros x Hx. apply Hdied in Hx. congruence.
  - apply lifetime_started. congruence.
Qed.

Lemma read_loop_ends_only_by_stop_witness :
  let th := lifetime [Pass lost_pass; OrchestratorStop (mkStopEnv None None None);
                      OrchestratorJoin]
              (SlowReader.start 0%float 0
                 (SlowReader.mkThread demo_reader SlowReader.NotStarted
                    [Log INFO (MsgSubscribed "test_channel")])) in
  (forall x, SlowReader.at_ th <> SlowReader.Died x)
  /\ SlowReader.at_ th <> SlowReader.NotStarted
  /\ (SlowReader.at_ th = SlowReader.Finished ->
      SlowReader.running (SlowReader.self th) = false).
Proof.
  apply (read_loop_ends_only_by_stop "localhost" 6379 "test_channel" 500 1500
           0x1.999999999999ap-4%float 0.5%float (Subscribed O) demo_reader
           [Log INFO (MsgSubscribed "test_channel")] 0%float 0
           [Pass lost_pass; OrchestratorStop (mkStopEnv None None None); OrchestratorJoin]
           eq_refl).
  lia.
Defined.

(** ** The byte limit in force *)

(** The limit lies in the configured range and the window counter is not
    negative. *)
Definition limit_ok (lo hi : Z) (v : SlowReader.locals) : Prop :=
  lo <= SlowReader.current_byte_limit v <= hi
  /\ 0 <= SlowReader.bytes_read_in_current_second v.

Definition ranged (lo hi : Z) (th : SlowReader.thread) : Prop :=
  SlowReader.min_bytes_recv (SlowReader.self th) = lo
  /\ SlowReader.max_bytes_recv (SlowReader.self th) = hi
  /\ forall v, locals_of (SlowReader.at_ th) = Some v -> limit_ok lo hi v.

Lemma config_range (a b : SlowReader.t) :
  config b = config a ->
  SlowReader.min_bytes_recv b = SlowReader.min_bytes_recv a
  /\ SlowReader.max_bytes_recv b = SlowReader.max_bytes_recv a.
Proof. unfold config. intros H. inversion H. auto. Qed.

Lemma receive_or_sleep_limit (lo hi : Z) (i : SlowReader.iter) (self : SlowReader.t)
    (v : SlowReader.locals) :
  limit_ok lo hi v ->
  limit_ok lo hi (snd (fst (SlowReader.receive_or_sleep i self v))).
Proof.
  intros Hv. unfold SlowReader.receive_or_sleep.
  destruct (_ <? _).
  - destruct (SlowReader.received i) as [|m|e]; simpl; auto.
    unfold SlowReader.count_message.
    destruct (String.eqb _ _); simpl; auto.
    pose proof (data_size_nonneg m). destruct Hv. split; simpl; lia.
  - destruct (sleep_float _); simpl; auto.
Qed.

Lemma try_body_limit (lo hi : Z) (i : SlowReader.iter) (self : SlowReader.t)
    (v : SlowReader.locals) :
  SlowReader.min_bytes_recv self = lo ->
  SlowReader.max_bytes_recv self = hi ->
  lo <= hi ->
  limit_ok lo hi v ->
  limit_ok lo hi (snd (fst (SlowReader.try_body i self v))).
Proof.
  intros Hlo Hhi Hle Hv. unfold SlowReader.try_body.
  destruct (SlowReader.window_elapsed _ _); [|apply receive_or_sleep_limit, Hv].
  unfold SlowReader.get_random_bytes_limit, randint. rewrite Hlo, Hhi.
  destruct (Z.leb_spec lo hi); [|lia].
  pose proof (Z.mod_pos_bound (SlowReader.rand_limit i) (hi - lo + 1)).
  assert (Hnew : limit_ok lo hi
                   (SlowReader.mkLocals (SlowReader.now i) 0
                      (lo + SlowReader.rand_limit i mod (hi - lo + 1))))
    by (split; simpl; lia).
  pose proof (receive_or_sleep_limit lo hi i self _ Hnew) as Hr.
  destruct (SlowReader.receive_or_sleep _ _ _) as [[[r s1] v1] tr]. exact Hr.
Qed.

Lemma step_ranged (lo hi : Z) (i : SlowReader.iter) (th : SlowReader.thread) :
  lo <= hi -> ranged lo hi th -> ranged lo hi (SlowReader.step i th).
Proof.
  intros Hle (Hlo & Hhi & Hv).
  destruct (step_ok i th) as ((Hcfg & _) & _).
  destruct (config_range _ _ Hcfg) as [Hlo' Hhi'].
  split; [congruence|]. split; [congruence|].
  revert Hv. unfold SlowReader.step.
  destruct (SlowReader.at_ th) as [|v0|v0| |x0] eqn:Hat; intros Hv; simpl;
    try (intros ? Hx; rewrite Hat in Hx; discriminate Hx).
  - destruct (maybe_stop_keeps (SlowReader.stop_before i) (SlowReader.self th))
      as ((Hc0 & _) & _).
    destruct (config_range _ _ Hc0) as [Hlo0 Hhi0].
    set (self0 := SlowReader.maybe_stop _ _) in *.
    destruct (negb (SlowReader.running self0)); simpl; [intros ? Hx; discriminate Hx|].
    assert (H1 : limit_ok lo hi (snd (fst (SlowReader.try_body i self0 v0))))
      by (apply try_body_limit; auto; congruence).
    destruct (SlowReader.try_body i self0 v0) as [[[r self1] v1] tr1]. simpl in H1.
    destruct r as [u|e]; simpl; [congruence|].
    pose proof (handle_exception_locals e i
                  (SlowReader.maybe_stop (SlowReader.stop_during i) self1) v1) as H2.
    destruct (SlowReader.handle_exception _ _ _ _) as [[p self3] tr2].
    simpl in H2 |- *. intros v Hx. rewrite (H2 v Hx). exact H1.
  - destruct (SlowReader.reconnect_loop _ _) as [[r self1] tr1].
    pose proof (fun v' => after_reconnect_locals v0 v' r) as H.
    destruct (SlowReader.after_reconnect v0 r) as [p tr2]. simpl in H |- *.
    intros v Hx. rewrite (H v Hx). apply Hv. reflexivity.
Qed.

Lemma live_ranged (lo hi : Z) (ev : life_event) (th : SlowReader.thread) :
  lo <= hi -> ranged lo hi th -> ranged lo hi (live th ev).
Proof.
  intros Hle Hr. destruct ev as [i|env|]; simpl.
  - apply step_ranged; assumption.
  - destruct Hr as (Hlo & Hhi & Hv). unfold SlowReader.stopped, ranged. simpl.
    rewrite stop_fields. auto.
  - destruct (settle_cases th) as [-> | (_ & tr & -> & _)]; [exact Hr|].
    destruct Hr as (Hlo & Hhi & Hv). unfold ranged. simpl.
    split; [exact Hlo|]. split; [exact Hhi|]. discriminate.
Qed.

Lemma lifetime_ranged (lo hi : Z) (evs : list life_event) :
  lo <= hi -> forall th, ranged lo hi th -> ranged lo hi (lifetime evs th).
Proof.
  intros Hle. induction evs as [|ev evs IH]; intros th Hr; simpl; [exact Hr|].
  apply IH, live_ranged; assumption.
Qed.

Lemma start_ranged (t0 : float) (r : Z) (th : SlowReader.thread) :
  SlowReader.at_ th = SlowReader.NotStarted ->
  SlowReader.min_bytes_recv (SlowReader.self th)
  <= SlowReader.max_bytes_recv (SlowReader.self th) ->
  ranged (SlowReader.min_bytes_recv (SlowReader.self th))
         (SlowReader.max_bytes_recv (SlowReader.self th))
         (SlowReader.start t0 r th).
Proof.
  intros Hns Hle. destruct (start_alive t0 r th Hns Hle) as (l & Hat & Hl).
  assert (Hself : SlowReader.self (SlowReader.start t0 r th) = SlowReader.self th).
  { unfold SlowReader.start. rewrite Hns.
    destruct (SlowReader.get_random_bytes_limit _ _); reflexivity. }
  unfold ranged. rewrite Hself, Hat. simpl.
  split; [reflexivity|]. split; [reflexivity|].
  intros v Hv. inversion Hv; subst. split; simpl; lia.
Qed.

(** X6: in a reader whose byte range is valid ([min_bytes_recv <=
    max_bytes_recv]), the limit the read loop holds is at every moment a
    value of that range, from the first draw before the loop through every
    redraw at a window reset; and the window counter is never negative. *)
Theorem byte_limit_stays_in_range
    (th0 : SlowReader.thread) (t0 : float) (r : Z) (evs : list life_event)
    (v : SlowReader.locals) :
  SlowReader.at_ th0 = SlowReader.NotStarted ->
  SlowReader.min_bytes_recv (SlowReader.self th0)
  <= SlowReader.max_bytes_recv (SlowReader.self th0) ->
  locals_of (SlowReader.at_ (lifetime evs (SlowReader.start t0 r th0))) = Some v ->
  SlowReader.min_bytes_recv (SlowReader.self th0) <= SlowReader.current_byte_limit v
  /\ SlowReader.current_byte_limit v <= SlowReader.max_bytes_recv (SlowReader.self th0)
  /\ 0 <= SlowReader.bytes_read_in_current_second v.
Proof.
  intros Hns Hle Hv.
  destruct (lifetime_ranged _ _ evs Hle _ (start_ranged t0 r th0 Hns Hle))
    as (_ & _ & H).
  destruct (H v Hv) as [[H1 H2] H3]. auto.
Qed.

Lemma byte_limit_stays_in_range_witness :
  SlowReader.min_bytes_recv demo_reader
  <= SlowReader.current_byte_limit (SlowReader.mkLocals 1.5%float 0 1203)
  /\ SlowReader.current_byte_limit (SlowReader.mkLocals 1.5%float 0 1203)
     <= SlowReader.max_bytes_recv demo_reader
  /\ 0 <= SlowReader.bytes_read_in_current_second (SlowReader.mkLocals 1.5%float 0 1203).
Proof.
  apply (byte_limit_stays_in_range
           (SlowReader.mkThread demo_reader SlowReader.NotStarted [])
           0%float 0
           [Pass demo_pass;
            Pass (SlowReader.mkIter None 1.5%float 703 RecvNone 0%float None [])]
           (SlowReader.mkLocals 1.5%float 0 1203)).
  - reflexivity.
  - simpl. lia.
  - vm_compute. reflexivity.
Defined.

(** ** Passes that receive nothing *)

Lemma handle_exception_reads (e : exn) (i : SlowReader.iter) (self : SlowReader.t)
    (v : SlowReader.locals) :
  bytes_read (snd (fst (SlowReader.handle_exception e i self v))) = bytes_read self
  /\ messages_received (snd (fst (SlowReader.handle_exception e i self v)))
     = messages_received self.
Proof.
  unfold SlowReader.handle_exception, bytes_read, messages_received.
  destruct (isinstance_ConnectionError_or_TimeoutError e); simpl; auto.
  destruct (SlowReader.running self); simpl; auto.
  unfold SlowReader.reconnect, SlowReader.reconnect_enter.
  set (self1 := SlowReader.set_stats _ self).
  pose proof (reconnect_loop_stats (SlowReader.rounds i) self1) as H.
  destruct (SlowReader.reconnect_loop _ self1) as [[r self2] tr2].
  destruct (SlowReader.after_reconnect v r) as [p tr3].
  simpl in *. rewrite H. auto.
Qed.

(** With the counter at or above the limit, the second half of the [try]
    body sleeps; it neither receives nor counts. *)
Lemma receive_or_sleep_exhausted (i : SlowReader.iter) (self : SlowReader.t)
    (v : SlowReader.locals) :
  SlowReader.current_byte_limit v <= SlowReader.bytes_read_in_current_second v ->
  snd (fst (fst (SlowReader.receive_or_sleep i self v))) = self
  /\ snd (fst (SlowReader.receive_or_sleep i self v)) = v
  /\ (forall e, fst (fst (fst (SlowReader.receive_or_sleep i self v))) = Raise e ->
                e = PyException).
Proof.
  intros Hle. unfold SlowReader.receive_or_sleep.
  destruct (Z.ltb_spec (SlowReader.bytes_read_in_current_second v)
                       (SlowReader.current_byte_limit v)); [lia|].
  unfold sleep_float. destruct (andb _ _); simpl; repeat split; auto.
  - discriminate.
  - intros e H0. inversion H0. reflexivity.
Qed.

(** X7: a pass made inside the current window with the counter at or above
    the limit never calls [get_message]: whatever message is waiting and
    whatever the sleep does, no counter of the reader changes, no reconnect
    is entered, and the window, its counter and its limit are as before. *)
Theorem exhausted_budget_pass_counts_nothing
    (i : SlowReader.iter) (th : SlowReader.thread) (v : SlowReader.locals) :
  SlowReader.at_ th = SlowReader.AtLoopTest v ->
  SlowReader.window_elapsed (SlowReader.now i) v = false ->
  SlowReader.current_byte_limit v <= SlowReader.bytes_read_in_current_second v ->
  SlowReader.stats (SlowReader.self (SlowReader.step i th))
  = SlowReader.stats (SlowReader.self th)
  /\ (SlowReader.at_ (SlowReader.step i th) = SlowReader.AtLoopTest v
      \/ SlowReader.at_ (SlowReader.step i th) = SlowReader.Finished).
Proof.
  intros Hat Hw Hle. unfold SlowReader.step. rewrite Hat.
  pose proof (maybe_stop_stats (SlowReader.stop_before i) (SlowReader.self th)) as H0.
  set (self0 := SlowReader.maybe_stop _ _) in *.
  destruct (negb (SlowReader.running self0)); simpl; [auto|].
  unfold SlowReader.try_body. rewrite Hw.
  destruct (receive_or_sleep_exhausted i self0 v Hle) as (Hs & Hv & He).
  destruct (SlowReader.receive_or_sleep i self0 v) as [[[r self1] v1] tr1].
  simpl in Hs, Hv, He. subst self1 v1.
  pose proof (maybe_stop_stats (SlowReader.stop_during i) self0) as H2.
  destruct r as [u|e]; simpl; [rewrite H2; auto|].
  rewrite (He e eq_refl). unfold SlowReader.handle_exception. simpl.
  rewrite H2. auto.
Qed.

Lemma exhausted_budget_pass_counts_nothing_witness :
  let th := SlowReader.mkThread demo_reader
              (SlowReader.AtLoopTest (SlowReader.mkLocals 0%float 503 500)) [] in
  SlowReader.stats (SlowReader.self (SlowReader.step demo_pass th))
  = SlowReader.stats (SlowReader.self th)
  /\ (SlowReader.at_ (SlowReader.step demo_pass th)
      = SlowReader.AtLoopTest (SlowReader.mkLocals 0%float 503 500)
      \/ SlowReader.at_ (SlowReader.step demo_pass th) = SlowReader.Finished).
Proof.
  apply (exhausted_budget_pass_counts_nothing demo_pass
           (SlowReader.mkThread demo_reader
              (SlowReader.AtLoopTest (SlowReader.mkLocals 0%float 503 500)) [])
           (SlowReader.mkLocals 0%float 503 500)).
  - reflexivity.
  - vm_compute. reflexivity.
  - simpl. lia.
Defined.

(** ** A range that allows nothing *)

Lemma try_body_starved (lo hi : Z) (i : SlowReader.iter) (self : SlowReader.t)
    (v : SlowReader.locals) :
  SlowReader.min_bytes_recv self = lo ->
  SlowReader.max_bytes_recv self = hi ->
  lo <= hi <= 0 ->
  limit_ok lo hi v ->
  snd (fst (fst (SlowReader.try_body i self v))) = self.
Proof.
  intros Hlo Hhi Hle [Hl Hb]. unfold SlowReader.try_body.
  destruct (SlowReader.window_elapsed _ _).
  - unfold SlowReader.get_random_bytes_limit, randint. rewrite Hlo, Hhi.
    destruct (Z.leb_spec lo hi); [|lia].
    pose proof (Z.mod_pos_bound (SlowReader.rand_limit i) (hi - lo + 1)).
    match goal with
    | |- context [SlowReader.receive_or_sleep i self ?v0] =>
        destruct (receive_or_sleep_exhausted i self v0) as (Hs & _);
        [simpl; lia|];
        destruct (SlowReader.receive_or_sleep i self v0) as [[[r s1] v1] tr]
    end.
    exact Hs.
  - destruct (receive_or_sleep_exhausted i self v) as (Hs & _); [lia|]. exact Hs.
Qed.

Lemma step_starved (lo hi : Z) (i : SlowReader.iter) (th : SlowReader.thread) :
  lo <= hi <= 0 ->
  ranged lo hi th ->
  bytes_read (SlowReader.self (SlowReader.step i th)) = bytes_read (SlowReader.self th)
  /\ messages_received (SlowReader.self (SlowReader.step i th))
     = messages_received (SlowReader.self th).
Proof.
  intros Hle (Hlo & Hhi & Hv). unfold SlowReader.step.
  destruct (SlowReader.at_ th) as [|v0|v0| |x0] eqn:Hat; auto.
  - destruct (maybe_stop_keeps (SlowReader.stop_before i) (SlowReader.self th))
      as ((Hc0 & _) & _).
    destruct (config_range _ _ Hc0) as [Hlo0 Hhi0].
    pose proof (maybe_stop_stats (SlowReader.stop_before i) (SlowReader.self th)) as Hs0.
    set (self0 := SlowReader.maybe_stop _ _) in *.
    assert (Hb0 : bytes_read self0 = bytes_read (SlowReader.self th)
                  /\ messages_received self0 = messages_received (SlowReader.self th))
      by (unfold bytes_read, messages_received; rewrite Hs0; auto).
    destruct (negb (SlowReader.running self0)); simpl; [exact Hb0|].
    assert (H1 : snd (fst (fst (SlowReader.try_body i self0 v0))) = self0).
    { apply (try_body_starved lo hi);
        [congruence | congruence | exact Hle | apply Hv; reflexivity]. }
    destruct (SlowReader.try_body i self0 v0) as [[[r self1] v1] tr1]. simpl in H1.
    subst self1.
    pose proof (maybe_stop_stats (SlowReader.stop_during i) self0) as Hs2.
    set (self2 := SlowReader.maybe_stop (SlowReader.stop_during i) self0) in *.
    assert (Hb2 : bytes_read self2 = bytes_read self0
                  /\ messages_received self2 = messages_received self0)
      by (unfold bytes_read, messages_received; rewrite Hs2; auto).
    destruct r as [u|e]; simpl; [intuition congruence|].
    pose proof (handle_exception_reads e i self2 v1) as H3.
    destruct (SlowReader.handle_exception e i self2 v1) as [[p self3] tr2].
    simpl in *. intuition congruence.
  - pose proof (reconnect_loop_stats (SlowReader.rounds i) (SlowReader.self th)) as H.
    destruct (SlowReader.reconnect_loop _ _) as [[r self1] tr1].
    destruct (SlowReader.after_reconnect v0 r) as [p tr2]. simpl in *.
    unfold bytes_read, messages_received. rewrite H. auto.
Qed.

(** X8: a reader whose valid byte range lies at or below zero
    ([min_bytes_recv <= max_bytes_recv <= 0]) never receives: every limit it
    draws is at most 0, the counter is never below it, and over the whole
    life of the thread [bytes_read] and [messages_received] stay what they
    were when the thread started. *)
Theorem nonpositive_range_reads_nothing
    (th0 : SlowReader.thread) (t0 : float) (r : Z) (evs : list life_event) :
  SlowReader.at_ th0 = SlowReader.NotStarted ->
  SlowReader.min_bytes_recv (SlowReader.self th0)
  <= SlowReader.max_bytes_recv (SlowReader.self th0) ->
  SlowReader.max_bytes_recv (SlowReader.self th0) <= 0 ->
  let th := lifetime evs (SlowReader.start t0 r th0) in
  bytes_read (SlowReader.self th) = bytes_read (SlowReader.self th0)
  /\ messages_received (SlowReader.self th) = messages_received (SlowReader.self th0).
Proof.
  intros Hns Hle Hz th. subst th.
  pose proof (start_ranged t0 r th0 Hns Hle) as Hr.
  pose proof (start_stats t0 r th0) as Hst.
  assert (Hb : bytes_read (SlowReader.self (SlowReader.start t0 r th0))
               = bytes_read (SlowReader.self th0)
               /\ messages_received (SlowReader.self (SlowReader.start t0 r th0))
                  = messages_received (SlowReader.self th0))
    by (unfold bytes_read, messages_received; rewrite Hst; auto).
  revert Hr Hb. generalize (SlowReader.start t0 r th0) as th.
  set (lo := SlowReader.min_bytes_recv (SlowReader.self th0)) in *.
  set (hi := SlowReader.max_bytes_recv (SlowReader.self th0)) in *.
  induction evs as [|ev evs IH]; intros th Hr Hb; simpl; [exact Hb|].
  apply IH; [apply live_ranged; [lia | exact Hr]|].
  destruct ev as [i|env|]; simpl.
  - destruct (step_starved lo hi i th) as [H1 H2]; [lia | exact Hr |].
    destruct Hb as [Hb1 Hb2]. split; congruence.
  - unfold SlowReader.stopped, bytes_read, messages_received in *. simpl.
    rewrite stop_fields. exact Hb.
  - destruct (settle_cases th) as [-> | (_ & tr & -> & _)]; exact Hb.
Qed.

(** A reader built with [--min-bytes-recv -10 --max-bytes-recv 0]. *)
Definition starved_reader : SlowReader.t :=
  SlowReader.mk "localhost" 6379 "test_channel" (-10) 0
                0x1.999999999999ap-4%float 0.5%float
                ConnectionStats.init true 1 30 (Some O).

Lemma nonpositive_range_reads_nothing_witness :
  let th0 := SlowReader.mkThread starved_reader SlowReader.NotStarted [] in
  let th := lifetime [Pass demo_pass; Pass late_pass; Pass big_pass]
              (SlowReader.start 0%float 4 th0) in
  bytes_read (SlowReader.self th) = bytes_read (SlowReader.self th0)
  /\ messages_received (SlowReader.self th) = messages_received (SlowReader.self th0).
Proof.
  apply (nonpositive_range_reads_nothing
           (SlowReader.mkThread starved_reader SlowReader.NotStarted [])
           0%float 4 [Pass demo_pass; Pass late_pass; Pass big_pass]).
  - reflexivity.
  - simpl. lia.
  - simpl. lia.
Defined.

(** ** How much a reader can count *)

(** From [a] to [b] either nothing was counted, or exactly one message
    counting for at most [M]. *)
Definition counted (M : Z) (a b : SlowReader.t) : Prop :=
  (messages_received b = messages_received a /\ bytes_read b = bytes_read a)
  \/ (messages_received b = messages_received a + 1
      /\ bytes_read a <= bytes_read b <= bytes_read a + M).

Definition passes (evs : list life_event) : Z :=
  Z.of_nat (List.length (filter (fun ev => match ev with Pass _ => true | _ => false end) evs)).

Definition life_sizes_within (M : Z) (ev : life_event) : Prop :=
  match ev with
  | Pass i => sizes_within M i
  | _ => True
  end.

Lemma try_body_counted (M : Z) (i : SlowReader.iter) (self : SlowReader.t)
    (v : SlowReader.locals) :
  sizes_within M i ->
  counted M self (snd (fst (fst (SlowReader.try_body i self v)))).
Proof.
  intros Hi.
  assert (Hr : forall v0,
             counted M self (snd (fst (fst (SlowReader.receive_or_sleep i self v0))))).
  { intros v0. unfold SlowReader.receive_or_sleep, sizes_within in *.
    destruct (_ <? _).
    - destruct (SlowReader.received i) as [|m|e]; simpl;
        try (left; split; reflexivity).
      unfold SlowReader.count_message.
      destruct (String.eqb _ _); simpl; [|left; split; reflexivity].
      right. pose proof (data_size_nonneg m).
      unfold messages_received, bytes_read. simpl. lia.
    - destruct (sleep_float _); simpl; left; split; reflexivity. }
  unfold SlowReader.try_body.
  destruct (SlowReader.window_elapsed _ _); [|apply Hr].
  destruct (SlowReader.get_random_bytes_limit _ _) as [l|e]; simpl;
    [|left; split; reflexivity].
  specialize (Hr (SlowReader.mkLocals (SlowReader.now i) 0 l)).
  destruct (SlowReader.receive_or_sleep _ _ _) as [[[r s1] v1] tr]. exact Hr.
Qed.

Lemma step_counted (M : Z) (i : SlowReader.iter) (th : SlowReader.thread) :
  sizes_within M i ->
  counted M (SlowReader.self th) (SlowReader.self (SlowReader.step i th)).
Proof.
  intros Hi. unfold SlowReader.step.
  destruct (SlowReader.at_ th) as [|v0|v0| |x0]; try (left; split; reflexivity).
  - pose proof (maybe_stop_stats (SlowReader.stop_before i) (SlowReader.self th)) as Hs0.
    set (self0 := SlowReader.maybe_stop _ _) in *.
    destruct (negb (SlowReader.running self0)); simpl.
    { left. unfold messages_received, bytes_read. rewrite Hs0. auto. }
    pose proof (try_body_counted M i self0 v0 Hi) as H1.
    destruct (SlowReader.try_body i self0 v0) as [[[r self1] v1] tr1]. simpl in H1.
    pose proof (maybe_stop_stats (SlowReader.stop_during i) self1) as Hs2.
    set (self2 := SlowReader.maybe_stop (SlowReader.stop_during i) self1) in *.
    assert (H2 : counted M (SlowReader.self th) self2).
    { unfold counted, messages_received, bytes_read in *. rewrite Hs2, <- Hs0. exact H1. }
    destruct r as [u|e]; simpl; [exact H2|].
    pose proof (handle_exception_reads e i self2 v1) as H3.
    destruct (SlowReader.handle_exception e i self2 v1) as [[p self3] tr2].
    simpl in *. unfold counted in *. destruct H3 as [H3 H4]. rewrite H3, H4. exact H2.
  - pose proof (reconnect_loop_stats (SlowReader.rounds i) (SlowReader.self th)) as H.
    destruct (SlowReader.reconnect_loop _ _) as [[r self1] tr1].
    destruct (SlowReader.after_reconnect v0 r) as [p tr2]. simpl in *.
    left. unfold messages_received, bytes_read. rewrite H. auto.
Qed.

(** X9: a reader counts at most one message per pass of its loop, and
    nothing outside a pass: over any stretch of its life,
    [messages_received] grows by at most the number of passes made, and
    [bytes_read] grows by at most [M] per message counted, when no received
    message counts for more than [M]. *)
Theorem at_most_one_message_per_pass
    (M : Z) (evs : list life_event) (th : SlowReader.thread) :
  Forall (life_sizes_within M) evs ->
  let th' := lifetime evs th in
  messages_received (SlowReader.self th')
  <= messages_received (SlowReader.self th) + passes evs
  /\ bytes_read (SlowReader.self th') - bytes_read (SlowReader.self th)
     <= M * (messages_received (SlowReader.self th')
             - messages_received (SlowReader.self th)).
Proof.
  intros Hall. simpl. revert th.
  induction Hall as [|ev evs Hev _ IH]; intros th; simpl.
  - unfold passes. simpl. lia.
  - specialize (IH (live th ev)).
    assert (Hlive : counted M (SlowReader.self th) (SlowReader.self (live th ev))
                    /\ (match ev with Pass _ => True | _ =>
                          messages_received (SlowReader.self (live th ev))
                          = messages_received (SlowReader.self th) end)).
    { destruct ev as [i|env|]; simpl.
      - split; [apply step_counted; exact Hev | exact I].
      - unfold SlowReader.stopped, counted, messages_received, bytes_read. simpl.
        rewrite stop_fields. simpl. auto.
      - destruct (settle_cases th) as [-> | (_ & tr & -> & _)]; split; try left; auto. }
    destruct Hlive as [Hc Hm].
    assert (Hp : passes (ev :: evs)
                 = passes evs + match ev with Pass _ => 1 | _ => 0 end).
    { unfold passes. simpl. destruct ev; simpl; lia. }
    rewrite Hp. unfold counted in Hc.
    destruct ev as [i|env|]; destruct Hc as [[H1 H2] | [H1 H2]]; nia.
Qed.

Lemma at_most_one_message_per_pass_witness :
  let th := SlowReader.mkThread demo_reader
              (SlowReader.AtLoopTest (SlowReader.mkLocals 0%float 0 500)) [] in
  let th' := lifetime [Pass demo_pass; OrchestratorJoin; Pass demo_pass] th in
  messages_received (SlowReader.self th')
  <= messages_received (SlowReader.self th)
     + passes [Pass demo_pass; OrchestratorJoin; Pass demo_pass]
  /\ bytes_read (SlowReader.self th') - bytes_read (SlowReader.self th)
     <= 6 * (messages_received (SlowReader.self th')
             - messages_received (SlowReader.self th)).
Proof.
  apply (at_most_one_message_per_pass 6
           [Pass demo_pass; OrchestratorJoin; Pass demo_pass]
           (SlowReader.mkThread demo_reader
              (SlowReader.AtLoopTest (SlowReader.mkLocals 0%float 0 500)) [])).
  repeat constructor. vm_compute. discriminate. vm_compute. discriminate.
Defined.

(** ** What the publisher's payloads count for *)

Lemma repeat_x_quote (n : nat) : bytes_repr_quote (repeat "x"%byte n) = single_quote.
Proof.
  unfold bytes_repr_quote.
  assert (H : existsb (byte_eqb single_quote) (repeat "x"%byte n) = false)
    by (induction n; simpl; auto).
  rewrite H. reflexivity.
Qed.

Lemma repeat_x_body (tail : string) (n : nat) :
  String.length (fold_right (fun c acc => String.append (bytes_repr_char single_quote c) acc)
                            tail (repeat "x"%byte n))
  = (n + String.length tail)%nat.
Proof. induction n as [|n IH]; simpl; [|rewrite IH]; reflexivity. Qed.

Lemma repeat_x_repr (n : nat) :
  String.length (bytes_repr (repeat "x"%byte n)) = (n + 3)%nat.
Proof.
  unfold bytes_repr. cbv zeta. rewrite repeat_x_quote.
  cbn [String.length]. rewrite repeat_x_body. simpl. lia.
Qed.

(** X10: for the payloads the publisher of this harness sends (['x' * n],
    delivered by the client as the bytes [b'xx...x']), the reader counts
    exactly [n + 3]: each message received adds three more to [bytes_read]
    than the publisher added to [total_bytes_sent] for it. *)
Theorem publisher_payload_counts_three_more (n : nat) (r : Z) (p : Publisher.t) :
  SlowReader.data_size (mkMessage "message" (PyBytes (repeat "x"%byte n)))
  = Z.of_nat n + 3
  /\ py_len (Publisher.replicate n "x"%char) = Z.of_nat n
  /\ (forall message, Publisher.generate_message r p = Ok message ->
        exists k, message = Publisher.replicate k "x"%char
                  /\ SlowReader.data_size (mkMessage "message" (PyBytes (repeat "x"%byte k)))
                     = py_len message + 3).
Proof.
  assert (H1 : forall k, SlowReader.data_size (mkMessage "message" (PyBytes (repeat "x"%byte k)))
                         = Z.of_nat k + 3).
  { intros k. unfold SlowReader.data_size, py_len. cbn [mdata py_str].
    rewrite repeat_x_repr. lia. }
  assert (H2 : forall k, py_len (Publisher.replicate k "x"%char) = Z.of_nat k).
  { intros k. unfold py_len. f_equal. induction k; simpl; auto. }
  split; [apply H1|]. split; [apply H2|].
  intros message. unfold Publisher.generate_message.
  destruct (randint _ _ _) as [size|e]; [|discriminate].
  intros H; inversion H; subst. eexists. split; [reflexivity|].
  rewrite H1, H2. reflexivity.
Qed.

(** ** The publish loop *)

(** The pass publishes: the size range is valid and [publish] returns. *)
Definition publishes (self : Publisher.t) (i : Publisher.iter) : bool :=
  (Publisher.min_message_size self <=? Publisher.max_message_size self)
  && match Publisher.publish_raises i with
     | None => true
     | Some _ => false
     end.

Definition published (self : Publisher.t) (inputs : list Publisher.iter) : Z :=
  Z.of_nat (List.length (filter (publishes self) inputs)).

Lemma replicate_length (n : nat) (c : ascii) :
  py_len (Publisher.replicate n c) = Z.of_nat n.
Proof. unfold py_len. f_equal. induction n; simpl; auto. Qed.

Lemma publish_once_spec (i : Publisher.iter) (self : Publisher.t) :
  let self' := fst (Publisher.publish_once i self) in
  Publisher.running self' = Publisher.running self
  /\ Publisher.min_message_size self' = Publisher.min_message_size self
  /\ Publisher.max_message_size self' = Publisher.max_message_size self
  /\ Publisher.redis_client self' = Publisher.redis_client self
  /\ Publisher.channel self' = Publisher.channel self
  /\ (if publishes self i
      then Publisher.messages_sent self' = Publisher.messages_sent self + 1
           /\ Publisher.total_bytes_sent self + Z.max 0 (Publisher.min_message_size self)
              <= Publisher.total_bytes_sent self'
              <= Publisher.total_bytes_sent self + Z.max 0 (Publisher.max_message_size self)
      else Publisher.messages_sent self' = Publisher.messages_sent self
           /\ Publisher.total_bytes_sent self' = Publisher.total_bytes_sent self).
Proof.
  unfold Publisher.publish_once, Publisher.generate_message, randint, publishes.
  destruct (Z.leb_spec (Publisher.min_message_size self) (Publisher.max_message_size self))
    as [Hle|Hgt]; simpl.
  - destruct (Publisher.publish_raises i); simpl; [repeat split; reflexivity|].
    rewrite replicate_length.
    pose proof (Z.mod_pos_bound (Publisher.rand_size i)
                  (Publisher.max_message_size self - Publisher.min_message_size self + 1)).
    repeat split; try reflexivity; lia.
  - repeat split; reflexivity.
Qed.

(** X11: the publisher never leaves its loop by itself and counts exactly
    what it sent.  While nobody calls [stop()], whatever [publish] raises,
    the thread is back at its loop test with the flag set; [messages_sent]
    has grown by the number of passes whose publish returned (none when the
    size range is empty, since [randint] then raises on every pass); and
    [total_bytes_sent] has grown by between [max(0, min_message_size)] and
    [max(0, max_message_size)] for each of them. *)
Theorem publisher_counts_what_it_sent (inputs : list Publisher.iter) (th : Publisher.thread) :
  Publisher.at_ th = Publisher.AtLoopTest ->
  Publisher.running (Publisher.self th) = true ->
  let before := Publisher.self th in
  let after := Publisher.self (Publisher.run inputs th) in
  Publisher.at_ (Publisher.run inputs th) = Publisher.AtLoopTest
  /\ Publisher.running after = true
  /\ Publisher.messages_sent after = Publisher.messages_sent before + published before inputs
  /\ Publisher.total_bytes_sent before
     + Z.max 0 (Publisher.min_message_size before) * published before inputs
     <= Publisher.total_bytes_sent after
     <= Publisher.total_bytes_sent before
        + Z.max 0 (Publisher.max_message_size before) * published before inputs.
Proof.
  revert th. induction inputs as [|i inputs IH]; intros th Hat Hrun; simpl.
  - unfold published. simpl. repeat split; auto; lia.
  - assert (Hstep : Publisher.step i th
                    = Publisher.mkThread (fst (Publisher.publish_once i (Publisher.self th)))
                        Publisher.AtLoopTest
                        (Publisher.trace th ++ snd (Publisher.publish_once i (Publisher.self th)))).
    { unfold Publisher.step. rewrite Hat, Hrun.
      destruct (Publisher.publish_once i (Publisher.self th)); reflexivity. }
    destruct (publish_once_spec i (Publisher.self th)) as (Hr & Hlo & Hhi & _ & _ & Hc).
    specialize (IH (Publisher.step i th)).
    rewrite Hstep in IH |- *. simpl in IH.
    destruct (IH eq_refl (eq_trans Hr Hrun)) as (A1 & A2 & A3 & A4).
    assert (Hp : published (Publisher.self th) (i :: inputs)
                 = published (fst (Publisher.publish_once i (Publisher.self th))) inputs
                   + (if publishes (Publisher.self th) i then 1 else 0)).
    { unfold published. simpl.
      assert (Hf : filter (publishes (fst (Publisher.publish_once i (Publisher.self th)))) inputs
                   = filter (publishes (Publisher.self th)) inputs).
      { apply filter_ext. intros a. unfold publishes. rewrite Hlo, Hhi. reflexivity. }
      rewrite Hf. destruct (publishes (Publisher.self th) i); simpl; lia. }
    simpl. rewrite Hp, Hlo, Hhi in *.
    split; [exact A1|]. split; [exact A2|].
    set (n := published (fst (Publisher.publish_once i (Publisher.self th))) inputs) in *.
    assert (Hn : 0 <= n) by (unfold n, published; lia).
    destruct (publishes (Publisher.self th) i); destruct Hc as [Hc1 Hc2]; split; nia.
Qed.

Lemma publisher_counts_what_it_sent_witness :
  let th := Publisher.start
              (Publisher.mkThread (Publisher.init 100%nat "test_channel" 100 1000)
                                  Publisher.NotStarted []) in
  let inputs := [Publisher.mkIter 2 None; Publisher.mkIter 7 (Some ConnectionError);
                 Publisher.mkIter 900 None] in
  let before := Publisher.self th in
  let after := Publisher.self (Publisher.run inputs th) in
  Publisher.at_ (Publisher.run inputs th) = Publisher.AtLoopTest
  /\ Publisher.running after = true
  /\ Publisher.messages_sent after = Publisher.messages_sent before + published before inputs
  /\ Publisher.total_bytes_sent before
     + Z.max 0 (Publisher.min_message_size before) * published before inputs
     <= Publisher.total_bytes_sent after
     <= Publisher.total_bytes_sent before
        + Z.max 0 (Publisher.max_message_size before) * published before inputs.
Proof.
  apply (publisher_counts_what_it_sent
           [Publisher.mkIter 2 None; Publisher.mkIter 7 (Some ConnectionError);
            Publisher.mkIter 900 None]
           (Publisher.start
              (Publisher.mkThread (Publisher.init 100%nat "test_channel" 100 1000)
                                  Publisher.NotStarted []))).
  - reflexivity.
  - reflexivity.
Defined.

(** ** Building the tester *)

(** A connect outcome that [SlowReader.connect] absorbs: it subscribed, or
    it raised a [RedisError]. *)
Definition absorbed (o : connect_outcome) : bool :=
  match o with
  | Subscribed _ => true
  | ConnectRaised _ e => isinstance_RedisError e
  end.

(** A reader as [BufferTester.__init__] leaves it. *)
Definition fresh_reader (lo hi : Z) (slo shi : float) (th : SlowReader.thread) : Prop :=
  SlowReader.at_ th = SlowReader.NotStarted
  /\ SlowReader.running (SlowReader.self th) = true
  /\ SlowReader.stats (SlowReader.self th) = ConnectionStats.mk 0 0 0
  /\ SlowReader.channel (SlowReader.self th) = "test_channel"
  /\ SlowReader.min_bytes_recv (SlowReader.self th) = lo
  /\ SlowReader.max_bytes_recv (SlowReader.self th) = hi
  /\ SlowReader.min_recv_sleep_time (SlowReader.self th) = slo
  /\ SlowReader.max_recv_sleep_time (SlowReader.self th) = shi.

Lemma init_absorbed (host : string) (port : Z) (channel : string) (lo hi : Z)
    (slo shi : float) (o : connect_outcome) :
  absorbed o = true ->
  exists r0 tr0,
    SlowReader.init host port channel lo hi slo shi o = (Ok r0, tr0)
    /\ SlowReader.running r0 = true
    /\ SlowReader.stats r0 = ConnectionStats.mk 0 0 0
    /\ SlowReader.channel r0 = channel
    /\ SlowReader.min_bytes_recv r0 = lo /\ SlowReader.max_bytes_recv r0 = hi
    /\ SlowReader.min_recv_sleep_time r0 = slo /\ SlowReader.max_recv_sleep_time r0 = shi.
Proof.
  unfold SlowReader.init. destruct o as [h | [h|] e]; simpl; intros Ha;
    try rewrite Ha; simpl; do 2 eexists; repeat split; reflexivity.
Qed.

Lemma create_readers_absorbed (host : string) (port : Z) (lo hi : Z) (slo shi : float)
    (connects : nat -> connect_outcome) (ids : list nat) :
  (forall i, In i ids -> absorbed (connects i) = true) ->
  exists rs,
    BufferTester.create_readers
      (fun i => SlowReader.init host port "test_channel" lo hi slo shi (connects i)) ids
    = (Ok rs, map NewSlowReader ids)
    /\ List.length rs = List.length ids
    /\ Forall (fresh_reader lo hi slo shi) rs.
Proof.
  induction ids as [|i ids IH]; intros Hall; simpl.
  - exists []. repeat split; constructor.
  - destruct (init_absorbed host port "test_channel" lo hi slo shi (connects i))
      as (r0 & tr0 & Hi & H1 & H2 & H3 & H4 & H5 & H6 & H7);
      [apply Hall; left; reflexivity|].
    rewrite Hi.
    destruct IH as (rs & Hc & Hl & Hf); [intros j Hj; apply Hall; right; exact Hj|].
    rewrite Hc. eexists. split; [reflexivity|]. split; [simpl; lia|].
    constructor; [|exact Hf]. repeat split; assumption.
Qed.

(** X12: [BufferTester.__init__] survives a broker that refuses some or all
    of the readers.  When every reader's first connect either subscribes or
    raises a [RedisError], the constructor returns a tester with exactly
    [num_connections] readers (none when that number is zero or negative),
    each unstarted, with its flag set, zeroed counters, the channel
    ['test_channel'] and the ranges passed in, and one unstarted publisher
    with zero counters and the message-size range passed in; and it has
    built the readers in order, then the publisher. *)
Theorem tester_init_absorbs_refused_connects
    (e : BufferTester.env) (host : string) (port : Z) (n : Z) (lo hi : Z)
    (slo shi : float) (mlo mhi : Z) :
  (forall i, (i < Z.to_nat n)%nat -> absorbed (BufferTester.connects e i) = true) ->
  exists tester,
    BufferTester.init e host port n lo hi slo shi mlo mhi
    = (Ok tester, map NewSlowReader (seq 0 (Z.to_nat n)) ++ [NewPublisher])
    /\ List.length (BufferTester.slow_readers tester) = Z.to_nat n
    /\ Forall (fresh_reader lo hi slo shi) (BufferTester.slow_readers tester)
    /\ BufferTester.publisher tester
       = Publisher.mkThread
           (Publisher.mk (BufferTester.publisher_client e) "test_channel" mlo mhi true 0 0)
           Publisher.NotStarted [].
Proof.
  intros Hall. unfold BufferTester.init.
  destruct (create_readers_absorbed host port lo hi slo shi (BufferTester.connects e)
              (seq 0 (Z.to_nat n))) as (rs & Hc & Hl & Hf).
  { intros i Hi. apply in_seq in Hi. apply Hall. lia. }
  rewrite Hc. eexists. split; [reflexivity|]. simpl.
  rewrite Hl, length_seq. auto.
Qed.

(** A broker that refuses every connect. *)
Definition refusing_threads : BufferTester.env :=
  BufferTester.mkEnv
    (fun _ => ConnectRaised None ConnectionError) 100%nat
    (fun _ => (0%float, 0))
    (fun _ => []) (fun _ => mkStopEnv None None None) (fun _ => [])
    [] None [].

Lemma tester_init_absorbs_refused_connects_witness :
  exists tester,
    BufferTester.init refusing_threads "localhost" 6379 3 500 1500
                      0x1.999999999999ap-4%float 0.5%float 100 1000
    = (Ok tester, map NewSlowReader (seq 0 (Z.to_nat 3)) ++ [NewPublisher])
    /\ List.length (BufferTester.slow_readers tester) = Z.to_nat 3
    /\ Forall (fresh_reader 500 1500 0x1.999999999999ap-4%float 0.5%float)
              (BufferTester.slow_readers tester)
    /\ BufferTester.publisher tester
       = Publisher.mkThread
           (Publisher.mk (BufferTester.publisher_client refusing_threads)
                         "test_channel" 100 1000 true 0 0)
           Publisher.NotStarted [].
Proof.
  apply (tester_init_absorbs_refused_connects refusing_threads "localhost" 6379 3
           500 1500 0x1.999999999999ap-4%float 0.5%float 100 1000).
  intros i _. reflexivity.
Defined.

(** ** How [main] ends *)



(** An action that stops or joins a reader, joins the publisher, or prints a
    line of the report. *)
Definition winds_down (x : action) : bool :=
  match x with
  | ReaderStop _ | ReaderJoin _ | PublisherJoin => true
  | Print l => is_stats_line l
  | _ => false
  end.

Lemma prelude_winds_nothing_down (a : args) (n : nat) (tail : list action) :
  existsb winds_down tail = false ->
  existsb winds_down
    ((Ping (host a) (port a) :: (map NewSlowReader (seq 0 n) ++ [NewPublisher])
        ++ [InstallSigint] ++ banner a
        ++ ([LogMain INFO MsgStartingTest] ++ map StartReader (seq 0 n)
              ++ [StartPublisher; LogMain INFO MsgAllStarted])
        ++ [SleepDuration (duration a)])
       ++ tail) = false.
Proof.
  intros Ht. unfold banner.
  repeat first
    [ rewrite existsb_app
    | rewrite existsb_map_none by reflexivity
    | progress (cbn [app existsb map winds_down is_stats_line orb]) ].
  exact Ht.
Qed.

(** X14: [Publisher.stop] does not guard its [close()].  In a run that
    reaches its shutdown with every thread started (a duration between 0 and
    9223372036, which [time.sleep] accepts; no signal before the wait), when
    that call raises, the exception leaves [BufferTester.stop] and [main]
    right after [publisher.stop()]: the publisher thread is not joined, no
    reader is stopped or joined (each reader object is exactly as its thread
    left it, its flag untouched), and no statistics are printed, on either
    trigger. *)
Theorem raising_close_skips_reader_shutdown (a : args) (w : world)
    (tester : BufferTester.t) (acts : list action) (x : exn) :
  validate a = None ->
  preflight w = None ->
  BufferTester.init (threads w) (host a) (port a) (connections a)
    (min_bytes_recv a) (max_bytes_recv a) (min_recv_sleep_time a) (max_recv_sleep_time a)
    (min_message_size a) (max_message_size a) = (Ok tester, acts) ->
  0 <= duration a <= 9223372036 ->
  BufferTester.publisher_close (threads w) = Some x ->
  in_wait (interrupt w) = true ->
  let ran := BufferTester.threads_run (threads w)
               (fst (BufferTester.start (threads w) tester)) in
  snd (fst (main a w)) = Uncaught x
  /\ existsb winds_down (fst (fst (main a w))) = false
  /\ exists final,
       snd (main a w) = Some final
       /\ BufferTester.slow_readers final = BufferTester.slow_readers ran
       /\ Publisher.running (Publisher.self (BufferTester.publisher final)) = false
       /\ Publisher.at_ (BufferTester.publisher final)
          = Publisher.at_ (BufferTester.publisher ran).
Proof.
  intros Hv Hp Hi Hd Hc Hw ran.
  destruct (init_shape _ _ _ _ _ _ _ _ _ _ _ _ Hi) as (Hlen & Hacts & Hpub).
  assert (Hd' : sleep_int_ok (duration a) = true)
    by (unfold sleep_int_ok; apply andb_true_intro; split; apply Z.leb_le; lia).
  unfold main. rewrite Hv, Hp, Hi.
  destruct (BufferTester.start (threads w) tester) as [tester1 started] eqn:Hstart.
  assert (Hs : started = [LogMain INFO MsgStartingTest]
                           ++ map StartReader (seq 0 (Z.to_nat (connections a)))
                           ++ [StartPublisher; LogMain INFO MsgAllStarted]).
  { unfold BufferTester.start in Hstart. inversion Hstart.
    unfold BufferTester.ids. rewrite Hlen. reflexivity. }
  subst ran. simpl fst.
  destruct (interrupt w); try discriminate Hw;
    cbv zeta; rewrite Hd'; cbn [negb];
    unfold signal_handler, shutdown, BufferTester.stop, Publisher.stop; rewrite Hc;
    cbn [fst snd]; rewrite Hacts, Hs;
    (split; [reflexivity|]);
    (split; [| eexists; split; [reflexivity|]; simpl; auto]).
  - apply prelude_winds_nothing_down. reflexivity.
  - apply (prelude_winds_nothing_down a _
             [Print LineStopping; LogMain INFO MsgStoppingTest; PublisherStop]).
    reflexivity.
Qed.

Definition close_fails_threads : BufferTester.env :=
  BufferTester.mkEnv
    (fun i => Subscribed i) 100%nat
    (fun _ => (0%float, 0))
    (fun _ => [demo_pass]) (fun _ => mkStopEnv None None None) (fun _ => [])
    [Publisher.mkIter 2 None] (Some ConnectionError) [].

Lemma raising_close_skips_reader_shutdown_witness :
  let w := mkWorld None close_fails_threads InSleep in
  let ran := BufferTester.threads_run (threads w)
               (fst (BufferTester.start (threads w) short_tester)) in
  snd (fst (main short_args w)) = Uncaught ConnectionError
  /\ existsb winds_down (fst (fst (main short_args w))) = false
  /\ exists final,
       snd (main short_args w) = Some final
       /\ BufferTester.slow_readers final = BufferTester.slow_readers ran
       /\ Publisher.running (Publisher.self (BufferTester.publisher final)) = false
       /\ Publisher.at_ (BufferTester.publisher final)
          = Publisher.at_ (BufferTester.publisher ran).
Proof.
  apply (raising_close_skips_reader_shutdown short_args
           (mkWorld None close_fails_threads InSleep) short_tester (snd short_built)
           ConnectionError).
  - reflexivity.
  - reflexivity.
  - vm_compute. reflexivity.
  - simpl. lia.
  - reflexivity.
  - reflexivity.
Defined.

(** A [--duration] that [time.sleep] rejects, in a run where no signal
    comes before the wait: every unit is built and started, the sleep
    raises, and the exception leaves [main] there. *)
Lemma rejected_duration_leaves_threads_running (a : args) (w : world)
    (tester : BufferTester.t) (acts : list action) :
  validate a = None ->
  preflight w = None ->
  BufferTester.init (threads w) (host a) (port a) (connections a)
    (min_bytes_recv a) (max_bytes_recv a) (min_recv_sleep_time a) (max_recv_sleep_time a)
    (min_message_size a) (max_message_size a) = (Ok tester, acts) ->
  sleep_int_ok (duration a) = false ->
  in_wait (interrupt w) = true ->
  snd (fst (main a w)) = Uncaught PyException
  /\ snd (main a w) = Some (fst (BufferTester.start (threads w) tester))
  /\ existsb is_shutdown (fst (fst (main a w))) = false
  /\ existsb winds_down (fst (fst (main a w))) = false
  /\ In StartPublisher (fst (fst (main a w)))
  /\ (forall i, (i < Z.to_nat (connections a))%nat ->
                In (StartReader i) (fst (fst (main a w)))).
Proof.
  intros Hv Hp Hi Hd Hw.
  destruct (init_shape _ _ _ _ _ _ _ _ _ _ _ _ Hi) as (Hlen & Hacts & Hpub).
  destruct (BufferTester.start (threads w) tester) as [tester1 started] eqn:Hstart.
  assert (Hs : started = [LogMain INFO MsgStartingTest]
                           ++ map StartReader (seq 0 (Z.to_nat (connections a)))
                           ++ [StartPublisher; LogMain INFO MsgAllStarted]).
  { unfold BufferTester.start in Hstart. inversion Hstart.
    unfold BufferTester.ids. rewrite Hlen. reflexivity. }
  assert (Hmain : main a w
                  = (Ping (host a) (port a) :: acts ++ [InstallSigint] ++ banner a
                       ++ started ++ [SleepDuration (duration a)],
                     Uncaught PyException, Some tester1)).
  { unfold main. rewrite Hv, Hp, Hi. cbv zeta. rewrite Hstart, Hd.
    destruct (interrupt w); try discriminate Hw; reflexivity. }
  rewrite Hmain.
  cbn [fst snd]. rewrite Hacts, Hs.
  split; [reflexivity|]. split; [reflexivity|]. split; [|split; [|split]].
  - unfold banner.
    repeat first
      [ rewrite existsb_app
      | rewrite existsb_map_none by reflexivity
      | progress (cbn [app existsb map is_shutdown orb]) ].
    reflexivity.
  - pose proof (prelude_winds_nothing_down a (Z.to_nat (connections a)) [] eq_refl) as H.
    rewrite app_nil_r in H. exact H.
  - assert (Hin : In StartPublisher [StartPublisher; LogMain INFO MsgAllStarted])
      by (left; reflexivity).
    right. rewrite !in_app_iff. tauto.
  - intros i Hlt.
    assert (Hin : In (StartReader i) (map StartReader (seq 0 (Z.to_nat (connections a)))))
      by (apply in_map, in_seq; lia).
    right. rewrite !in_app_iff. tauto.
Qed.

(** X15: a negative [--duration] passes the validation.  [main] then
    builds and starts every unit, and [time.sleep] raises: the exception
    leaves [main] with all threads started and none stopped or joined, and
    no statistics are printed.  (The signal handler, had it run before the
    wait, would have ended the run earlier: the runs meant are those in
    which no signal comes before [time.sleep] is called.) *)
Theorem negative_duration_leaves_threads_running (a : args) (w : world)
    (tester : BufferTester.t) (acts : list action) :
  validate a = None ->
  preflight w = None ->
  BufferTester.init (threads w) (host a) (port a) (connections a)
    (min_bytes_recv a) (max_bytes_recv a) (min_recv_sleep_time a) (max_recv_sleep_time a)
    (min_message_size a) (max_message_size a) = (Ok tester, acts) ->
  duration a < 0 ->
  in_wait (interrupt w) = true ->
  snd (fst (main a w)) = Uncaught PyException
  /\ snd (main a w) = Some (fst (BufferTester.start (threads w) tester))
  /\ existsb is_shutdown (fst (fst (main a w))) = false
  /\ existsb winds_down (fst (fst (main a w))) = false
  /\ In StartPublisher (fst (fst (main a w)))
  /\ (forall i, (i < Z.to_nat (connections a))%nat ->
                In (StartReader i) (fst (fst (main a w)))).
Proof.
  intros Hv Hp Hi Hd Hw.
  apply (rejected_duration_leaves_threads_running a w tester acts Hv Hp Hi); [|exact Hw].
  unfold sleep_int_ok. apply Bool.andb_false_intro1. apply Z.leb_gt. exact Hd.
Qed.

(** [--connections 2 --duration -1]. *)
Definition negative_args : args :=
  mkArgs "localhost" 6379 2 500 1500 0x1.999999999999ap-4%float 0.5%float 100 1000 (-1).

Lemma negative_duration_leaves_threads_running_witness :
  snd (fst (main negative_args (quiet_world NoSigint))) = Uncaught PyException
  /\ snd (main negative_args (quiet_world NoSigint))
     = Some (fst (BufferTester.start (threads (quiet_world NoSigint)) short_tester))
  /\ existsb is_shutdown (fst (fst (main negative_args (quiet_world NoSigint)))) = false
  /\ existsb winds_down (fst (fst (main negative_args (quiet_world NoSigint)))) = false
  /\ In StartPublisher (fst (fst (main negative_args (quiet_world NoSigint))))
  /\ (forall i, (i < Z.to_nat (connections negative_args))%nat ->
                In (StartReader i) (fst (fst (main negative_args (quiet_world NoSigint))))).
Proof.
  apply (negative_duration_leaves_threads_running negative_args (quiet_world NoSigint)
           short_tester (snd short_built)).
  - reflexivity.
  - reflexivity.
  - vm_compute. reflexivity.
  - simpl. lia.
  - reflexivity.
Defined.

(** X19: so does a [--duration] above 9223372036, the last whole second that
    fits the 64-bit nanosecond clock of [time.sleep]: it passes the
    validation, every unit is built and started, [time.sleep] raises
    [OverflowError], and the exception leaves [main] with all threads
    started and none stopped or joined; no statistics are printed.  (As in
    X15, in the runs in which no signal comes before the wait.) *)
Theorem overlong_duration_leaves_threads_running (a : args) (w : world)
    (tester : BufferTester.t) (acts : list action) :
  validate a = None ->
  preflight w = None ->
  BufferTester.init (threads w) (host a) (port a) (connections a)
    (min_bytes_recv a) (max_bytes_recv a) (min_recv_sleep_time a) (max_recv_sleep_time a)
    (min_message_size a) (max_message_size a) = (Ok tester, acts) ->
  9223372036 < duration a ->
  in_wait (interrupt w) = true ->
  snd (fst (main a w)) = Uncaught PyException
  /\ snd (main a w) = Some (fst (BufferTester.start (threads w) tester))
  /\ existsb is_shutdown (fst (fst (main a w))) = false
  /\ existsb winds_down (fst (fst (main a w))) = false
  /\ In StartPublisher (fst (fst (main a w)))
  /\ (forall i, (i < Z.to_nat (connections a))%nat ->
                In (StartReader i) (fst (fst (main a w)))).
Proof.
  intros Hv Hp Hi Hd Hw.
  apply (rejected_duration_leaves_threads_running a w tester acts Hv Hp Hi); [|exact Hw].
  unfold sleep_int_ok. apply Bool.andb_false_intro2. apply Z.leb_gt. exact Hd.
Qed.

Lemma overlong_duration_leaves_threads_running_witness :
  snd (fst (main overlong_args (quiet_world InSleep))) = Uncaught PyException
  /\ snd (main overlong_args (quiet_world InSleep))
     = Some (fst (BufferTester.start (threads (quiet_world InSleep)) short_tester))
  /\ existsb is_shutdown (fst (fst (main overlong_args (quiet_world InSleep)))) = false
  /\ existsb winds_down (fst (fst (main overlong_args (quiet_world InSleep)))) = false
  /\ In StartPublisher (fst (fst (main overlong_args (quiet_world InSleep))))
  /\ (forall i, (i < Z.to_nat (connections overlong_args))%nat ->
                In (StartReader i) (fst (fst (main overlong_args (quiet_world InSleep))))).
Proof.
  apply (overlong_duration_leaves_threads_running overlong_args (quiet_world InSleep)
           short_tester (snd short_built)).
  - reflexivity.
  - reflexivity.
  - vm_compute. reflexivity.
  - simpl. lia.
  - reflexivity.
Defined.

(** * The fixed-rate reader of [slowPubSubReconnectOld.py] *)

(** The older [SlowReader] takes one [bytes_per_second] instead of the two
    ranges: its limit is never redrawn and its over-budget sleep is always
    0.1 s.  [connect], [reconnect] and [stop] are those of the newer file. *)
Module SlowReaderOld.

Record t : Type := mk {
  host : string;
  port : Z;
  channel : string;
  bytes_per_second : Z;
  stats : ConnectionStats.t;
  running : bool;
  reconnect_delay : Z;
  max_reconnect_delay : Z;
  pubsub : option handle
}.

Definition set_stats (st : ConnectionStats.t) (self : t) : t :=
  mk (host self) (port self) (channel self) (bytes_per_second self)
     st (running self) (reconnect_delay self) (max_reconnect_delay self) (pubsub self).

Definition set_running (b : bool) (self : t) : t :=
  mk (host self) (port self) (channel self) (bytes_per_second self)
     (stats self) b (reconnect_delay self) (max_reconnect_delay self) (pubsub self).

Definition set_reconnect_delay (d : Z) (self : t) : t :=
  mk (host self) (port self) (channel self) (bytes_per_second self)
     (stats self) (running self) d (max_reconnect_delay self) (pubsub self).

Definition set_pubsub (h : option handle) (self : t) : t :=
  mk (host self) (port self) (channel self) (bytes_per_second self)
     (stats self) (running self) (reconnect_delay self) (max_reconnect_delay self) h.

Definition connect (o : connect_outcome) (self : t) : res bool * t * list event :=
  match o with
  | Subscribed h =>
      (Ok true,
       set_reconnect_delay 1 (set_pubsub (Some h) self),
       [Log INFO (MsgSubscribed (channel self))])
  | ConnectRaised assigned e =>
      let self' := match assigned with
                   | Some h => set_pubsub (Some h) self
                   | None => self
                   end in
      if isinstance_RedisError e
      then (Ok false, self', [Log ERROR (MsgFailedToConnect e)])
      else (Raise e, self', [])
  end.

Definition init (host : string) (port : Z) (channel : string) (bytes_per_second : Z)
    (o : connect_outcome) : res t * list event :=
  let self := mk host port channel bytes_per_second
                 ConnectionStats.init true 1 30 None in
  match connect o self with
  | (Ok _, self', tr) => (Ok self', tr)
  | (Raise e, _, tr) => (Raise e, tr)
  end.

Definition stop (env : stop_env) (self : t) : t :=
  let self := set_running false self in
  match pubsub self with
  | None => self
  | Some _ =>
      match unsubscribe_raises env with
      | Some _ => self
      | None =>
          match pubsub_close_raises env with
          | Some _ => self
          | None =>
              match client_close_raises env with
              | Some _ => self
              | None => self
              end
          end
      end
  end.

Fixpoint reconnect_loop (rounds : list SlowReader.round) (self : t)
  : SlowReader.reconnect_result * t * list event :=
  if negb (running self) then (SlowReader.Returned false, self, []) else
  match rounds with
  | [] => (SlowReader.Retrying, self, [])
  | SlowReader.StopCalled env :: rest => reconnect_loop rest (stop env self)
  | SlowReader.Attempt o :: rest =>
      let '(r, self1, tr1) := connect o self in
      match r with
      | Ok true => (SlowReader.Returned true, self1, tr1)
      | _ =>
          let tr2 := match r with
                     | Raise e => [Log ERROR (MsgReconnectionFailed e)]
                     | Ok _ => []
                     end in
          let tr3 := [Log INFO (MsgWaiting (reconnect_delay self1));
                      Sleep (reconnect_delay self1)] in
          let self2 := set_reconnect_delay
                         (Z.min (reconnect_delay self1 * 2) (max_reconnect_delay self1))
                         self1 in
          let '(rr, self3, tr4) := reconnect_loop rest self2 in
          (rr, self3, tr1 ++ tr2 ++ tr3 ++ tr4)
      end
  end.

Definition reconnect (rounds : list SlowReader.round) (self : t)
  : SlowReader.reconnect_result * t * list event :=
  let st := stats self in
  let n := ConnectionStats.reconnection_attempts st + 1 in
  let self1 := set_stats (ConnectionStats.mk (ConnectionStats.bytes_read st)
                                             (ConnectionStats.messages_received st) n) self in
  let '(r, self2, tr2) := reconnect_loop rounds self1 in
  (r, self2, Log WARNING (MsgAttemptingReconnect n) :: tr2).

(** The locals of [read_loop]. *)
Record locals : Type := mkLocals {
  last_read_time : float;
  bytes_read_in_current_second : Z
}.

(** What one pass through the body of [while self.running] meets. *)
Record iter : Type := mkIter {
  stop_before : option stop_env;
  now : float;
  received : recv;
  stop_during : option stop_env;
  rounds : list SlowReader.round
}.

Inductive pc : Type :=
| NotStarted
| AtLoopTest (v : locals)
| InReconnect (v : locals)
| Finished.

Record thread : Type := mkThread {
  self : t;
  at_ : pc;
  trace : list event
}.

Definition maybe_stop (s : option stop_env) (self : t) : t :=
  match s with
  | Some env => stop env self
  | None => self
  end.

(** The [try] body: the window test, then receive under the limit or sleep
    0.1 s. *)
Definition try_body (i : iter) (self : t) (v : locals)
  : res unit * t * locals * list event :=
  let v0 := if (1 <=? now i - last_read_time v)%float
            then mkLocals (now i) 0 else v in
  if bytes_read_in_current_second v0 <? bytes_per_second self then
    match received i with
    | RecvRaise e => (Raise e, self, v0, [])
    | RecvNone => (Ok tt, self, v0, [])
    | RecvMsg m =>
        if String.eqb (mtype m) "message" then
          let d := py_len (py_str (mdata m)) in
          let st := stats self in
          (Ok tt,
           set_stats (ConnectionStats.mk (ConnectionStats.bytes_read st + d)
                                         (ConnectionStats.messages_received st + 1)
                                         (ConnectionStats.reconnection_attempts st)) self,
           mkLocals (last_read_time v0) (bytes_read_in_current_second v0 + d),
           [])
        else (Ok tt, self, v0, [])
    end
  else (Ok tt, self, v0, [SleepF 0x1.999999999999ap-4%float]).

Definition after_reconnect (v : locals) (r : SlowReader.reconnect_result)
  : pc * list event :=
  match r with
  | SlowReader.Returned true => (AtLoopTest v, [])
  | SlowReader.Returned false => (Finished, [Log ERROR MsgFailedToReconnect])
  | SlowReader.Retrying => (InReconnect v, [])
  end.

Definition handle_exception (e : exn) (i : iter) (self : t) (v : locals)
  : pc * t * list event :=
  if isinstance_ConnectionError_or_TimeoutError e then
    if running self then
      let '(r, self1, tr1) := reconnect (rounds i) self in
      let '(p, tr2) := after_reconnect v r in
      (p, self1, Log ERROR (MsgConnectionLost e) :: tr1 ++ tr2)
    else (AtLoopTest v, self, [])
  else
    (AtLoopTest v, self,
     Log ERROR (MsgUnexpected e) :: (if running self then [Sleep 1] else [])).

(** The statements of [read_loop] before the loop. *)
Definition start (t0 : float) (th : thread) : thread :=
  match at_ th with
  | NotStarted => mkThread (self th) (AtLoopTest (mkLocals t0 0)) (trace th)
  | _ => th
  end.

Definition step (i : iter) (th : thread) : thread :=
  match at_ th with
  | NotStarted | Finished => th
  | InReconnect v =>
      let '(r, self1, tr1) := reconnect_loop (rounds i) (self th) in
      let '(p, tr2) := after_reconnect v r in
      mkThread self1 p (trace th ++ tr1 ++ tr2)
  | AtLoopTest v =>
      let self0 := maybe_stop (stop_before i) (self th) in
      if negb (running self0) then mkThread self0 Finished (trace th)
      else
        let '(r, self1, v1, tr1) := try_body i self0 v in
        let self2 := maybe_stop (stop_during i) self1 in
        match r with
        | Ok _ => mkThread self2 (AtLoopTest v1) (trace th ++ tr1)
        | Raise e =>
            let '(p, self3, tr2) := handle_exception e i self2 v1 in
            mkThread self3 p (trace th ++ tr1 ++ tr2)
        end
  end.

Definition run (inputs : list iter) (th : thread) : thread :=
  fold_left (fun th i => step i th) inputs th.

End SlowReaderOld.

Section FixedRate.

Import SlowReaderOld.

Definition old_locals_of (p : pc) : option locals :=
  match p with
  | AtLoopTest v | InReconnect v => Some v
  | _ => None
  end.

Definition old_sizes_within (M : Z) (i : iter) : Prop :=
  match received i with
  | RecvMsg m => py_len (py_str (mdata m)) <= M
  | _ => True
  end.

(** The rate is [rate], and the window counter is zero or below it plus
    [M]. *)
Definition old_within (rate M : Z) (th : thread) : Prop :=
  bytes_per_second (self th) = rate
  /\ forall v, old_locals_of (at_ th) = Some v ->
               bytes_read_in_current_second v = 0
               \/ bytes_read_in_current_second v < rate + M.

Lemma old_stop_fields (env : stop_env) (s : t) : stop env s = set_running false s.
Proof.
  unfold stop.
  destruct (pubsub (set_running false s)); [|reflexivity].
  destruct (unsubscribe_raises env); [reflexivity|].
  destruct (pubsub_close_raises env); [reflexivity|].
  destruct (client_close_raises env); reflexivity.
Qed.

Lemma old_maybe_stop_rate (o : option stop_env) (s : t) :
  bytes_per_second (maybe_stop o s) = bytes_per_second s.
Proof. destruct o; simpl; [rewrite old_stop_fields|]; reflexivity. Qed.

Lemma old_connect_rate (o : connect_outcome) (s : t) :
  bytes_per_second (snd (fst (connect o s))) = bytes_per_second s.
Proof.
  destruct o as [h | [h|] e]; simpl; try destruct (isinstance_RedisError e); reflexivity.
Qed.

Lemma old_reconnect_loop_rate (rs : list SlowReader.round) :
  forall s, bytes_per_second (snd (fst (reconnect_loop rs s))) = bytes_per_second s.
Proof.
  induction rs as [|r rest IH]; intros s; simpl.
  - destruct (running s); reflexivity.
  - destruct (running s); simpl; [|reflexivity].
    destruct r as [env | o].
    + rewrite IH, old_stop_fields. reflexivity.
    + pose proof (old_connect_rate o s) as Hc.
      destruct (connect o s) as [[r s1] tr1]; simpl in Hc.
      destruct r as [[|]|e]; simpl; try assumption;
        match goal with
        | |- context [reconnect_loop rest ?s2] =>
            specialize (IH s2); destruct (reconnect_loop rest s2) as [[rr s3] tr4];
            simpl in *; rewrite IH; assumption
        end.
Qed.

Lemma old_after_reconnect_locals (v v' : locals) (r : SlowReader.reconnect_result) :
  old_locals_of (fst (after_reconnect v r)) = Some v' -> v' = v.
Proof. destruct r as [[|]|]; simpl; congruence. Qed.

Lemma old_handle_exception_keeps (e : exn) (i : iter) (s : t) (v : locals) :
  bytes_per_second (snd (fst (handle_exception e i s v))) = bytes_per_second s
  /\ forall v', old_locals_of (fst (fst (handle_exception e i s v))) = Some v' -> v' = v.
Proof.
  unfold handle_exception.
  destruct (isinstance_ConnectionError_or_TimeoutError e); simpl;
    [|split; [reflexivity | congruence]].
  destruct (running s); simpl; [|split; [reflexivity | congruence]].
  unfold reconnect.
  match goal with
  | |- context [reconnect_loop (rounds i) ?s1] =>
      pose proof (old_reconnect_loop_rate (rounds i) s1) as Hr;
      destruct (reconnect_loop (rounds i) s1) as [[r s2] tr2]
  end.
  pose proof (fun v' => old_after_reconnect_locals v v' r) as Hl.
  destruct (after_reconnect v r) as [p tr3]. simpl in *. auto.
Qed.

Lemma old_try_body_within (M : Z) (i : iter) (s : t) (v : locals) :
  old_sizes_within M i ->
  (bytes_read_in_current_second v = 0
   \/ bytes_read_in_current_second v < bytes_per_second s + M) ->
  bytes_per_second (snd (fst (fst (try_body i s v)))) = bytes_per_second s
  /\ (bytes_read_in_current_second (snd (fst (try_body i s v))) = 0
      \/ bytes_read_in_current_second (snd (fst (try_body i s v)))
         < bytes_per_second s + M).
Proof.
  intros Hi Hv. unfold try_body, old_sizes_within in *.
  set (v0 := if PrimFloat.leb _ _ then _ else v).
  assert (H0 : bytes_read_in_current_second v0 = 0
               \/ bytes_read_in_current_second v0 < bytes_per_second s + M)
    by (subst v0; destruct (PrimFloat.leb _ _); simpl; auto).
  destruct (Z.ltb_spec (bytes_read_in_current_second v0) (bytes_per_second s));
    [|simpl; auto].
  destruct (received i) as [|m|e]; simpl; auto.
  destruct (String.eqb _ _); simpl; auto.
  split; [reflexivity|]. right. lia.
Qed.

Lemma old_step_within (rate M : Z) (i : iter) (th : thread) :
  old_sizes_within M i -> old_within rate M th -> old_within rate M (step i th).
Proof.
  intros Hi [Hrate Hv]. unfold old_within, step.
  destruct (at_ th) as [|v0|v0|] eqn:Hat; try (rewrite Hat; auto; fail).
  - pose proof (old_maybe_stop_rate (stop_before i) (self th)) as H0.
    set (self0 := maybe_stop (stop_before i) (self th)) in *.
    destruct (negb (running self0)); simpl;
      [split; [congruence | intros ? Hx; discriminate Hx]|].
    destruct (old_try_body_within M i self0 v0 Hi) as [H1 H2];
      [rewrite H0, Hrate; apply Hv; reflexivity|].
    destruct (try_body i self0 v0) as [[[r self1] v1] tr1]. simpl in H1, H2.
    pose proof (old_maybe_stop_rate (stop_during i) self1) as H3.
    destruct r as [u|e]; simpl.
    + split; [congruence|]. intros v Hx. injection Hx as <-.
      rewrite <- Hrate, <- H0. exact H2.
    + destruct (old_handle_exception_keeps e i (maybe_stop (stop_during i) self1) v1)
        as [H4 H5].
      destruct (handle_exception _ _ _ _) as [[p self3] tr2]. simpl in *.
      split; [congruence|]. intros v Hx. rewrite (H5 v Hx).
      rewrite <- Hrate, <- H0. exact H2.
  - pose proof (old_reconnect_loop_rate (rounds i) (self th)) as Hr.
    destruct (reconnect_loop _ _) as [[r self1] tr1].
    pose proof (fun v' => old_after_reconnect_locals v0 v' r) as Hl.
    destruct (after_reconnect v0 r) as [p tr2]. simpl in *.
    split; [congruence|]. intros v Hx. rewrite (Hl v Hx). apply Hv. reflexivity.
Qed.

(** X16: in the fixed-rate reader of the older file, [bytes_per_second] is
    never reassigned, and at every loop test (so at every window reset) the
    window counter is zero or below [bytes_per_second + M], when no received
    message counts for more than [M]: the loop tests the counter before each
    receive only, so a window overshoots the rate by at most one message. *)
Theorem fixed_rate_window_overshoot
    (M : Z) (th0 : thread) (t0 : float) (inputs : list iter) (v : locals) :
  at_ th0 = NotStarted ->
  Forall (old_sizes_within M) inputs ->
  old_locals_of (at_ (run inputs (start t0 th0))) = Some v ->
  bytes_per_second (self (run inputs (start t0 th0))) = bytes_per_second (self th0)
  /\ (bytes_read_in_current_second v = 0
      \/ bytes_read_in_current_second v < bytes_per_second (self th0) + M).
Proof.
  intros Hns Hall Hv.
  assert (H0 : old_within (bytes_per_second (self th0)) M (start t0 th0)).
  { unfold old_within, start. rewrite Hns. simpl. split; [reflexivity|].
    intros v' Hx. inversion Hx; subst. left; reflexivity. }
  assert (H : old_within (bytes_per_second (self th0)) M (run inputs (start t0 th0))).
  { revert H0. generalize (start t0 th0). clear Hv.
    induction Hall as [|i inputs Hi _ IH]; intros th Hth; simpl; [exact Hth|].
    apply IH, old_step_within; assumption. }
  destruct H as [H1 H2]. split; [exact H1 | apply H2, Hv].
Qed.

End FixedRate.

(** [SlowReader('localhost', 6379, 'test_channel', 1000)] of the older file,
    and a pass that receives [b'xxx']. *)
Definition old_demo_reader : SlowReaderOld.t :=
  SlowReaderOld.mk "localhost" 6379 "test_channel" 1000
                   ConnectionStats.init true 1 30 (Some O).

Definition old_demo_pass : SlowReaderOld.iter :=
  SlowReaderOld.mkIter None 0.5%float (RecvMsg demo_message) None [].

Lemma fixed_rate_window_overshoot_witness :
  let th0 := SlowReaderOld.mkThread old_demo_reader SlowReaderOld.NotStarted [] in
  let v := SlowReaderOld.mkLocals 0%float 12 in
  SlowReaderOld.bytes_per_second
    (SlowReaderOld.self
       (SlowReaderOld.run [old_demo_pass; old_demo_pass]
          (SlowReaderOld.start 0%float th0)))
  = SlowReaderOld.bytes_per_second (SlowReaderOld.self th0)
  /\ (SlowReaderOld.bytes_read_in_current_second v = 0
      \/ SlowReaderOld.bytes_read_in_current_second v
         < SlowReaderOld.bytes_per_second (SlowReaderOld.self th0) + 6).
Proof.
  apply (fixed_rate_window_overshoot 6
           (SlowReaderOld.mkThread old_demo_reader SlowReaderOld.NotStarted [])
           0%float [old_demo_pass; old_demo_pass] (SlowReaderOld.mkLocals 0%float 12)).
  - reflexivity.
  - repeat constructor; vm_compute; discriminate.
  - vm_compute. reflexivity.
Defined.

(** ** Starting the tester *)

(** A reader thread that has just drawn its first limit. *)
Definition at_first_test (lo hi : Z) (th : SlowReader.thread) : Prop :=
  exists v, SlowReader.at_ th = SlowReader.AtLoopTest v
            /\ SlowReader.bytes_read_in_current_second v = 0
            /\ lo <= SlowReader.current_byte_limit v <= hi
            /\ SlowReader.running (SlowReader.self th) = true
            /\ SlowReader.stats (SlowReader.self th) = ConnectionStats.mk 0 0 0.

(** X17: [BufferTester.start] on a freshly built tester with a valid byte
    range starts every reader thread and then the publisher thread, in that
    order; each reader thread reaches its loop test (none dies drawing its
    first limit) with an empty window, a limit of the range, its flag set and
    zero counters; the publisher thread reaches its loop test with nothing
    sent. *)
Theorem tester_start_starts_every_thread
    (e : BufferTester.env) (tester : BufferTester.t) (lo hi : Z) (slo shi : float) :
  Forall (fresh_reader lo hi slo shi) (BufferTester.slow_readers tester) ->
  lo <= hi ->
  Publisher.at_ (BufferTester.publisher tester) = Publisher.NotStarted ->
  let started := fst (BufferTester.start e tester) in
  snd (BufferTester.start e tester)
  = [LogMain INFO MsgStartingTest]
      ++ map StartReader (seq 0 (List.length (BufferTester.slow_readers tester)))
      ++ [StartPublisher; LogMain INFO MsgAllStarted]
  /\ List.length (BufferTester.slow_readers started)
     = List.length (BufferTester.slow_readers tester)
  /\ Forall (at_first_test lo hi) (BufferTester.slow_readers started)
  /\ Publisher.at_ (BufferTester.publisher started) = Publisher.AtLoopTest
  /\ Publisher.self (BufferTester.publisher started)
     = Publisher.self (BufferTester.publisher tester).
Proof.
  intros Hfresh Hle Hpub. simpl. split; [reflexivity|]. split; [apply mapi_length|].
  split; [|unfold Publisher.start; rewrite Hpub; auto].
  apply mapi_Forall with (P := fresh_reader lo hi slo shi); [|exact Hfresh].
  intros i th (Hat & Hrun & Hst & _ & Hlo & Hhi & _).
  destruct (start_alive (fst (BufferTester.reader_start e i))
                        (snd (BufferTester.reader_start e i)) th Hat)
    as (l & Hl & Hrange); [lia|].
  assert (Hself : SlowReader.self
                    (SlowReader.start (fst (BufferTester.reader_start e i))
                                      (snd (BufferTester.reader_start e i)) th)
                  = SlowReader.self th).
  { unfold SlowReader.start. rewrite Hat.
    destruct (SlowReader.get_random_bytes_limit _ _); reflexivity. }
  eexists. split; [exact Hl|]. rewrite Hself. simpl. repeat split; auto; lia.
Qed.

Lemma tester_start_starts_every_thread_witness :
  let started := fst (BufferTester.start quiet_threads short_tester) in
  snd (BufferTester.start quiet_threads short_tester)
  = [LogMain INFO MsgStartingTest]
      ++ map StartReader (seq 0 (List.length (BufferTester.slow_readers short_tester)))
      ++ [StartPublisher; LogMain INFO MsgAllStarted]
  /\ List.length (BufferTester.slow_readers started)
     = List.length (BufferTester.slow_readers short_tester)
  /\ Forall (at_first_test 500 1500) (BufferTester.slow_readers started)
  /\ Publisher.at_ (BufferTester.publisher started) = Publisher.AtLoopTest
  /\ Publisher.self (BufferTester.publisher started)
     = Publisher.self (BufferTester.publisher short_tester).
Proof.
  apply (tester_start_starts_every_thread quiet_threads short_tester 500 1500
           0x1.999999999999ap-4%float 0.5%float).
  - repeat constructor.
  - lia.
  - reflexivity.
Defined.
